(** * Star counter (solution.js): counting, classifying, limiting and mutating
      the star markers of a rating line.

    The script manipulates the DOM of an already rendered page.  The embedding
    keeps that shape: a line element is the ordered list of its child nodes,
    a node reference is the position of the node in that list, and the
    statements of the script run in a small state-and-exception monad whose
    state is the line (or the page), so that a thrown [TypeError] still
    leaves the state reached so far.

    What is modelled of the DOM.  The stars, the count display and the control
    region are children of the line, as the script creates them; an element
    carries at most one of the classes the script selects on.  A position that
    was read before an insertion is moved by one where the script uses it
    after the insertion ([removeHalfStar]).

    Numbers.  JavaScript numbers are doubles; every total handled by the
    script is [full + half * 0.5] for two node counts, and every delta is
    one of 1, -1, 0.5, -0.5, so all values are small multiples of one half,
    which doubles represent and add exactly.  They are modelled by [Q], read
    up to [==]. *)

From Stdlib Require Import String List Arith Bool ZArith QArith Lia Lqa.
Import ListNotations.
Close Scope Q_scope.

(* ================================================================== *)
(** ** Constants *)

Module STAR_LIMITS.
Definition MIN : Q := 1.
Definition MAX : Q := 5.
End STAR_LIMITS.

Module COLOR_THRESHOLDS.
Definition RED : Q := 2.
Definition YELLOW : Q := 3.
End COLOR_THRESHOLDS.

Module COLORS.
Definition RED : string := "red".
Definition YELLOW : string := "yellow".
Definition GREEN : string := "green".
End COLORS.

(** The class names of [CSS_CLASSES]; a selector [.name] is one of them. *)
Module CSS_CLASSES.
Inductive t : Set := WRAPPER | STAR_COUNT | STAR_CONTROLS | FULL_STAR | HALF_STAR.
End CSS_CLASSES.
Definition CssClass : Set := CSS_CLASSES.t.

(* ================================================================== *)
(** ** The DOM fragment the script works on *)

(** A template literal such as [`${count.total} STARS`] is kept as its
    pieces, the interpolated number unformatted. *)
Inductive Chunk : Type :=
| Lit (s : string)
| Num (q : Q).

Definition Text := list Chunk.

(** Child nodes of a line.  Each element carries at most one of the classes
    the script selects on; everything else (white-space text nodes, other
    elements) is [Other].  Styles other than the colour of the count display
    are not modelled. *)
Inductive Node : Type :=
| FullStar                                      (* <i class="fa fa-star"> *)
| HalfStar                                      (* <i class="fa fa-star-half-o"> *)
| StarCount (textContent : Text) (color : string) (* <span class="star-count"> *)
| StarControls                                  (* <div class="star-controls"> *)
| Other.

(** A line element (class [wrapper]): its child nodes in document order. *)
Definition Line := list Node.

Definition hasClass (c : CssClass) (n : Node) : bool :=
  match c, n with
  | CSS_CLASSES.FULL_STAR, FullStar => true
  | CSS_CLASSES.HALF_STAR, HalfStar => true
  | CSS_CLASSES.STAR_COUNT, StarCount _ _ => true
  | CSS_CLASSES.STAR_CONTROLS, StarControls => true
  | _, _ => false
  end.

(** The element [#total-stars-display], when the document has one, with the
    module variable [cachedTotalDisplay] that may already point to it. *)
Inductive TotalDisplay : Type :=
| NoTotalDisplay
| TotalDisplayDiv (cached : bool) (textContent : Text).

(** The element [#main], when the document has one, with
    [cachedMainContainer]. *)
Inductive MainContainer : Type :=
| NoMain
| MainDiv (cached : bool).

Record Page : Type := mkPage {
  wrappers : list Line;          (* document.querySelectorAll('.wrapper') *)
  mainContainer : MainContainer;
  totalDisplay : TotalDisplay
}.

(* ================================================================== *)
(** ** Statements: state and exceptions *)

Inductive Exn : Set := TypeError | NotFoundError.

Inductive Completion (A : Type) : Type :=
| Normal (a : A)
| Throw (e : Exn).
Arguments Normal {A} a.
Arguments Throw {A} e.

Definition M (S A : Type) : Type := S -> Completion A * S.

Definition ret {S A : Type} (a : A) : M S A := fun s => (Normal a, s).

Definition bind {S A B : Type} (m : M S A) (k : A -> M S B) : M S B :=
  fun s => match m s with
           | (Normal a, s') => k a s'
           | (Throw e, s') => (Throw e, s')
           end.

Definition throw {S A : Type} (e : Exn) : M S A := fun s => (Throw e, s).
Definition gets {S A : Type} (f : S -> A) : M S A := fun s => (Normal (f s), s).
Definition modify {S : Type} (f : S -> S) : M S unit := fun s => (Normal tt, f s).

Declare Scope js_scope.
Delimit Scope js_scope with js.
Notation "x <- m ;; k" := (bind m (fun x => k))
  (at level 61, m at next level, right associativity) : js_scope.
Notation "m ;; k" := (bind m (fun _ => k))
  (at level 61, right associativity) : js_scope.
Open Scope js_scope.

(** [a || b] on two possibly-null references. *)
Definition orElse {A : Type} (a b : option A) : option A :=
  match a with Some _ => a | None => b end.

(* ================================================================== *)
(** ** DOM primitives on a line *)

Fixpoint indicesFrom (c : CssClass) (i : nat) (l : Line) : list nat :=
  match l with
  | [] => []
  | n :: r => if hasClass c n then i :: indicesFrom c (S i) r
              else indicesFrom c (S i) r
  end.

(** [lineElement.querySelectorAll('.c')]: the matching children, in order.
    The lines modelled are those whose star icons and display regions are
    children of the line element, as the script itself inserts them; an
    icon nested deeper in the line is outside the model. *)
Definition querySelectorAll (c : CssClass) (l : Line) : list nat :=
  indicesFrom c 0 l.

(** [lineElement.querySelector('.c')]: the first match, or null. *)
Definition querySelector (c : CssClass) (l : Line) : option nat :=
  hd_error (querySelectorAll c l).

(** [nodeList[i]]: undefined out of range. *)
Definition item (nl : list nat) (i : nat) : option nat := nth_error nl i.

Definition removeAt (i : nat) (l : Line) : Line := firstn i l ++ skipn (S i) l.
Definition insertAt (i : nat) (n : Node) (l : Line) : Line :=
  firstn i l ++ n :: skipn i l.

(** [ref.remove()]; on undefined it is a TypeError. *)
Definition remove (ref : option nat) : M Line unit :=
  match ref with
  | Some i => modify (removeAt i)
  | None => throw TypeError
  end.

(** [lineElement.appendChild(new)]. *)
Definition appendChild (new : option Node) : M Line unit :=
  match new with
  | Some n => modify (fun l => l ++ [n])
  | None => throw TypeError
  end.

(** [lineElement.insertBefore(new, ref)]: a null [ref] appends, a [ref] that
    is not a child is a NotFoundError, a null [new] a TypeError. *)
Definition insertBefore (new : option Node) (ref : option nat) : M Line unit :=
  match new with
  | None => throw TypeError
  | Some n =>
      match ref with
      | None => modify (fun l => l ++ [n])
      | Some i => fun l => if i <? length l then (Normal tt, insertAt i n l)
                           else (Throw NotFoundError, l)
      end
  end.

(** [ref.nextSibling]. *)
Definition nextSibling (ref : nat) (l : Line) : option nat :=
  if S ref <? length l then Some (S ref) else None.

(* ================================================================== *)
(** ** Counter, Classifier, Limiter *)

Record StarCountObj : Type := mkCount {
  fullStars : nat;
  halfStars : nat;
  total : Q
}.

Definition ofNat (n : nat) : Q := inject_Z (Z.of_nat n).

Definition countStarsInLine (lineElement : Line) : StarCountObj :=
  let fullStars := querySelectorAll CSS_CLASSES.FULL_STAR lineElement in
  let halfStars := querySelectorAll CSS_CLASSES.HALF_STAR lineElement in
  let fullStarsCount := length fullStars in
  let halfStarsCount := length halfStars in
  let total := (ofNat fullStarsCount + ofNat halfStarsCount * (1 # 2))%Q in
  mkCount fullStarsCount halfStarsCount total.

Definition getColorForStarCount (starCount : StarCountObj) : string :=
  if 0 <? halfStars starCount then COLORS.GREEN
  else if Qle_bool (total starCount) COLOR_THRESHOLDS.RED then COLORS.RED
  else COLORS.YELLOW.

Definition isStarChangeAllowed (currentTotal changeAmount : Q) : bool :=
  let newTotal := (currentTotal + changeAmount)%Q in
  Qle_bool STAR_LIMITS.MIN newTotal && Qle_bool newTotal STAR_LIMITS.MAX.

(* ================================================================== *)
(** ** Element creation and insertion *)

(** [createStarIcon(starType)]: the icon parsed from the markup, or null
    ([tempDiv.firstElementChild] of an empty container) for any other
    argument. *)
Definition createStarIcon (starType : string) : option Node :=
  if String.eqb starType "full" then Some FullStar
  else if String.eqb starType "half" then Some HalfStar
  else None.

Definition findStarInsertionPoint (lineElement : Line) : option nat :=
  match querySelector CSS_CLASSES.STAR_COUNT lineElement with
  | Some countDisplay => Some countDisplay
  | None =>
      match querySelector CSS_CLASSES.STAR_CONTROLS lineElement with
      | Some buttonContainer => Some buttonContainer
      | None => None
      end
  end.

Definition insertStarElement (starElement : option Node) (before : option nat)
  : M Line unit :=
  fallback <- gets findStarInsertionPoint ;;
  let targetElement := orElse before fallback in
  match targetElement with
  | Some _ => insertBefore starElement targetElement
  | None => appendChild starElement
  end.

(** [ref.nextSibling], a TypeError when [ref] is undefined. *)
Definition nextSiblingOf (ref : option nat) : M Line (option nat) :=
  match ref with
  | Some i => gets (nextSibling i)
  | None => throw TypeError
  end.

(* ================================================================== *)
(** ** Mutator: the four star operations on one line *)

Definition addFullStar : M Line unit :=
  currentCount <- gets countStarsInLine ;;
  if negb (isStarChangeAllowed (total currentCount) 1) then ret tt
  else
    let starIcon := createStarIcon "full" in
    halfStar <- gets (querySelector CSS_CLASSES.HALF_STAR) ;;
    point <- gets findStarInsertionPoint ;;
    let before := orElse halfStar point in
    insertStarElement starIcon before.

Definition removeFullStar : M Line unit :=
  currentCount <- gets countStarsInLine ;;
  if negb (isStarChangeAllowed (total currentCount) (-1)) then ret tt
  else
    allFullStars <- gets (querySelectorAll CSS_CLASSES.FULL_STAR) ;;
    if 0 <? length allFullStars then
      let lastFullStar := item allFullStars (length allFullStars - 1) in
      remove lastFullStar
    else ret tt.

Definition addHalfStar : M Line unit :=
  currentCount <- gets countStarsInLine ;;
  if negb (isStarChangeAllowed (total currentCount) (1 # 2)) then ret tt
  else
    existingHalfStar <- gets (querySelector CSS_CLASSES.HALF_STAR) ;;
    match existingHalfStar with
    | Some _ =>
        (* merge: the half star goes, a full star comes *)
        remove existingHalfStar ;;
        let fullStarIcon := createStarIcon "full" in
        allFullStars <- gets (querySelectorAll CSS_CLASSES.FULL_STAR) ;;
        before <- gets findStarInsertionPoint ;;
        if 0 <? length allFullStars then
          let lastFullStar := item allFullStars (length allFullStars - 1) in
          next <- nextSiblingOf lastFullStar ;;
          insertBefore fullStarIcon (orElse next before)
        else insertStarElement fullStarIcon before
    | None =>
        let halfStarIcon := createStarIcon "half" in
        point <- gets findStarInsertionPoint ;;
        insertStarElement halfStarIcon point
    end.

Definition removeHalfStar : M Line unit :=
  currentCount <- gets countStarsInLine ;;
  if negb (isStarChangeAllowed (total currentCount) (- (1 # 2))) then ret tt
  else
    existingHalfStar <- gets (querySelector CSS_CLASSES.HALF_STAR) ;;
    match existingHalfStar with
    | Some _ => remove existingHalfStar
    | None =>
        allFullStars <- gets (querySelectorAll CSS_CLASSES.FULL_STAR) ;;
        if 0 <? length allFullStars then
          let lastFullStar := item allFullStars (length allFullStars - 1) in
          let halfStarIcon := createStarIcon "half" in
          insertBefore halfStarIcon lastFullStar ;;
          (* the full star now sits one position after the new icon *)
          remove (option_map S lastFullStar)
        else ret tt
    end.

(* ================================================================== *)
(** ** Renderer *)

(** The line with [f] applied to the child at position [i]. *)
Definition updateAt (i : nat) (f : Node -> Node) (l : Line) : Line :=
  firstn i l ++ match nth_error l i with
                | Some n => f n :: skipn (S i) l
                | None => []
                end.

(** [countDisplay.textContent = t] and [countDisplay.style.color = c]; the
    reference always comes from a [.star-count] query or from
    [createCountDisplayElement]. *)
Definition setTextContent (ref : nat) (t : Text) : M Line unit :=
  modify (updateAt ref (fun n => match n with
                                 | StarCount _ c => StarCount t c
                                 | other => other
                                 end)).

Definition setColor (ref : nat) (c : string) : M Line unit :=
  modify (updateAt ref (fun n => match n with
                                 | StarCount t _ => StarCount t c
                                 | other => other
                                 end)).

(** Appends the span and returns the reference to it. *)
Definition createCountDisplayElement : M Line nat :=
  position <- gets (@length Node) ;;
  appendChild (Some (StarCount [] "")) ;;
  ret position.

Definition updateLineDisplay (starCount : option StarCountObj) : M Line unit :=
  counted <- gets countStarsInLine ;;
  let count := match starCount with Some c => c | None => counted end in
  found <- gets (querySelector CSS_CLASSES.STAR_COUNT) ;;
  countDisplay <- match found with
                  | Some d => ret d
                  | None => createCountDisplayElement
                  end ;;
  setTextContent countDisplay [Num (total count); Lit " STARS"] ;;
  setColor countDisplay (getColorForStarCount count).

(** The wrappers with the line at position [i] replaced. *)
Definition setLine (i : nat) (l : Line) (ws : list Line) : list Line :=
  firstn i ws ++ match nth_error ws i with
                 | Some _ => l :: skipn (S i) ws
                 | None => []
                 end.

(** Runs a statement about [lineElement] (a position among the wrappers) on
    the page; an undefined [lineElement] is a TypeError at its first use. *)
Definition withLine {A : Type} (lineElement : nat) (m : M Line A) : M Page A :=
  fun p =>
    match nth_error (wrappers p) lineElement with
    | None => (Throw TypeError, p)
    | Some l =>
        let (c, l') := m l in
        (c, mkPage (setLine lineElement l' (wrappers p))
                   (mainContainer p) (totalDisplay p))
    end.

Definition calculateTotalStars (p : Page) : Q :=
  fold_left (fun total_ line => (total_ + total (countStarsInLine line))%Q)
            (wrappers p) 0%Q.

(** Returns whether the container is non-null. *)
Definition getMainContainer : M Page bool :=
  fun p =>
    match mainContainer p with
    | NoMain => (Normal false, p)
    | MainDiv _ => (Normal true, mkPage (wrappers p) (MainDiv true) (totalDisplay p))
    end.

Definition setTotalDisplay (d : TotalDisplay) : M Page unit :=
  modify (fun p => mkPage (wrappers p) (mainContainer p) d).

Definition createTotalDisplayElement : M Page unit :=
  main <- getMainContainer ;;
  if main then setTotalDisplay (TotalDisplayDiv false [])
  else throw TypeError.

(** After it returns normally the element exists and is cached. *)
Definition getTotalDisplay : M Page unit :=
  d <- gets totalDisplay ;;
  match d with
  | TotalDisplayDiv true _ => ret tt
  | TotalDisplayDiv false t => setTotalDisplay (TotalDisplayDiv true t)
  | NoTotalDisplay =>
      createTotalDisplayElement ;;
      setTotalDisplay (TotalDisplayDiv true [])
  end.

Definition updateTotalDisplay (total_ : option Q) : M Page unit :=
  computed <- gets calculateTotalStars ;;
  let calculatedTotal := match total_ with Some t => t | None => computed end in
  getTotalDisplay ;;
  d <- gets totalDisplay ;;
  match d with
  | TotalDisplayDiv cached _ =>
      setTotalDisplay
        (TotalDisplayDiv cached [Lit "Total: "; Num calculatedTotal; Lit " STARS"])
  | NoTotalDisplay => throw TypeError
  end.

(** [updateAllLinesDisplay]: the lines are visited in document order, each
    count is pushed on [starCounts] and shown on its line. *)
Fixpoint forEachLine (lines : list nat) (starCounts : list StarCountObj)
  : M Page (list StarCountObj) :=
  match lines with
  | [] => ret starCounts
  | line :: rest =>
      starCount <- withLine line (gets countStarsInLine) ;;
      withLine line (updateLineDisplay (Some starCount)) ;;
      forEachLine rest (starCounts ++ [starCount])
  end.

Definition allLines (p : Page) : list nat := seq 0 (length (wrappers p)).

Definition updateAllLinesDisplay : M Page (list StarCountObj) :=
  lines <- gets allLines ;;
  forEachLine lines [].

Definition calculateTotalFromCounts (starCounts : list StarCountObj) : Q :=
  fold_left (fun sum count => (sum + total count)%Q) starCounts 0%Q.

Definition updateAllDisplays : M Page unit :=
  starCounts <- updateAllLinesDisplay ;;
  let total_ := calculateTotalFromCounts starCounts in
  updateTotalDisplay (Some total_).

(** [addButtonsToLine]: the control region is appended, once. *)
Definition addButtonsToLine : M Line unit :=
  existing <- gets (querySelector CSS_CLASSES.STAR_CONTROLS) ;;
  match existing with
  | Some _ => ret tt
  | None => appendChild (Some StarControls)
  end.

(* ================================================================== *)
(** ** Interaction: the change handler behind the four buttons *)

(** The [change] fields of the button table of [addButtonsToLine]. *)
Definition buttons : list (string * Q) :=
  [ ("Remove 1 Star"%string, (-1)%Q);
    ("Add 1 Star"%string, 1%Q);
    ("Remove 0.5 Star"%string, (- (1 # 2))%Q);
    ("Add 0.5 Star"%string, (1 # 2)%Q) ].

Definition handleStarChange (lineElement : nat) (changeAmount : Q) : M Page unit :=
  currentCount <- withLine lineElement (gets countStarsInLine) ;;
  if negb (isStarChangeAllowed (total currentCount) changeAmount) then ret tt
  else
    (if Qeq_bool changeAmount 1 then withLine lineElement addFullStar
     else if Qeq_bool changeAmount (-1) then withLine lineElement removeFullStar
     else if Qeq_bool changeAmount (1 # 2) then withLine lineElement addHalfStar
     else if Qeq_bool changeAmount (- (1 # 2)) then withLine lineElement removeHalfStar
     else ret tt) ;;
    newCount <- withLine lineElement (gets countStarsInLine) ;;
    withLine lineElement (updateLineDisplay (Some newCount)) ;;
    updateTotalDisplay None.

(* ================================================================== *)
(** ** Derived notions used by the statements *)

(** The reference the code calls [allStars[allStars.length - 1]], guarded by
    [allStars.length > 0]. *)
Definition lastOf (c : CssClass) (l : Line) : option nat :=
  let all := querySelectorAll c l in
  if 0 <? length all then item all (length all - 1) else None.

(** Where [insertStarElement] puts a star when no reference is given:
    before the insertion point, or at the end. *)
Definition insertionIndex (l : Line) : nat :=
  match findStarInsertionPoint l with
  | Some k => k
  | None => length l
  end.

(** Where [addFullStar] puts the new star. *)
Definition fullTarget (l : Line) : nat :=
  match querySelector CSS_CLASSES.HALF_STAR l with
  | Some h => h
  | None => insertionIndex l
  end.

(** Where the merge of [addHalfStar] puts the full star, in the line from
    which the half star has been taken out. *)
Definition mergeTarget (l : Line) : nat :=
  match lastOf CSS_CLASSES.FULL_STAR l with
  | Some j => match nextSibling j l with
              | Some s => s
              | None => insertionIndex l
              end
  | None => insertionIndex l
  end.

(** The markers of a line: its star icons, in order. *)
Inductive Marker : Set := Full | Half.

Definition markerOf (n : Node) : option Marker :=
  match n with
  | FullStar => Some Full
  | HalfStar => Some Half
  | _ => None
  end.

Fixpoint markers (l : Line) : list Marker :=
  match l with
  | [] => []
  | n :: r => match markerOf n with
              | Some m => m :: markers r
              | None => markers r
              end
  end.

(** Full markers first, then at most one half marker. *)
Fixpoint fullsThenHalf (ms : list Marker) : bool :=
  match ms with
  | [] => true
  | Full :: r => fullsThenHalf r
  | Half :: r => match r with [] => true | _ :: _ => false end
  end.

(** No marker at or after the insertion point. *)
Definition starsBeforeRegions (l : Line) : bool :=
  match markers (skipn (insertionIndex l) l) with
  | [] => true
  | _ :: _ => false
  end.

(** The canonical form the mutator maintains. *)
Definition canonical (l : Line) : bool :=
  fullsThenHalf (markers l) && starsBeforeRegions l.

Definition lineTotal (l : Line) : Q := total (countStarsInLine l).

(** The sum of the totals of the lines, as the specification words it. *)
Fixpoint sumTotals (ws : list Line) : Q :=
  match ws with
  | [] => 0%Q
  | l :: r => (lineTotal l + sumTotals r)%Q
  end.

(** The number shown in the aggregate region, if the region shows one. *)
Definition displayedTotal (p : Page) : option Q :=
  match totalDisplay p with
  | TotalDisplayDiv _ [Lit "Total: "; Num q; Lit " STARS"] => Some q
  | _ => None
  end.

(** The aggregate region exists and shows the sum of the current totals. *)
Definition inSync (p : Page) : Prop :=
  exists q, displayedTotal p = Some q /\ (q == sumTotals (wrappers p))%Q.

(** Mutation requests. *)
Inductive Op : Set := OpAddFull | OpRemoveFull | OpAddHalf | OpRemoveHalf.

Definition runOp (o : Op) : M Line unit :=
  match o with
  | OpAddFull => addFullStar
  | OpRemoveFull => removeFullStar
  | OpAddHalf => addHalfStar
  | OpRemoveHalf => removeHalfStar
  end.

Definition opDelta (o : Op) : Q :=
  match o with
  | OpAddFull => 1
  | OpRemoveFull => -1
  | OpAddHalf => 1 # 2
  | OpRemoveHalf => - (1 # 2)
  end.

Fixpoint runOps (os : list Op) : M Line unit :=
  match os with
  | [] => ret tt
  | o :: r => runOp o ;; runOps r
  end.

(** No child of the line carries the class. *)
Definition noneOf (c : CssClass) (l : Line) : Prop := filter (hasClass c) l = [].

(** How many children carry the class. *)
Definition cnt (c : CssClass) (l : Line) : nat := length (filter (hasClass c) l).

(** How the two counts move under each accepted operation; [removeFullStar]
    alone can leave them as they are, on a line without a full star. *)
Inductive CountsMove (l l' : Line) : Op -> Prop :=
| MoveAddFull :
    cnt CSS_CLASSES.FULL_STAR l' = cnt CSS_CLASSES.FULL_STAR l + 1 ->
    cnt CSS_CLASSES.HALF_STAR l' = cnt CSS_CLASSES.HALF_STAR l ->
    CountsMove l l' OpAddFull
| MoveRemoveFull :
    cnt CSS_CLASSES.FULL_STAR l' + 1 = cnt CSS_CLASSES.FULL_STAR l ->
    cnt CSS_CLASSES.HALF_STAR l' = cnt CSS_CLASSES.HALF_STAR l ->
    CountsMove l l' OpRemoveFull
| MoveNoFull :
    cnt CSS_CLASSES.FULL_STAR l = 0 -> l' = l ->
    CountsMove l l' OpRemoveFull
| MoveMerge :
    cnt CSS_CLASSES.FULL_STAR l' = cnt CSS_CLASSES.FULL_STAR l + 1 ->
    cnt CSS_CLASSES.HALF_STAR l' + 1 = cnt CSS_CLASSES.HALF_STAR l ->
    CountsMove l l' OpAddHalf
| MoveAddHalf :
    cnt CSS_CLASSES.FULL_STAR l' = cnt CSS_CLASSES.FULL_STAR l ->
    cnt CSS_CLASSES.HALF_STAR l' = cnt CSS_CLASSES.HALF_STAR l + 1 ->
    CountsMove l l' OpAddHalf
| MoveRemoveHalf :
    cnt CSS_CLASSES.FULL_STAR l' = cnt CSS_CLASSES.FULL_STAR l ->
    cnt CSS_CLASSES.HALF_STAR l' + 1 = cnt CSS_CLASSES.HALF_STAR l ->
    CountsMove l l' OpRemoveHalf
| MoveSplit :
    cnt CSS_CLASSES.FULL_STAR l' + 1 = cnt CSS_CLASSES.FULL_STAR l ->
    cnt CSS_CLASSES.HALF_STAR l' = cnt CSS_CLASSES.HALF_STAR l + 1 ->
    CountsMove l l' OpRemoveHalf.

Definition sameMarker (a b : Marker) : bool :=
  match a, b with
  | Full, Full | Half, Half => true
  | _, _ => false
  end.

(** The canonical marker sequences: [n] full markers, then a half marker
    or nothing. *)
Definition halfTail (h : bool) : list Marker := if h then [Half] else [].
Definition shape (n : nat) (h : bool) : list Marker := repeat Full n ++ halfTail h.

(** A line cut at its insertion point: [post] starts with the first count
    display, or without one with the first control region, or is empty. *)
Definition InsertionSplit (pre post : Line) : Prop :=
  noneOf CSS_CLASSES.STAR_COUNT pre /\
  ((exists t c r, post = StarCount t c :: r) \/
   (noneOf CSS_CLASSES.STAR_COUNT post /\ noneOf CSS_CLASSES.STAR_CONTROLS pre /\
    (post = [] \/ exists r, post = StarControls :: r))).

(** The marker sequence after an accepted operation, from the one before. *)
Definition shapeStep (o : Op) (n : nat) (h : bool) : nat * bool :=
  match o with
  | OpAddFull => (S n, h)
  | OpRemoveFull => (pred n, h)
  | OpAddHalf => if h then (S n, false) else (n, true)
  | OpRemoveHalf =>
      if h then (n, false)
      else match n with S m => (m, true) | 0 => (0, false) end
  end.

Definition shapeAfter (o : Op) (n : nat) (h : bool) : list Marker :=
  let (n', h') := shapeStep o n h in shape n' h'.

(* ================================================================== *)
(** ** Categories of the specification *)

(** The three categories, and the colour the renderer gives each. *)
Inductive Category : Set := low | mid | flagged.

Definition categoryColor (c : Category) : string :=
  match c with
  | flagged => COLORS.GREEN
  | low => COLORS.RED
  | mid => COLORS.YELLOW
  end.

(* ================================================================== *)
(** ** Sample lines and pages *)

Definition countOf (t : Q) (c : string) : Node := StarCount [Num t; Lit " STARS"] c.

(** Two full stars and a half star, displays in place. *)
Definition lineTwoAndHalf : Line :=
  [FullStar; Other; FullStar; Other; HalfStar; countOf (5 # 2) "green"; StarControls].

Definition lineOne : Line := [FullStar; countOf 1 "red"; StarControls].

Definition lineFive : Line :=
  [FullStar; FullStar; FullStar; FullStar; FullStar; countOf 5 "yellow"; StarControls].

Definition lineTwelveHalves : Line := repeat HalfStar 12.

Definition samplePage : Page :=
  mkPage [lineTwoAndHalf; lineOne]
         (MainDiv true)
         (TotalDisplayDiv true [Lit "Total: "; Num (7 # 2); Lit " STARS"]).

(** What [updateLineDisplay] makes of a line when given its own count. *)
Definition rendered (l : Line) : Line :=
  snd (updateLineDisplay (Some (countStarsInLine l)) l).

(** A run of button clicks on one line. *)
Fixpoint clicks (lineElement : nat) (changes : list Q) : M Page unit :=
  match changes with
  | [] => ret tt
  | changeAmount :: rest =>
      handleStarChange lineElement changeAmount ;; clicks lineElement rest
  end.

(** A page as supplied: one line of two full stars, nothing rendered yet. *)
Definition pageOfTwo : Page :=
  mkPage [[FullStar; Other; FullStar]] (MainDiv false) NoTotalDisplay.

(* ================================================================== *)
(** ** Initialization: buttons, click handlers and the console *)

(** [list.forEach(f)]. *)
Fixpoint forEach {S A : Type} (xs : list A) (f : A -> M S unit) : M S unit :=
  match xs with
  | [] => ret tt
  | x :: rest => f x ;; forEach rest f
  end.

Definition addButtonsToAllLines : M Page unit :=
  lines <- gets allLines ;;
  forEach lines (fun line => withLine line addButtonsToLine).

(** What [addButtonsToLine] makes of a line. *)
Definition wired (l : Line) : Line := snd (addButtonsToLine l).

(** The two messages the script writes to the console. *)
Inductive ConsoleEntry : Set :=
| WarnNoLines                   (* console.warn('No star lines found. ...') *)
| LogInitialized (lines : nat). (* console.log(`... initialized: ${n} lines processed`) *)

(** What [attachClickHandlers] reads and writes on a line element. *)
Record LineWiring : Set := mkWiring {
  clickHandlerAttached : option string;  (* line.dataset.clickHandlerAttached *)
  clickListeners : nat;                  (* click listeners added to the line *)
  cursor : string                        (* line.style.cursor *)
}.

(** The page with, for the line at each position, its wiring, and the
    console, oldest message first. *)
Record Document : Type := mkDocument {
  page : Page;
  wiring : nat -> LineWiring;
  console : list ConsoleEntry
}.

(** A statement on the page, run in the document. *)
Definition onPage {A : Type} (m : M Page A) : M Document A :=
  fun d => let (c, p') := m (page d) in (c, mkDocument p' (wiring d) (console d)).

Definition consoleWrite (e : ConsoleEntry) : M Document unit :=
  modify (fun d => mkDocument (page d) (wiring d) (console d ++ [e])).

(** The body of the loop of [attachClickHandlers], on one line's wiring. *)
Definition attachClickHandler (w : LineWiring) : LineWiring :=
  match clickHandlerAttached w with
  | Some flag =>
      if String.eqb flag "true" then w
      else mkWiring (Some "true"%string) (S (clickListeners w)) "pointer"
  | None => mkWiring (Some "true"%string) (S (clickListeners w)) "pointer"
  end.

Definition attachClickHandlers : M Document unit :=
  lines <- gets (fun d => allLines (page d)) ;;
  forEach lines
    (fun line =>
       modify (fun d =>
                 mkDocument (page d)
                   (fun j => if j =? line then attachClickHandler (wiring d j)
                             else wiring d j)
                   (console d))).

Definition initializeStarCounter : M Document unit :=
  lines <- gets (fun d => allLines (page d)) ;;
  if length lines =? 0 then consoleWrite WarnNoLines
  else
    onPage updateAllDisplays ;;
    attachClickHandlers ;;
    onPage addButtonsToAllLines ;;
    consoleWrite (LogInitialized (length lines)).

(** Button clicks anywhere on the page: the line and the amount of each. *)
Fixpoint clickAll (requests : list (nat * Q)) : M Page unit :=
  match requests with
  | [] => ret tt
  | (lineElement, changeAmount) :: rest =>
      handleStarChange lineElement changeAmount ;; clickAll rest
  end.

(** The operation that takes back what [o] does. *)
Definition opposite (o : Op) : Op :=
  match o with
  | OpAddFull => OpRemoveFull
  | OpRemoveFull => OpAddFull
  | OpAddHalf => OpRemoveHalf
  | OpRemoveHalf => OpAddHalf
  end.

(** The first count display of the line shows the line's own total, in the
    colour of its own count. *)
Definition labelled (l : Line) : Prop :=
  exists d,
    querySelector CSS_CLASSES.STAR_COUNT l = Some d /\
    nth_error l d
    = Some (StarCount [Num (lineTotal l); Lit " STARS"]
                      (getColorForStarCount (countStarsInLine l))).

(** A page in order: the aggregate region in sync, every line canonical
    and labelled. *)
Definition tidy (p : Page) : Prop :=
  inSync p /\
  Forall (fun l => canonical l = true /\ labelled l) (wrappers p).

Definition inRange (l : Line) : Prop :=
  (1 <= lineTotal l /\ lineTotal l <= 5)%Q.

(** A page as supplied, nothing rendered: three lines, one without stars. *)
Definition suppliedPage : Page :=
  mkPage [[FullStar; Other; FullStar]; [Other]; [FullStar; HalfStar]]
         (MainDiv false) NoTotalDisplay.

(** The same page after its first rendering. *)
Definition renderedPage : Page := snd (updateAllDisplays suppliedPage).

Definition noWiring : nat -> LineWiring := fun _ => mkWiring None 0 "".

Definition suppliedDocument : Document := mkDocument suppliedPage noWiring [].


(** A page whose one line has twelve half stars and no full star. *)
Definition pageTwelveHalves : Page :=
  mkPage [lineTwelveHalves] (MainDiv false) NoTotalDisplay.

(* ================================================================== *)
(** ** Queries: positions of the matching children *)

Section Queries.
Variable c : CssClass.

Lemma indicesFrom_app (pre post : Line) (i : nat) :
  indicesFrom c i (pre ++ post)
  = indicesFrom c i pre ++ indicesFrom c (i + length pre) post.
Proof.
  revert i; induction pre as [|x pre IH]; intro i; simpl.
  - now rewrite Nat.add_0_r.
  - rewrite IH, <- Nat.add_succ_comm.
    now destruct (hasClass c x).
Qed.

Lemma indicesFrom_length (l : Line) (i : nat) :
  length (indicesFrom c i l) = length (filter (hasClass c) l).
Proof.
  revert i; induction l as [|x l IH]; intro i; simpl; [reflexivity|].
  destruct (hasClass c x); simpl; now rewrite IH.
Qed.

Lemma indicesFrom_noneOf (l : Line) (i : nat) :
  noneOf c l -> indicesFrom c i l = [].
Proof.
  intro H. apply length_zero_iff_nil.
  rewrite indicesFrom_length. unfold noneOf in H. now rewrite H.
Qed.

Lemma noneOf_app (a b : Line) : noneOf c (a ++ b) <-> noneOf c a /\ noneOf c b.
Proof.
  unfold noneOf. rewrite filter_app. split.
  - intro H. now apply app_eq_nil in H.
  - intros [Ha Hb]. now rewrite Ha, Hb.
Qed.

Lemma noneOf_cons (x : Node) (l : Line) :
  noneOf c (x :: l) <-> hasClass c x = false /\ noneOf c l.
Proof.
  unfold noneOf; simpl. destruct (hasClass c x); split; intros H;
    try discriminate; intuition discriminate.
Qed.

Lemma hd_indicesFrom_split (l : Line) (o i : nat) :
  hd_error (indicesFrom c o l) = Some i ->
  exists pre x post,
    l = pre ++ x :: post /\ o + length pre = i /\
    hasClass c x = true /\ noneOf c pre.
Proof.
  revert o; induction l as [|y l IH]; intros o H; simpl in H; [discriminate|].
  destruct (hasClass c y) eqn:E.
  - simpl in H. injection H as <-.
    exists [], y, l. simpl. repeat split; auto.
  - destruct (IH _ H) as (pre & x & post & -> & <- & Hx & Hpre).
    exists (y :: pre), x, post. simpl. repeat split; auto; try lia.
    apply noneOf_cons; auto.
Qed.

Lemma querySelector_Some (l : Line) (i : nat) :
  querySelector c l = Some i ->
  exists pre x post,
    l = pre ++ x :: post /\ length pre = i /\
    hasClass c x = true /\ noneOf c pre.
Proof.
  intro H. destruct (hd_indicesFrom_split l 0 i H) as (pre & x & post & ? & ? & ? & ?).
  exists pre, x, post. auto.
Qed.

Lemma querySelector_None (l : Line) : querySelector c l = None -> noneOf c l.
Proof.
  unfold querySelector, querySelectorAll, noneOf. intro H.
  apply length_zero_iff_nil. rewrite <- (indicesFrom_length l 0).
  destruct (indicesFrom c 0 l); [reflexivity | discriminate].
Qed.

Lemma querySelector_split (pre post : Line) (x : Node) :
  noneOf c pre -> hasClass c x = true ->
  querySelector c (pre ++ x :: post) = Some (length pre).
Proof.
  intros Hpre Hx. unfold querySelector, querySelectorAll.
  rewrite indicesFrom_app, (indicesFrom_noneOf _ 0 Hpre). simpl. now rewrite Hx.
Qed.

Lemma querySelector_noneOf (l : Line) : noneOf c l -> querySelector c l = None.
Proof.
  intro H. unfold querySelector, querySelectorAll.
  now rewrite (indicesFrom_noneOf _ 0 H).
Qed.

Lemma lastOf_split (pre post : Line) (x : Node) :
  hasClass c x = true -> noneOf c post ->
  lastOf c (pre ++ x :: post) = Some (length pre).
Proof.
  intros Hx Hpost. unfold lastOf, querySelectorAll, item.
  rewrite indicesFrom_app. simpl. rewrite Hx, (indicesFrom_noneOf _ _ Hpost).
  rewrite length_app. simpl.
  replace (length (indicesFrom c 0 pre) + 1 - 1) with
    (length (indicesFrom c 0 pre) + 0) by lia.
  replace (0 <? length (indicesFrom c 0 pre) + 1) with true
    by (symmetry; apply Nat.ltb_lt; lia).
  now rewrite nth_error_app2, Nat.add_0_r, Nat.sub_diag by lia.
Qed.

Lemma lastOf_noneOf (l : Line) : noneOf c l -> lastOf c l = None.
Proof.
  intro H. unfold lastOf, querySelectorAll.
  now rewrite (indicesFrom_noneOf _ 0 H).
Qed.

(** Every line either has no matching child or splits at its last one. *)
Lemma last_split (l : Line) :
  noneOf c l \/
  exists pre x post, l = pre ++ x :: post /\ hasClass c x = true /\ noneOf c post.
Proof.
  induction l as [|y l IH] using rev_ind.
  - now left.
  - destruct (hasClass c y) eqn:E.
    + right. exists l, y, []. repeat split; auto.
    + destruct IH as [H | (pre & x & post & -> & Hx & Hpost)].
      * left. apply noneOf_app. split; auto. apply noneOf_cons. now split.
      * right. exists pre, x, (post ++ [y]).
        rewrite <- app_assoc. simpl. repeat split; auto.
        apply noneOf_app. split; auto. apply noneOf_cons. now split.
Qed.

Lemma lastOf_Some (l : Line) (j : nat) :
  lastOf c l = Some j ->
  exists pre x post,
    l = pre ++ x :: post /\ length pre = j /\
    hasClass c x = true /\ noneOf c post.
Proof.
  intro H. destruct (last_split l) as [Hn | (pre & x & post & -> & Hx & Hpost)].
  - rewrite (lastOf_noneOf _ Hn) in H. discriminate.
  - rewrite (lastOf_split pre post x Hx Hpost) in H. injection H as <-.
    exists pre, x, post. auto.
Qed.

Lemma lastOf_None (l : Line) : lastOf c l = None -> noneOf c l.
Proof.
  intro H. destruct (last_split l) as [Hn | (pre & x & post & -> & Hx & Hpost)];
    [assumption|].
  rewrite (lastOf_split pre post x Hx Hpost) in H. discriminate.
Qed.

Lemma lastOf_nonempty (l : Line) :
  (0 <? length (querySelectorAll c l)) = true ->
  exists j, item (querySelectorAll c l) (length (querySelectorAll c l) - 1) = Some j
            /\ lastOf c l = Some j.
Proof.
  intro H. unfold lastOf. rewrite H.
  destruct (item _ _) as [j|] eqn:E; [now exists j|].
  apply nth_error_None in E. apply Nat.ltb_lt in H. lia.
Qed.

Lemma lastOf_empty (l : Line) :
  (0 <? length (querySelectorAll c l)) = false -> lastOf c l = None.
Proof. intro H. unfold lastOf. now rewrite H. Qed.
End Queries.

Lemma removeAt_split (pre post : Line) (x : Node) :
  removeAt (length pre) (pre ++ x :: post) = pre ++ post.
Proof.
  unfold removeAt. induction pre as [|y pre IH]; simpl; [reflexivity|].
  f_equal. exact IH.
Qed.

Lemma insertAt_split (pre post : Line) (n : Node) :
  insertAt (length pre) n (pre ++ post) = pre ++ n :: post.
Proof.
  unfold insertAt. induction pre as [|y pre IH]; simpl.
  - now destruct post.
  - f_equal. exact IH.
Qed.

Lemma insertAt_end (l : Line) (n : Node) : insertAt (length l) n l = l ++ [n].
Proof. unfold insertAt. now rewrite firstn_all, skipn_all. Qed.

Lemma split_at (l : Line) (k : nat) :
  k <= length l -> exists pre post, l = pre ++ post /\ length pre = k.
Proof.
  intro H. exists (firstn k l), (skipn k l). split.
  - symmetry. apply firstn_skipn.
  - rewrite length_firstn. lia.
Qed.

(* ================================================================== *)
(** ** What each mutator does to the child list *)

Lemma querySelector_bound (c : CssClass) (l : Line) (i : nat) :
  querySelector c l = Some i -> i < length l.
Proof.
  intro H. destruct (querySelector_Some c l i H) as (pre & x & post & -> & <- & _).
  rewrite length_app. simpl. lia.
Qed.

Lemma lastOf_bound (c : CssClass) (l : Line) (j : nat) :
  lastOf c l = Some j -> j < length l.
Proof.
  intro H. destruct (lastOf_Some c l j H) as (pre & x & post & -> & <- & _).
  rewrite length_app. simpl. lia.
Qed.

Lemma findStarInsertionPoint_bound (l : Line) (k : nat) :
  findStarInsertionPoint l = Some k -> k < length l.
Proof.
  unfold findStarInsertionPoint.
  destruct (querySelector CSS_CLASSES.STAR_COUNT l) eqn:E1.
  - intro H; injection H as <-. eapply querySelector_bound; eauto.
  - destruct (querySelector CSS_CLASSES.STAR_CONTROLS l) eqn:E2; [|discriminate].
    intro H; injection H as <-. eapply querySelector_bound; eauto.
Qed.

Lemma insertionIndex_bound (l : Line) : insertionIndex l <= length l.
Proof.
  unfold insertionIndex. destruct (findStarInsertionPoint l) eqn:E; [|lia].
  apply findStarInsertionPoint_bound in E. lia.
Qed.

Lemma fullTarget_bound (l : Line) : fullTarget l <= length l.
Proof.
  unfold fullTarget. destruct (querySelector _ l) eqn:E.
  - apply querySelector_bound in E. lia.
  - apply insertionIndex_bound.
Qed.

Lemma mergeTarget_bound (l : Line) : mergeTarget l <= length l.
Proof.
  unfold mergeTarget, nextSibling.
  destruct (lastOf _ l) as [j|]; [|apply insertionIndex_bound].
  destruct (S j <? length l) eqn:E; [|apply insertionIndex_bound].
  apply Nat.ltb_lt in E. lia.
Qed.

Lemma createStarIcon_full : createStarIcon "full" = Some FullStar.
Proof. reflexivity. Qed.

Lemma createStarIcon_half : createStarIcon "half" = Some HalfStar.
Proof. reflexivity. Qed.

Lemma insertStarElement_run (n : Node) (before : option nat) (l : Line) :
  (forall i, before = Some i -> i < length l) ->
  insertStarElement (Some n) before l
  = (Normal tt,
     insertAt (match before with Some i => i | None => insertionIndex l end) n l).
Proof.
  intro Hb. unfold insertStarElement, bind, gets, insertionIndex.
  destruct before as [i|]; simpl.
  - specialize (Hb i eq_refl). apply Nat.ltb_lt in Hb. now rewrite Hb.
  - destruct (findStarInsertionPoint l) as [k|] eqn:E; simpl.
    + apply findStarInsertionPoint_bound in E. apply Nat.ltb_lt in E. now rewrite E.
    + unfold modify. now rewrite insertAt_end.
Qed.

Section Runs.
Variable l : Line.

Lemma addFullStar_run :
  isStarChangeAllowed (lineTotal l) 1 = true ->
  addFullStar l = (Normal tt, insertAt (fullTarget l) FullStar l).
Proof.
  intro Ha. unfold addFullStar, bind, gets, lineTotal in *. rewrite Ha. simpl.
  rewrite ?createStarIcon_full, ?createStarIcon_half.
  rewrite insertStarElement_run.
  - unfold fullTarget, insertionIndex.
    destruct (querySelector CSS_CLASSES.HALF_STAR l); simpl; [reflexivity|].
    now destruct (findStarInsertionPoint l).
  - intros i Hi.
    destruct (querySelector CSS_CLASSES.HALF_STAR l) eqn:E; simpl in Hi.
    + injection Hi as <-. eapply querySelector_bound; eauto.
    + now apply findStarInsertionPoint_bound.
Qed.

Lemma removeFullStar_run :
  isStarChangeAllowed (lineTotal l) (-1) = true ->
  removeFullStar l
  = (Normal tt, match lastOf CSS_CLASSES.FULL_STAR l with
                | Some j => removeAt j l
                | None => l
                end).
Proof.
  intro Ha. unfold removeFullStar, bind, gets, lineTotal in *. rewrite Ha. simpl.
  rewrite ?createStarIcon_full, ?createStarIcon_half.
  destruct (0 <? length (querySelectorAll CSS_CLASSES.FULL_STAR l)) eqn:E.
  - destruct (lastOf_nonempty _ _ E) as (j & -> & ->). reflexivity.
  - now rewrite (lastOf_empty _ _ E).
Qed.

Lemma addHalfStar_run :
  isStarChangeAllowed (lineTotal l) (1 # 2) = true ->
  addHalfStar l
  = (Normal tt, match querySelector CSS_CLASSES.HALF_STAR l with
                | Some h => let l1 := removeAt h l in
                            insertAt (mergeTarget l1) FullStar l1
                | None => insertAt (insertionIndex l) HalfStar l
                end).
Proof.
  intro Ha. unfold addHalfStar, bind, gets, lineTotal in *. rewrite Ha. simpl.
  rewrite ?createStarIcon_full, ?createStarIcon_half.
  destruct (querySelector CSS_CLASSES.HALF_STAR l) as [h|] eqn:Eh; simpl.
  - set (l1 := removeAt h l). unfold mergeTarget.
    destruct (0 <? length (querySelectorAll CSS_CLASSES.FULL_STAR l1)) eqn:E.
    + destruct (lastOf_nonempty _ _ E) as (j & -> & Hj). rewrite Hj. simpl.
      pose proof (lastOf_bound _ _ _ Hj) as Hlt.
      unfold nextSibling. destruct (S j <? length l1) eqn:En; simpl.
      * now rewrite En.
      * unfold insertionIndex.
        destruct (findStarInsertionPoint l1) as [k|] eqn:Ek; simpl.
        -- apply findStarInsertionPoint_bound in Ek. apply Nat.ltb_lt in Ek.
           now rewrite Ek.
        -- unfold modify. now rewrite insertAt_end.
    + rewrite (lastOf_empty _ _ E). rewrite insertStarElement_run.
      * unfold insertionIndex. now destruct (findStarInsertionPoint l1).
      * intros i Hi. now apply findStarInsertionPoint_bound.
  - rewrite insertStarElement_run.
    + unfold insertionIndex. now destruct (findStarInsertionPoint l).
    + intros i Hi. now apply findStarInsertionPoint_bound.
Qed.

Lemma removeHalfStar_run :
  isStarChangeAllowed (lineTotal l) (- (1 # 2)) = true ->
  removeHalfStar l
  = (Normal tt, match querySelector CSS_CLASSES.HALF_STAR l with
                | Some h => removeAt h l
                | None =>
                    match lastOf CSS_CLASSES.FULL_STAR l with
                    | Some j => removeAt (S j) (insertAt j HalfStar l)
                    | None => l
                    end
                end).
Proof.
  intro Ha. unfold removeHalfStar, bind, gets, lineTotal in *. rewrite Ha. simpl.
  rewrite ?createStarIcon_full, ?createStarIcon_half.
  destruct (querySelector CSS_CLASSES.HALF_STAR l) as [h|] eqn:Eh; simpl;
    [reflexivity|].
  destruct (0 <? length (querySelectorAll CSS_CLASSES.FULL_STAR l)) eqn:E.
  - destruct (lastOf_nonempty _ _ E) as (j & -> & Hj). rewrite Hj. simpl.
    pose proof (lastOf_bound _ _ _ Hj) as Hlt. apply Nat.ltb_lt in Hlt.
    now rewrite Hlt.
  - now rewrite (lastOf_empty _ _ E).
Qed.

(** The limit check on entry of each mutator. *)
Lemma runOp_blocked (o : Op) :
  isStarChangeAllowed (lineTotal l) (opDelta o) = false ->
  runOp o l = (Normal tt, l).
Proof.
  intro Ha.
  destruct o; simpl in *;
    unfold addFullStar, removeFullStar, addHalfStar, removeHalfStar,
      bind, gets, lineTotal in *;
    now rewrite Ha.
Qed.
End Runs.

(* ================================================================== *)
(** ** Counting *)

Lemma cnt_app (c : CssClass) (a b : Line) : cnt c (a ++ b) = cnt c a + cnt c b.
Proof. unfold cnt. now rewrite filter_app, length_app. Qed.

Lemma cnt_cons (c : CssClass) (x : Node) (l : Line) :
  cnt c (x :: l) = Nat.b2n (hasClass c x) + cnt c l.
Proof. unfold cnt. simpl. now destruct (hasClass c x). Qed.

Lemma cnt_noneOf (c : CssClass) (l : Line) : noneOf c l <-> cnt c l = 0.
Proof. unfold noneOf, cnt. symmetry. apply length_zero_iff_nil. Qed.

Lemma cnt_insertAt (c : CssClass) (t : nat) (x : Node) (l : Line) :
  t <= length l -> cnt c (insertAt t x l) = cnt c l + Nat.b2n (hasClass c x).
Proof.
  intro H. destruct (split_at l t H) as (pre & post & -> & <-).
  rewrite insertAt_split, !cnt_app, cnt_cons. lia.
Qed.

Lemma hasClass_full (x : Node) : hasClass CSS_CLASSES.FULL_STAR x = true -> x = FullStar.
Proof. destruct x; simpl; congruence. Qed.

Lemma hasClass_half (x : Node) : hasClass CSS_CLASSES.HALF_STAR x = true -> x = HalfStar.
Proof. destruct x; simpl; congruence. Qed.

Lemma countStarsInLine_cnt (l : Line) :
  fullStars (countStarsInLine l) = cnt CSS_CLASSES.FULL_STAR l /\
  halfStars (countStarsInLine l) = cnt CSS_CLASSES.HALF_STAR l.
Proof.
  unfold countStarsInLine, querySelectorAll, cnt; simpl.
  now rewrite !indicesFrom_length.
Qed.

Lemma lineTotal_cnt (l : Line) :
  lineTotal l
  = (ofNat (cnt CSS_CLASSES.FULL_STAR l)
     + ofNat (cnt CSS_CLASSES.HALF_STAR l) * (1 # 2))%Q.
Proof.
  unfold lineTotal, countStarsInLine, querySelectorAll, cnt; simpl.
  now rewrite !indicesFrom_length.
Qed.

Lemma ofNat_succ (n : nat) : (ofNat (n + 1) == ofNat n + 1)%Q.
Proof.
  unfold ofNat. rewrite Nat2Z.inj_add, inject_Z_plus. reflexivity.
Qed.

Lemma isStarChangeAllowed_iff (currentTotal changeAmount : Q) :
  isStarChangeAllowed currentTotal changeAmount = true <->
  (1 <= currentTotal + changeAmount /\ currentTotal + changeAmount <= 5)%Q.
Proof.
  unfold isStarChangeAllowed, STAR_LIMITS.MIN, STAR_LIMITS.MAX.
  now rewrite andb_true_iff, !Qle_bool_iff.
Qed.

Lemma cnt_nil (c : CssClass) : cnt c [] = 0.
Proof. reflexivity. Qed.

Ltac count_nodes :=
  repeat (rewrite ?cnt_insertAt, ?cnt_app, ?cnt_cons, ?cnt_nil by
            (try apply mergeTarget_bound; try apply fullTarget_bound;
             try apply insertionIndex_bound));
  simpl; try lia.

Lemma runOp_counts (o : Op) (l : Line) :
  isStarChangeAllowed (lineTotal l) (opDelta o) = true ->
  exists l', runOp o l = (Normal tt, l') /\ CountsMove l l' o.
Proof.
  intro Ha. destruct o; simpl in *.
  - rewrite (addFullStar_run l Ha). eexists; split; [reflexivity|].
    apply MoveAddFull; count_nodes.
  - rewrite (removeFullStar_run l Ha).
    destruct (lastOf CSS_CLASSES.FULL_STAR l) as [j|] eqn:E.
    + destruct (lastOf_Some _ _ _ E) as (pre & x & post & -> & <- & Hx & _).
      apply hasClass_full in Hx; subst x. rewrite removeAt_split.
      eexists; split; [reflexivity|]. apply MoveRemoveFull; count_nodes.
    + eexists; split; [reflexivity|]. apply MoveNoFull; auto.
      apply cnt_noneOf. now apply lastOf_None.
  - rewrite (addHalfStar_run l Ha).
    destruct (querySelector CSS_CLASSES.HALF_STAR l) as [h|] eqn:E.
    + destruct (querySelector_Some _ _ _ E) as (pre & x & post & -> & <- & Hx & _).
      apply hasClass_half in Hx; subst x. cbv zeta. rewrite removeAt_split.
      eexists; split; [reflexivity|]. apply MoveMerge; count_nodes.
    + eexists; split; [reflexivity|]. apply MoveAddHalf; count_nodes.
  - rewrite (removeHalfStar_run l Ha).
    destruct (querySelector CSS_CLASSES.HALF_STAR l) as [h|] eqn:E.
    + destruct (querySelector_Some _ _ _ E) as (pre & x & post & -> & <- & Hx & _).
      apply hasClass_half in Hx; subst x. rewrite removeAt_split.
      eexists; split; [reflexivity|]. apply MoveRemoveHalf; count_nodes.
    + destruct (lastOf CSS_CLASSES.FULL_STAR l) as [j|] eqn:E2.
      * destruct (lastOf_Some _ _ _ E2) as (pre & x & post & -> & <- & Hx & _).
        apply hasClass_full in Hx; subst x.
        rewrite insertAt_split.
        change (pre ++ HalfStar :: FullStar :: post)
          with (pre ++ [HalfStar] ++ FullStar :: post).
        rewrite app_assoc.
        replace (S (length pre)) with (length (pre ++ [HalfStar]))
          by (rewrite length_app; simpl; lia).
        rewrite removeAt_split.
        eexists; split; [reflexivity|]. apply MoveSplit; count_nodes.
      * exfalso.
        apply querySelector_None, cnt_noneOf in E.
        apply lastOf_None, cnt_noneOf in E2.
        apply isStarChangeAllowed_iff in Ha.
        rewrite lineTotal_cnt, E, E2 in Ha. change (ofNat 0) with 0%Q in Ha. lra.
Qed.

(** No mutator throws, whatever the line. *)
Lemma runOp_normal (o : Op) (l : Line) : exists l', runOp o l = (Normal tt, l').
Proof.
  destruct (isStarChangeAllowed (lineTotal l) (opDelta o)) eqn:Ha.
  - destruct (runOp_counts o l Ha) as (l' & H & _). eauto.
  - exists l. now apply runOp_blocked.
Qed.

Lemma CountsMove_total (o : Op) (l l' : Line) :
  CountsMove l l' o ->
  (lineTotal l' == lineTotal l + opDelta o)%Q \/
  (o = OpRemoveFull /\ cnt CSS_CLASSES.FULL_STAR l = 0 /\ l' = l).
Proof.
  intro H. rewrite !lineTotal_cnt.
  destruct H as [F H|F H|F H|F H|F H|F H|F H];
    try (right; now auto); left;
    repeat match goal with
      | E : cnt _ _ = _ |- _ => rewrite E in *; clear E
      | E : _ = cnt _ l |- _ => rewrite <- E in *; clear E
      end;
    rewrite ?ofNat_succ; simpl; lra.
Qed.

(* ================================================================== *)
(** ** The renderer and the handler on a page *)

Lemma updateAt_split (pre post : Line) (x : Node) (f : Node -> Node) :
  updateAt (length pre) f (pre ++ x :: post) = pre ++ f x :: post.
Proof.
  unfold updateAt. induction pre as [|y pre IH]; simpl; [reflexivity|].
  f_equal. exact IH.
Qed.

Lemma hasClass_count (x : Node) :
  hasClass CSS_CLASSES.STAR_COUNT x = true -> exists t c, x = StarCount t c.
Proof. destruct x; simpl; try discriminate. eauto. Qed.

(** [updateLineDisplay] rewrites the first count display, or appends one. *)
Lemma updateLineDisplay_run (count : StarCountObj) (l : Line) :
  exists pre post,
    updateLineDisplay (Some count) l
    = (Normal tt,
       pre ++ StarCount [Num (total count); Lit " STARS"]
                        (getColorForStarCount count) :: post) /\
    ((exists t c, l = pre ++ StarCount t c :: post /\
                  noneOf CSS_CLASSES.STAR_COUNT pre) \/
     (l = pre /\ post = [] /\ noneOf CSS_CLASSES.STAR_COUNT l)).
Proof.
  unfold updateLineDisplay, bind, gets. simpl.
  destruct (querySelector CSS_CLASSES.STAR_COUNT l) as [d|] eqn:E.
  - destruct (querySelector_Some _ _ _ E) as (pre & x & post & -> & <- & Hx & Hpre).
    destruct (hasClass_count x Hx) as (t & c & ->).
    exists pre, post. split; [|left; eauto].
    unfold ret, setTextContent, setColor, modify. simpl.
    now rewrite !updateAt_split.
  - exists l, []. split; [|right; repeat split; now apply querySelector_None].
    unfold createCountDisplayElement, bind, gets, ret, appendChild,
      setTextContent, setColor, modify. simpl.
    now rewrite !updateAt_split.
Qed.

Lemma updateLineDisplay_cnt (count : StarCountObj) (l : Line) :
  exists l', updateLineDisplay (Some count) l = (Normal tt, l') /\
             cnt CSS_CLASSES.FULL_STAR l' = cnt CSS_CLASSES.FULL_STAR l /\
             cnt CSS_CLASSES.HALF_STAR l' = cnt CSS_CLASSES.HALF_STAR l.
Proof.
  destruct (updateLineDisplay_run count l)
    as (pre & post & -> & [(t & c & -> & _) | (-> & -> & _)]);
    eexists; (split; [reflexivity|]); split; count_nodes.
Qed.

Lemma page_eta (p : Page) :
  mkPage (wrappers p) (mainContainer p) (totalDisplay p) = p.
Proof. now destruct p. Qed.

Lemma setLine_same (ws : list Line) (i : nat) (l : Line) :
  nth_error ws i = Some l -> setLine i l ws = ws.
Proof.
  unfold setLine. revert i; induction ws as [|w ws IH]; intros [|i] H;
    simpl in *; try discriminate.
  - now injection H as ->.
  - f_equal. now apply IH.
Qed.

Lemma nth_error_setLine (ws : list Line) (i : nat) (l l' : Line) :
  nth_error ws i = Some l -> nth_error (setLine i l' ws) i = Some l'.
Proof.
  unfold setLine. revert i; induction ws as [|w ws IH]; intros [|i] H;
    simpl in *; try discriminate; [reflexivity|].
  now apply IH.
Qed.

Lemma setLine_setLine (ws : list Line) (i : nat) (l l1 l2 : Line) :
  nth_error ws i = Some l ->
  setLine i l2 (setLine i l1 ws) = setLine i l2 ws.
Proof.
  unfold setLine. revert i; induction ws as [|w ws IH]; intros [|i] H;
    simpl in *; try discriminate; [reflexivity|].
  f_equal. now apply IH.
Qed.

Lemma withLine_run {A : Type} (m : M Line A) (p : Page) (i : nat)
      (l l' : Line) (c : Completion A) :
  nth_error (wrappers p) i = Some l -> m l = (c, l') ->
  withLine i m p
  = (c, mkPage (setLine i l' (wrappers p)) (mainContainer p) (totalDisplay p)).
Proof. intros H1 H2. unfold withLine. now rewrite H1, H2. Qed.

Lemma withLine_gets {A : Type} (f : Line -> A) (p : Page) (i : nat) (l : Line) :
  nth_error (wrappers p) i = Some l ->
  withLine i (gets f) p = (Normal (f l), p).
Proof.
  intro H. rewrite (withLine_run (gets f) p i l l (Normal (f l)) H eq_refl).
  now rewrite (setLine_same _ _ _ H), page_eta.
Qed.

Lemma calculateTotalStars_sum (p : Page) :
  (calculateTotalStars p == sumTotals (wrappers p))%Q.
Proof.
  unfold calculateTotalStars.
  assert (forall ws a,
             (fold_left (fun t line => t + total (countStarsInLine line)) ws a
              == a + sumTotals ws)%Q) as H.
  { induction ws as [|w ws IH]; intro a; cbn [fold_left sumTotals].
    - ring.
    - rewrite IH. unfold lineTotal. ring. }
  rewrite H. ring.
Qed.

(** [updateTotalDisplay] never touches a line, thrown or not. *)
Lemma updateTotalDisplay_wrappers (t : option Q) (p : Page) :
  wrappers (snd (updateTotalDisplay t p)) = wrappers p.
Proof.
  unfold updateTotalDisplay, getTotalDisplay, createTotalDisplayElement,
    getMainContainer, setTotalDisplay, bind, gets, modify, throw, ret.
  destruct p as [ws [|mc] [|[|] txt]]; reflexivity.
Qed.

(** With an aggregate region, or a main container to put one in, it
    completes and shows the computed total. *)
Lemma updateTotalDisplay_run (p : Page) :
  totalDisplay p <> NoTotalDisplay \/ mainContainer p <> NoMain ->
  exists p', updateTotalDisplay None p = (Normal tt, p') /\
             wrappers p' = wrappers p /\
             displayedTotal p' = Some (calculateTotalStars p).
Proof.
  unfold updateTotalDisplay, getTotalDisplay, createTotalDisplayElement,
    getMainContainer, setTotalDisplay, bind, gets, modify, throw, ret,
    displayedTotal.
  destruct p as [ws [|mc] [|[|] txt]]; simpl; intros [H|H];
    try congruence; eexists; (split; [reflexivity|]); split; reflexivity.
Qed.

(** Without either, it throws. *)
Lemma updateTotalDisplay_throws (p : Page) :
  totalDisplay p = NoTotalDisplay -> mainContainer p = NoMain ->
  fst (updateTotalDisplay None p) = Throw TypeError.
Proof.
  destruct p as [ws mc td]; simpl; intros -> ->. reflexivity.
Qed.

(** The amounts the handler dispatches on, read back as operations. *)
Lemma handleStarChange_rejected (p : Page) (i : nat) (l : Line) (changeAmount : Q) :
  nth_error (wrappers p) i = Some l ->
  isStarChangeAllowed (lineTotal l) changeAmount = false ->
  handleStarChange i changeAmount p = (Normal tt, p).
Proof.
  intros Hl Ha. unfold handleStarChange, bind.
  rewrite (withLine_gets countStarsInLine p i l Hl).
  unfold lineTotal in Ha. now rewrite Ha.
Qed.

Lemma handleStarChange_accepted (p : Page) (i : nat) (l : Line) (o : Op) :
  nth_error (wrappers p) i = Some l ->
  isStarChangeAllowed (lineTotal l) (opDelta o) = true ->
  exists l1 l2,
    runOp o l = (Normal tt, l1) /\
    updateLineDisplay (Some (countStarsInLine l1)) l1 = (Normal tt, l2) /\
    handleStarChange i (opDelta o) p
    = updateTotalDisplay None
        (mkPage (setLine i l2 (wrappers p)) (mainContainer p) (totalDisplay p)).
Proof.
  intros Hl Ha.
  destruct (runOp_normal o l) as (l1 & H1).
  destruct (updateLineDisplay_cnt (countStarsInLine l1) l1) as (l2 & H2 & _).
  exists l1, l2. repeat split; auto.
  unfold handleStarChange, bind.
  rewrite (withLine_gets countStarsInLine p i l Hl).
  unfold lineTotal in Ha. rewrite Ha. simpl.
  set (p1 := mkPage (setLine i l1 (wrappers p)) (mainContainer p) (totalDisplay p)).
  assert (nth_error (wrappers p1) i = Some l1) as Hl1
      by (apply (nth_error_setLine _ _ l); exact Hl).
  assert ((if Qeq_bool (opDelta o) 1 then withLine i addFullStar
           else if Qeq_bool (opDelta o) (-1) then withLine i removeFullStar
           else if Qeq_bool (opDelta o) (1 # 2) then withLine i addHalfStar
           else if Qeq_bool (opDelta o) (- (1 # 2)) then withLine i removeHalfStar
           else ret tt) p = (Normal tt, p1)) as ->.
  { destruct o; simpl in *;
      exact (withLine_run _ p i l l1 (Normal tt) Hl H1). }
  rewrite (withLine_gets countStarsInLine p1 i l1 Hl1).
  rewrite (withLine_run _ p1 i l1 l2 (Normal tt) Hl1 H2).
  unfold p1; simpl. now rewrite (setLine_setLine _ _ l _ _ Hl).
Qed.

(* ================================================================== *)
(** ** Marker sequences *)

Lemma markers_app (a b : Line) : markers (a ++ b) = markers a ++ markers b.
Proof.
  induction a as [|x a IH]; simpl; [reflexivity|].
  destruct (markerOf x); simpl; now rewrite IH.
Qed.

Lemma noneOf_full_markers (a : Line) :
  noneOf CSS_CLASSES.FULL_STAR a <-> ~ In Full (markers a).
Proof.
  induction a as [|x a IH]; simpl.
  - unfold noneOf; simpl; tauto.
  - rewrite noneOf_cons, IH. destruct x; simpl; intuition congruence.
Qed.

Lemma noneOf_half_markers (a : Line) :
  noneOf CSS_CLASSES.HALF_STAR a <-> ~ In Half (markers a).
Proof.
  induction a as [|x a IH]; simpl.
  - unfold noneOf; simpl; tauto.
  - rewrite noneOf_cons, IH. destruct x; simpl; intuition congruence.
Qed.

Lemma markers_nil_noneOf (l : Line) :
  markers l = [] ->
  noneOf CSS_CLASSES.FULL_STAR l /\ noneOf CSS_CLASSES.HALF_STAR l.
Proof.
  intro H. rewrite noneOf_full_markers, noneOf_half_markers, H. simpl. tauto.
Qed.

Lemma fullsThenHalf_shape (ms : list Marker) :
  fullsThenHalf ms = true <-> exists n h, ms = shape n h.
Proof.
  split.
  - induction ms as [|[|] ms IH]; simpl; intro H.
    + now exists 0, false.
    + destruct (IH H) as (n & h & ->). now exists (S n), h.
    + destruct ms; [|discriminate]. now exists 0, true.
  - intros (n & h & ->). induction n as [|n IH]; simpl; [now destruct h | exact IH].
Qed.

Lemma repeat_snoc_full (n : nat) : repeat Full n ++ [Full] = repeat Full (S n).
Proof. symmetry. apply (repeat_cons n Full). Qed.

Lemma in_half_repeat (n : nat) : ~ In Half (repeat Full n).
Proof. intro H. apply repeat_spec in H. discriminate. Qed.

Lemma in_full_halfTail (h : bool) : ~ In Full (halfTail h).
Proof. destruct h; simpl; intuition discriminate. Qed.

Lemma split_first_half (X Y : list Marker) (n : nat) (h : bool) :
  X ++ Half :: Y = shape n h -> ~ In Half X ->
  X = repeat Full n /\ Y = [] /\ h = true.
Proof.
  revert X; induction n as [|n IH]; intros X H HX.
  - unfold shape in H; simpl in H. destruct h; simpl in H.
    + destruct X as [|x X]; simpl in H.
      * injection H as ->. auto.
      * injection H as -> H. now destruct X.
    + now destruct X.
  - destruct X as [|x X]; simpl in H; [discriminate|].
    injection H as -> H. simpl in HX.
    destruct (IH X H) as (-> & -> & ->); [tauto|]. auto.
Qed.

Lemma split_last_full (X Y : list Marker) (n : nat) (h : bool) :
  X ++ Full :: Y = shape n h -> ~ In Full Y ->
  exists m, n = S m /\ X = repeat Full m /\ Y = halfTail h.
Proof.
  revert X; induction n as [|n IH]; intros X H HY.
  - exfalso. apply (in_full_halfTail h). unfold shape in H; simpl in H.
    rewrite <- H. apply in_elt.
  - destruct X as [|x X]; simpl in H.
    + injection H as H. destruct n as [|n].
      * exists 0. repeat split. exact H.
      * exfalso. apply HY. rewrite H. now left.
    + injection H as -> H.
      destruct (IH X H HY) as (m & -> & -> & ->).
      exists (S m). auto.
Qed.

(* ================================================================== *)
(** ** The insertion point as a split of the line *)

Lemma hasClass_controls (x : Node) :
  hasClass CSS_CLASSES.STAR_CONTROLS x = true -> x = StarControls.
Proof. destruct x; simpl; congruence. Qed.

Lemma insertion_split_exists (l : Line) :
  exists pre post, l = pre ++ post /\ InsertionSplit pre post.
Proof.
  destruct (querySelector CSS_CLASSES.STAR_COUNT l) as [k|] eqn:E1.
  - destruct (querySelector_Some _ _ _ E1) as (pre & x & post & -> & _ & Hx & Hpre).
    destruct (hasClass_count x Hx) as (t & c & ->).
    exists pre, (StarCount t c :: post). split; [reflexivity|].
    split; [assumption|]. left; eauto.
  - apply querySelector_None in E1.
    destruct (querySelector CSS_CLASSES.STAR_CONTROLS l) as [k|] eqn:E2.
    + destruct (querySelector_Some _ _ _ E2) as (pre & x & post & -> & _ & Hx & Hpre).
      apply hasClass_controls in Hx; subst x.
      apply noneOf_app in E1. destruct E1 as [E1 E1'].
      exists pre, (StarControls :: post). split; [reflexivity|].
      split; [assumption|]. right. repeat split; eauto.
    + apply querySelector_None in E2.
      exists l, []. split; [now rewrite app_nil_r|].
      split; [assumption|]. right. repeat split; auto.
Qed.

Lemma insertionIndex_split (pre post : Line) :
  InsertionSplit pre post -> insertionIndex (pre ++ post) = length pre.
Proof.
  intros [Hc [(t & c & r & ->) | (Hc' & Hb & [-> | (r & ->)])]];
    unfold insertionIndex, findStarInsertionPoint.
  - now rewrite querySelector_split.
  - rewrite app_nil_r, !querySelector_noneOf by assumption. reflexivity.
  - rewrite (querySelector_noneOf CSS_CLASSES.STAR_COUNT)
      by (apply noneOf_app; now split).
    now rewrite querySelector_split.
Qed.

Lemma InsertionSplit_pre (pre pre' post : Line) :
  InsertionSplit pre post ->
  noneOf CSS_CLASSES.STAR_COUNT pre' ->
  (noneOf CSS_CLASSES.STAR_CONTROLS pre -> noneOf CSS_CLASSES.STAR_CONTROLS pre') ->
  InsertionSplit pre' post.
Proof. unfold InsertionSplit. intuition. Qed.

Lemma skipn_length_app (pre post : Line) : skipn (length pre) (pre ++ post) = post.
Proof. induction pre; simpl; auto. Qed.

Lemma canonical_split (l : Line) :
  canonical l = true <->
  exists pre post,
    l = pre ++ post /\ InsertionSplit pre post /\
    markers post = [] /\ fullsThenHalf (markers pre) = true.
Proof.
  unfold canonical, starsBeforeRegions. rewrite andb_true_iff. split.
  - intros [H1 H2].
    destruct (insertion_split_exists l) as (pre & post & -> & HS).
    rewrite (insertionIndex_split _ _ HS), skipn_length_app in H2.
    destruct (markers post) eqn:E; [|discriminate].
    exists pre, post. rewrite markers_app, E, app_nil_r in H1. auto.
  - intros (pre & post & -> & HS & Hp & Hf).
    rewrite (insertionIndex_split _ _ HS), skipn_length_app, Hp.
    now rewrite markers_app, Hp, app_nil_r.
Qed.

(* ================================================================== *)
(** ** The mutator on canonical lines *)

Lemma repeat_full_shift (n : nat) (t : list Marker) :
  repeat Full n ++ Full :: t = Full :: repeat Full n ++ t.
Proof. induction n as [|n IH]; simpl; [reflexivity|]. now rewrite IH. Qed.

Lemma canonical_intro (pre post : Line) (n : nat) (h : bool) :
  InsertionSplit pre post -> markers post = [] -> markers pre = shape n h ->
  canonical (pre ++ post) = true /\ markers (pre ++ post) = shape n h.
Proof.
  intros HS Hp Hm. split.
  - apply canonical_split. exists pre, post.
    split; [reflexivity|]. split; [exact HS|]. split; [exact Hp|].
    apply fullsThenHalf_shape. eauto.
  - now rewrite markers_app, Hp, app_nil_r.
Qed.

Ltac split_regions :=
  match goal with
  | HS : InsertionSplit ?pre _ |- InsertionSplit _ _ =>
      apply (InsertionSplit_pre pre); [exact HS | | ];
      destruct HS as [? _];
      rewrite ?noneOf_app, ?noneOf_cons in *; simpl;
      intuition (auto; try reflexivity)
  end.

Ltac shape_eq :=
  rewrite ?markers_app; simpl;
  repeat match goal with
    | E : markers _ = _ |- _ => rewrite E; clear E
    end;
  unfold shape, halfTail;
  repeat (progress (simpl; rewrite ?app_nil_r, ?repeat_full_shift));
  try reflexivity.

(** The first half star of a canonical line with one. *)
Lemma canonical_half (pre post : Line) (n : nat) :
  markers pre = shape n true ->
  exists a b, pre = a ++ HalfStar :: b /\ markers a = repeat Full n /\
              markers b = [] /\
              querySelector CSS_CLASSES.HALF_STAR (pre ++ post) = Some (length a).
Proof.
  intro Hm. destruct (querySelector CSS_CLASSES.HALF_STAR pre) as [k|] eqn:E.
  - destruct (querySelector_Some _ _ _ E) as (a & x & b & -> & _ & Hx & Ha).
    apply hasClass_half in Hx; subst x.
    rewrite markers_app in Hm; simpl in Hm.
    destruct (split_first_half _ _ _ _ Hm) as (Ea & Eb & _);
      [now apply noneOf_half_markers|].
    exists a, b. repeat split; auto.
    rewrite <- app_assoc. simpl. now apply querySelector_split.
  - exfalso. apply querySelector_None, noneOf_half_markers in E.
    apply E. rewrite Hm. unfold shape. apply in_or_app. right. now left.
Qed.

Lemma canonical_no_half (pre post : Line) (n : nat) :
  markers post = [] -> markers pre = shape n false ->
  querySelector CSS_CLASSES.HALF_STAR (pre ++ post) = None.
Proof.
  intros Hp Hm. apply querySelector_noneOf, noneOf_app. split.
  - apply noneOf_half_markers. rewrite Hm. unfold shape; simpl.
    rewrite app_nil_r. apply in_half_repeat.
  - now apply markers_nil_noneOf.
Qed.

(** The last full star of a canonical line with one. *)
Lemma canonical_full (pre post : Line) (m : nat) (h : bool) :
  markers post = [] -> markers pre = shape (S m) h ->
  exists a b, pre = a ++ FullStar :: b /\ markers a = repeat Full m /\
              markers b = halfTail h /\
              lastOf CSS_CLASSES.FULL_STAR (pre ++ post) = Some (length a).
Proof.
  intros Hp Hm. destruct (last_split CSS_CLASSES.FULL_STAR pre)
    as [Hn | (a & x & b & -> & Hx & Hb)].
  - exfalso. apply noneOf_full_markers in Hn. apply Hn. rewrite Hm. now left.
  - apply hasClass_full in Hx; subst x.
    rewrite markers_app in Hm; simpl in Hm.
    destruct (split_last_full _ _ _ _ Hm) as (m' & Em & Ea & Eb);
      [now apply noneOf_full_markers|].
    injection Em as <-.
    exists a, b. repeat split; auto.
    rewrite <- app_assoc. simpl. apply lastOf_split; [reflexivity|].
    apply noneOf_app. split; [assumption | now apply markers_nil_noneOf].
Qed.

Lemma canonical_no_full (pre post : Line) (h : bool) :
  markers post = [] -> markers pre = shape 0 h ->
  lastOf CSS_CLASSES.FULL_STAR (pre ++ post) = None.
Proof.
  intros Hp Hm. apply lastOf_noneOf, noneOf_app. split.
  - apply noneOf_full_markers. rewrite Hm. apply in_full_halfTail.
  - now apply markers_nil_noneOf.
Qed.

Lemma canonical_addFullStar (pre post : Line) (n : nat) (h : bool) :
  InsertionSplit pre post -> markers post = [] -> markers pre = shape n h ->
  isStarChangeAllowed (lineTotal (pre ++ post)) 1 = true ->
  exists l', addFullStar (pre ++ post) = (Normal tt, l') /\
             canonical l' = true /\ markers l' = shape (S n) h.
Proof.
  intros HS Hp Hm Ha. rewrite (addFullStar_run _ Ha).
  eexists; split; [reflexivity|].
  unfold fullTarget. destruct h.
  - destruct (canonical_half pre post n Hm)
      as (a & b & -> & Ea & Eb & ->).
    rewrite <- app_assoc. simpl. rewrite insertAt_split.
    change (a ++ FullStar :: HalfStar :: b ++ post)
      with (a ++ (FullStar :: HalfStar :: b) ++ post).
    rewrite app_assoc. apply canonical_intro; auto.
    + split_regions.
    + shape_eq.
  - rewrite (canonical_no_half pre post n Hp Hm).
    rewrite (insertionIndex_split _ _ HS), insertAt_split.
    change (pre ++ FullStar :: post) with (pre ++ [FullStar] ++ post).
    rewrite app_assoc. apply canonical_intro; auto.
    + split_regions.
    + shape_eq.
Qed.

Lemma removeAt_split1 (a post : Line) (y x : Node) :
  removeAt (S (length a)) (a ++ y :: x :: post) = a ++ y :: post.
Proof.
  unfold removeAt. induction a as [|z a IH]; simpl; [reflexivity|].
  f_equal. exact IH.
Qed.

Lemma insertAt_split1 (a post : Line) (y n : Node) :
  insertAt (S (length a)) n (a ++ y :: post) = a ++ y :: n :: post.
Proof.
  unfold insertAt. induction a as [|z a IH]; simpl.
  - now destruct post.
  - f_equal. exact IH.
Qed.

Lemma canonical_removeFullStar (pre post : Line) (n : nat) (h : bool) :
  InsertionSplit pre post -> markers post = [] -> markers pre = shape n h ->
  isStarChangeAllowed (lineTotal (pre ++ post)) (-1) = true ->
  exists l', removeFullStar (pre ++ post) = (Normal tt, l') /\
             canonical l' = true /\ markers l' = shape (pred n) h.
Proof.
  intros HS Hp Hm Ha. rewrite (removeFullStar_run _ Ha).
  eexists; split; [reflexivity|]. destruct n as [|m]; simpl.
  - rewrite (canonical_no_full pre post h Hp Hm). now apply canonical_intro.
  - destruct (canonical_full pre post m h Hp Hm) as (a & b & -> & Ea & Eb & ->).
    rewrite <- app_assoc. simpl. rewrite removeAt_split, app_assoc.
    apply canonical_intro; auto.
    + split_regions.
    + shape_eq.
Qed.

(** Where the merged full star lands, on a canonical line without half
    star: right after the last full star, or at the insertion point. *)
Lemma canonical_merge (pre post : Line) (n : nat) :
  InsertionSplit pre post -> markers post = [] -> markers pre = shape n false ->
  exists pre',
    insertAt (mergeTarget (pre ++ post)) FullStar (pre ++ post) = pre' ++ post /\
    InsertionSplit pre' post /\ markers pre' = shape (S n) false.
Proof.
  intros HS Hp Hm. unfold mergeTarget. destruct n as [|m].
  - rewrite (canonical_no_full pre post false Hp Hm).
    rewrite (insertionIndex_split _ _ HS), insertAt_split.
    exists (pre ++ [FullStar]). rewrite <- app_assoc. split; [reflexivity|]. split.
    + split_regions.
    + shape_eq.
  - destruct (canonical_full pre post m false Hp Hm) as (a & b & E & Ea & Eb & ->).
    unfold nextSibling.
    destruct (S (length a) <? length (pre ++ post)) eqn:En.
    + subst pre. exists (a ++ FullStar :: FullStar :: b).
      rewrite <- !app_assoc. simpl. rewrite insertAt_split1.
      split; [reflexivity|]. split.
      * split_regions.
      * shape_eq.
    + apply Nat.ltb_ge in En.
      rewrite (insertionIndex_split _ _ HS), insertAt_split.
      exists (pre ++ [FullStar]). rewrite <- app_assoc. split; [reflexivity|]. split.
      * split_regions.
      * subst pre. rewrite !length_app in En. simpl in En.
        assert (b = []) as -> by (destruct b; [reflexivity | simpl in En; lia]).
        shape_eq.
Qed.

Lemma canonical_addHalfStar (pre post : Line) (n : nat) (h : bool) :
  InsertionSplit pre post -> markers post = [] -> markers pre = shape n h ->
  isStarChangeAllowed (lineTotal (pre ++ post)) (1 # 2) = true ->
  exists l', addHalfStar (pre ++ post) = (Normal tt, l') /\
             canonical l' = true /\
             markers l' = if h then shape (S n) false else shape n true.
Proof.
  intros HS Hp Hm Ha. rewrite (addHalfStar_run _ Ha).
  eexists; split; [reflexivity|]. destruct h.
  - destruct (canonical_half pre post n Hm) as (a & b & -> & Ea & Eb & ->).
    cbv zeta. rewrite <- app_assoc. simpl. rewrite removeAt_split, app_assoc.
    destruct (canonical_merge (a ++ b) post n) as (pre' & -> & HS' & Hm'); auto.
    + split_regions.
    + shape_eq.
    + now apply canonical_intro.
  - rewrite (canonical_no_half pre post n Hp Hm).
    rewrite (insertionIndex_split _ _ HS), insertAt_split.
    change (pre ++ HalfStar :: post) with (pre ++ [HalfStar] ++ post).
    rewrite app_assoc. apply canonical_intro; auto.
    + split_regions.
    + shape_eq.
Qed.

Lemma canonical_removeHalfStar (pre post : Line) (n : nat) (h : bool) :
  InsertionSplit pre post -> markers post = [] -> markers pre = shape n h ->
  isStarChangeAllowed (lineTotal (pre ++ post)) (- (1 # 2)) = true ->
  exists l', removeHalfStar (pre ++ post) = (Normal tt, l') /\
             canonical l' = true /\
             markers l' = if h then shape n false else shape (pred n) (0 <? n).
Proof.
  intros HS Hp Hm Ha. rewrite (removeHalfStar_run _ Ha).
  eexists; split; [reflexivity|]. destruct h.
  - destruct (canonical_half pre post n Hm) as (a & b & -> & Ea & Eb & ->).
    rewrite <- app_assoc. simpl. rewrite removeAt_split, app_assoc.
    apply canonical_intro; auto.
    + split_regions.
    + shape_eq.
  - rewrite (canonical_no_half pre post n Hp Hm). destruct n as [|m]; simpl.
    + rewrite (canonical_no_full pre post false Hp Hm). now apply canonical_intro.
    + destruct (canonical_full pre post m false Hp Hm) as (a & b & -> & Ea & Eb & ->).
      rewrite <- app_assoc. simpl. rewrite insertAt_split, removeAt_split1.
      change (a ++ HalfStar :: b ++ post) with (a ++ (HalfStar :: b) ++ post).
      rewrite app_assoc. apply canonical_intro; auto.
      * split_regions.
      * shape_eq.
Qed.

(** Every accepted operation takes a canonical line to a canonical line. *)
Lemma canonical_step (o : Op) (l : Line) (n : nat) (h : bool) :
  canonical l = true -> markers l = shape n h ->
  isStarChangeAllowed (lineTotal l) (opDelta o) = true ->
  exists l', runOp o l = (Normal tt, l') /\
             canonical l' = true /\ markers l' = shapeAfter o n h.
Proof.
  intros Hc Hm Ha.
  apply canonical_split in Hc. destruct Hc as (pre & post & -> & HS & Hp & _).
  rewrite markers_app, Hp, app_nil_r in Hm.
  unfold shapeAfter. destruct o; simpl in *.
  - now apply canonical_addFullStar.
  - now apply canonical_removeFullStar.
  - destruct (canonical_addHalfStar pre post n h HS Hp Hm Ha) as (l' & ? & ? & ?).
    exists l'. now destruct h.
  - destruct (canonical_removeHalfStar pre post n h HS Hp Hm Ha) as (l' & ? & ? & ?).
    exists l'. destruct h; [auto|]. now destruct n.
Qed.

Lemma canonical_shape (l : Line) :
  canonical l = true -> exists n h, markers l = shape n h.
Proof.
  unfold canonical. rewrite andb_true_iff. intros [H _].
  now apply fullsThenHalf_shape.
Qed.

(** Accepted or not, an operation keeps a canonical line canonical. *)
Lemma canonical_runOp (o : Op) (l : Line) :
  canonical l = true ->
  exists l', runOp o l = (Normal tt, l') /\ canonical l' = true.
Proof.
  intro Hc. destruct (isStarChangeAllowed (lineTotal l) (opDelta o)) eqn:Ha.
  - destruct (canonical_shape l Hc) as (n & h & Hm).
    destruct (canonical_step o l n h Hc Hm Ha) as (l' & ? & ? & _). eauto.
  - exists l. split; [now apply runOp_blocked | assumption].
Qed.

(* ================================================================== *)
(** ** Counts of a canonical line *)

Lemma cnt_markers (l : Line) :
  cnt CSS_CLASSES.FULL_STAR l = length (filter (sameMarker Full) (markers l)) /\
  cnt CSS_CLASSES.HALF_STAR l = length (filter (sameMarker Half) (markers l)).
Proof.
  induction l as [|x l [IH1 IH2]]; [now split|].
  rewrite !cnt_cons, IH1, IH2. destruct x; simpl; auto.
Qed.

Lemma cnt_shape (l : Line) (n : nat) (h : bool) :
  markers l = shape n h ->
  cnt CSS_CLASSES.FULL_STAR l = n /\ cnt CSS_CLASSES.HALF_STAR l = Nat.b2n h.
Proof.
  intro H. destruct (cnt_markers l) as [-> ->]. rewrite H. unfold shape.
  rewrite !filter_app, !length_app. clear H.
  induction n as [|n [IH1 IH2]]; simpl.
  - now destruct h.
  - simpl in *. lia.
Qed.

Lemma noneOf_In (c : CssClass) (l : Line) :
  noneOf c l <-> forall x, In x l -> hasClass c x = false.
Proof.
  induction l as [|y l IH].
  - split; [intros _ x [] | reflexivity].
  - rewrite noneOf_cons, IH. simpl. split.
    + intros [Hy H] x [<- | Hx]; auto.
    + intro H. split; auto.
Qed.

Lemma noneOf_full_In (l : Line) :
  noneOf CSS_CLASSES.FULL_STAR l <-> ~ In FullStar l.
Proof.
  rewrite noneOf_In. split.
  - intros H Hin. specialize (H _ Hin). discriminate.
  - intros H x Hx. destruct x; try reflexivity. contradiction.
Qed.




Lemma ofNat_le (n m : nat) : (ofNat n <= ofNat m)%Q <-> n <= m.
Proof. unfold ofNat. rewrite <- Zle_Qle. lia. Qed.

(** The amounts of the four buttons are the deltas of the four operations. *)
Lemma buttons_ops (changeAmount : Q) :
  In changeAmount (map snd buttons) <-> exists o, changeAmount = opDelta o.
Proof.
  simpl. split.
  - intros [<- | [<- | [<- | [<- | []]]]];
      [exists OpRemoveFull | exists OpAddFull | exists OpRemoveHalf | exists OpAddHalf];
      reflexivity.
  - intros ([] & ->); simpl; tauto.
Qed.

(* ================================================================== *)
(** ** Totals after an operation *)

Lemma updateLineDisplay_total (count : StarCountObj) (l l' : Line) :
  updateLineDisplay (Some count) l = (Normal tt, l') -> lineTotal l' = lineTotal l.
Proof.
  intro H. destruct (updateLineDisplay_cnt count l) as (l2 & H2 & HF & HH).
  rewrite H in H2. injection H2 as <-. now rewrite !lineTotal_cnt, HF, HH.
Qed.

Lemma updateLineDisplay_markers (count : StarCountObj) (l l' : Line) :
  updateLineDisplay (Some count) l = (Normal tt, l') -> markers l' = markers l.
Proof.
  intro H. destruct (updateLineDisplay_run count l)
    as (pre & post & H2 & [(t & c & -> & _) | (-> & -> & _)]);
    rewrite H in H2; injection H2 as ->; rewrite !markers_app; simpl;
    now rewrite ?app_nil_r.
Qed.

(** After an accepted operation the total is in range, on a line with at
    most one half star as well as on a line whose total was in range. *)
Lemma runOp_total_range (o : Op) (l l1 : Line) :
  runOp o l = (Normal tt, l1) ->
  isStarChangeAllowed (lineTotal l) (opDelta o) = true ->
  halfStars (countStarsInLine l) <= 1 \/ (1 <= lineTotal l /\ lineTotal l <= 5)%Q ->
  (1 <= lineTotal l1 /\ lineTotal l1 <= 5)%Q.
Proof.
  intros H1 Ha Hl.
  destruct (runOp_counts o l Ha) as (l1' & H1' & Hmove).
  rewrite H1 in H1'. injection H1' as <-.
  destruct (CountsMove_total o l l1 Hmove) as [E | (-> & Hz & ->)].
  - rewrite E. now apply isStarChangeAllowed_iff.
  - destruct Hl as [Hh | Hr]; [exfalso | exact Hr].
    apply isStarChangeAllowed_iff in Ha. simpl in Ha.
    destruct (countStarsInLine_cnt l) as [_ Eh]. rewrite Eh in Hh.
    apply ofNat_le in Hh. rewrite lineTotal_cnt, Hz in Ha.
    change (ofNat 0) with 0%Q in Ha. change (ofNat 1) with 1%Q in Hh. lra.
Qed.

Lemma runOps_canonical (os : list Op) (l : Line) :
  canonical l = true ->
  exists l', runOps os l = (Normal tt, l') /\ canonical l' = true.
Proof.
  revert l; induction os as [|o os IH]; intros l Hc; simpl.
  - exists l. now split.
  - destruct (canonical_runOp o l Hc) as (l1 & H1 & Hc1).
    destruct (IH l1 Hc1) as (l' & H' & Hc').
    exists l'. split; [|assumption]. unfold bind. now rewrite H1.
Qed.

(* ================================================================== *)
(** ** Merge and split on marker sequences *)







(* ================================================================== *)
(** ** Canonical lines and the renderer *)

Lemma canonical_at_split (pre post : Line) :
  InsertionSplit pre post ->
  (canonical (pre ++ post) = true <->
   markers post = [] /\ fullsThenHalf (markers pre) = true).
Proof.
  intro HS. unfold canonical, starsBeforeRegions.
  rewrite (insertionIndex_split _ _ HS), skipn_length_app, markers_app, andb_true_iff.
  destruct (markers post) eqn:E.
  - rewrite app_nil_r. tauto.
  - split; intros [H1 H2]; discriminate.
Qed.

(** A line as the page supplies it, with no region yet, is canonical as
    soon as its markers are in order. *)
Lemma page_line_canonical (l : Line) :
  noneOf CSS_CLASSES.STAR_COUNT l -> noneOf CSS_CLASSES.STAR_CONTROLS l ->
  fullsThenHalf (markers l) = true -> canonical l = true.
Proof.
  intros Hc Hb Hf. rewrite <- (app_nil_r l).
  apply canonical_at_split; [|now split].
  split; [assumption|]. right. repeat split; auto.
Qed.

Lemma updateLineDisplay_canonical (count : StarCountObj) (l l' : Line) :
  updateLineDisplay (Some count) l = (Normal tt, l') ->
  canonical l = true -> canonical l' = true.
Proof.
  intros H Hc.
  destruct (updateLineDisplay_run count l)
    as (pre & post & H2 & [(t & c & -> & Hpre) | (-> & -> & Hn)]);
    rewrite H in H2; injection H2 as ->.
  - assert (forall t' c', InsertionSplit pre (StarCount t' c' :: post)) as HS
        by (intros; split; [assumption | left; eauto]).
    apply (canonical_at_split _ _ (HS _ _)).
    now apply (canonical_at_split _ _ (HS t c)) in Hc.
  - apply canonical_at_split.
    + split; [assumption | left; eauto].
    + split; [reflexivity|].
      unfold canonical in Hc. now apply andb_true_iff in Hc.
Qed.

Lemma addButtonsToLine_run (l : Line) :
  exists l', addButtonsToLine l = (Normal tt, l') /\
             markers l' = markers l /\
             (canonical l = true -> canonical l' = true).
Proof.
  unfold addButtonsToLine, bind, gets.
  destruct (querySelector CSS_CLASSES.STAR_CONTROLS l) as [k|] eqn:E; simpl.
  - exists l. auto.
  - apply querySelector_None in E.
    exists (l ++ [StarControls]). split; [reflexivity|]. split.
    + rewrite markers_app. simpl. apply app_nil_r.
    + destruct (insertion_split_exists l) as (pre & post & -> & HS).
      intro Hc. apply (canonical_at_split _ _ HS) in Hc. destruct Hc as [Hp Hf].
      rewrite <- app_assoc. apply canonical_at_split.
      * apply noneOf_app in E. destruct E as [Epre Epost].
        destruct HS as [Hc [(t & c & r & ->) | (Hc' & Hb & [-> | (r & ->)])]].
        -- split; [assumption|]. left. simpl. eauto.
        -- split; [assumption|]. right. simpl. repeat split; eauto.
        -- apply noneOf_cons in Epost. simpl in Epost. destruct Epost. discriminate.
      * split; [|assumption]. rewrite markers_app, Hp. reflexivity.
Qed.

Lemma Forall_setLine (P : Line -> Prop) (ws : list Line) (i : nat) (l : Line) :
  Forall P ws -> P l -> Forall P (setLine i l ws).
Proof.
  intros Hws Hl. unfold setLine. revert i.
  induction Hws as [|w ws Hw Hws IH]; intros [|i]; simpl;
    try constructor; auto.
Qed.

(** The handler keeps every line of the page canonical. *)
Lemma handleStarChange_canonical
      (p : Page) (i : nat) (l : Line) (changeAmount : Q) :
  nth_error (wrappers p) i = Some l ->
  In changeAmount (map snd buttons) ->
  Forall (fun line => canonical line = true) (wrappers p) ->
  Forall (fun line => canonical line = true)
         (wrappers (snd (handleStarChange i changeAmount p))).
Proof.
  intros Hl Hin Hall.
  destruct (isStarChangeAllowed (lineTotal l) changeAmount) eqn:Ha.
  - apply buttons_ops in Hin. destruct Hin as (o & ->).
    destruct (handleStarChange_accepted p i l o Hl Ha) as (l1 & l2 & H1 & H2 & ->).
    rewrite updateTotalDisplay_wrappers. simpl.
    apply Forall_setLine; [assumption|].
    apply (updateLineDisplay_canonical _ _ _ H2).
    assert (canonical l = true) as Hc.
    { rewrite Forall_forall in Hall. apply Hall. eapply nth_error_In; eauto. }
    destruct (canonical_runOp o l Hc) as (l1' & H1' & Hc1).
    rewrite H1 in H1'. now injection H1' as <-.
  - now rewrite (handleStarChange_rejected p i l changeAmount Hl Ha).
Qed.

(* ================================================================== *)
(** ** The first rendering puts the aggregate region in sync *)

Lemma rendered_run (l : Line) :
  updateLineDisplay (Some (countStarsInLine l)) l = (Normal tt, rendered l).
Proof.
  unfold rendered.
  destruct (updateLineDisplay_cnt (countStarsInLine l) l) as (l' & -> & _).
  reflexivity.
Qed.

Lemma rendered_canonical (l : Line) :
  canonical l = true -> canonical (rendered l) = true.
Proof. apply (updateLineDisplay_canonical _ _ _ (rendered_run l)). Qed.

Lemma rendered_markers (l : Line) : markers (rendered l) = markers l.
Proof. apply (updateLineDisplay_markers _ _ _ (rendered_run l)). Qed.

Lemma setLine_split (a b : list Line) (l l' : Line) :
  setLine (length a) l' (a ++ l :: b) = a ++ l' :: b.
Proof.
  unfold setLine. induction a as [|x a IH]; simpl; [reflexivity|].
  f_equal. exact IH.
Qed.

Lemma nth_error_split_at (a b : list Line) (l : Line) :
  nth_error (a ++ l :: b) (length a) = Some l.
Proof. induction a; simpl; auto. Qed.

Lemma forEachLine_run (todo done : list Line) (acc : list StarCountObj)
      (mc : MainContainer) (td : TotalDisplay) :
  forEachLine (seq (length done) (length todo)) acc (mkPage (done ++ todo) mc td)
  = (Normal (acc ++ map countStarsInLine todo),
     mkPage (done ++ map rendered todo) mc td).
Proof.
  revert done acc; induction todo as [|l todo IH]; intros done acc; simpl.
  - unfold ret. now rewrite !app_nil_r.
  - unfold bind.
    rewrite (withLine_gets countStarsInLine _ (length done) l)
      by apply nth_error_split_at.
    rewrite (withLine_run _ _ (length done) l (rendered l) (Normal tt))
      by (try apply nth_error_split_at; apply rendered_run).
    simpl. rewrite setLine_split.
    replace (done ++ rendered l :: todo) with ((done ++ [rendered l]) ++ todo)
      by now rewrite <- app_assoc.
    replace (S (length done)) with (length (done ++ [rendered l]))
      by (rewrite length_app; simpl; lia).
    rewrite IH. now rewrite <- !app_assoc.
Qed.

Lemma calculateTotalFromCounts_sum (ws : list Line) :
  (calculateTotalFromCounts (map countStarsInLine ws) == sumTotals ws)%Q.
Proof.
  unfold calculateTotalFromCounts.
  assert (forall a,
             (fold_left (fun sum count => sum + total count)
                        (map countStarsInLine ws) a
              == a + sumTotals ws)%Q) as H.
  { induction ws as [|w ws IH]; intro a; cbn [map fold_left sumTotals].
    - ring.
    - rewrite IH. unfold lineTotal. ring. }
  rewrite H. ring.
Qed.

Lemma sumTotals_rendered (ws : list Line) :
  sumTotals (map rendered ws) = sumTotals ws.
Proof.
  induction ws as [|w ws IH]; simpl; [reflexivity|].
  now rewrite IH, (updateLineDisplay_total _ _ _ (rendered_run w)).
Qed.

Lemma updateTotalDisplay_shows (t : Q) (p : Page) :
  totalDisplay p <> NoTotalDisplay \/ mainContainer p <> NoMain ->
  exists p', updateTotalDisplay (Some t) p = (Normal tt, p') /\
             wrappers p' = wrappers p /\
             displayedTotal p' = Some t.
Proof.
  unfold updateTotalDisplay, getTotalDisplay, createTotalDisplayElement,
    getMainContainer, setTotalDisplay, bind, gets, modify, throw, ret,
    displayedTotal.
  destruct p as [ws [|mc] [|[|] txt]]; simpl; intros [H|H];
    try congruence; eexists; (split; [reflexivity|]); split; reflexivity.
Qed.

(** With a main container (or an aggregate region already there),
    [updateAllDisplays] completes, leaves the markers of every line alone
    and leaves the aggregate region in sync. *)
Lemma updateAllDisplays_inSync (p : Page) :
  totalDisplay p <> NoTotalDisplay \/ mainContainer p <> NoMain ->
  exists p', updateAllDisplays p = (Normal tt, p') /\
             wrappers p' = map rendered (wrappers p) /\
             inSync p'.
Proof.
  intro H. unfold updateAllDisplays, updateAllLinesDisplay, bind, gets, allLines.
  destruct p as [ws mc td].
  pose proof (forEachLine_run ws [] [] mc td) as E. simpl in E, H |- *.
  rewrite E.
  destruct (updateTotalDisplay_shows
              (calculateTotalFromCounts (map countStarsInLine ws))
              (mkPage (map rendered ws) mc td) H) as (p' & -> & Hw & Hd).
  exists p'. split; [reflexivity|]. split; [exact Hw|].
  eexists. split; [exact Hd|].
  rewrite Hw. simpl. rewrite sumTotals_rendered. apply calculateTotalFromCounts_sum.
Qed.

(** From a page as supplied (a main container, lines without display
    regions, markers in order) the first rendering leaves every line
    canonical, its markers as they were, and the aggregate region in sync. *)
Lemma first_rendering_ready (p : Page) :
  mainContainer p <> NoMain ->
  Forall (fun l => noneOf CSS_CLASSES.STAR_COUNT l /\
                   noneOf CSS_CLASSES.STAR_CONTROLS l /\
                   fullsThenHalf (markers l) = true) (wrappers p) ->
  exists p',
    updateAllDisplays p = (Normal tt, p') /\
    inSync p' /\
    Forall (fun l => canonical l = true) (wrappers p') /\
    map markers (wrappers p') = map markers (wrappers p).
Proof.
  intros Hmain Hall.
  destruct (updateAllDisplays_inSync p (or_intror Hmain)) as (p' & H & Hw & Hs).
  exists p'. split; [exact H|]. split; [exact Hs|]. rewrite Hw. split.
  - apply Forall_map. eapply Forall_impl; [|exact Hall].
    intros l (Hc & Hb & Hf). now apply rendered_canonical, page_line_canonical.
  - rewrite map_map. apply map_ext. apply rendered_markers.
Qed.

(** The walk-through of the specification: two full stars, then +1, +0.5,
    +0.5 (a merge) and -1 four times, the last of which is refused. *)
Example scenario_totals :
  map (fun changes =>
         let (c, p) := (updateAllDisplays ;; withLine 0 addButtonsToLine ;;
                        clicks 0 changes) pageOfTwo in
         (c, map markers (wrappers p),
          map (fun l => getColorForStarCount (countStarsInLine l)) (wrappers p)))
      [ [1]; [1; 1 # 2]; [1; 1 # 2; 1 # 2];
        [1; 1 # 2; 1 # 2; -1; -1; -1]; [1; 1 # 2; 1 # 2; -1; -1; -1; -1] ]%Q
  = [ (Normal tt, [[Full; Full; Full]], ["yellow"]);
      (Normal tt, [[Full; Full; Full; Half]], ["green"]);
      (Normal tt, [[Full; Full; Full; Full]], ["yellow"]);
      (Normal tt, [[Full]], ["red"]);
      (Normal tt, [[Full]], ["red"]) ]%string.
Proof. reflexivity. Qed.

(* ================================================================== *)
(** ** Half stars, merges and sums on any line *)











Lemma sumTotals_app (a b : list Line) :
  (sumTotals (a ++ b) == sumTotals a + sumTotals b)%Q.
Proof.
  induction a as [|x a IH]; simpl; [ring|]. rewrite IH. ring.
Qed.

Lemma sumTotals_setLine (ws : list Line) (i : nat) (l l' : Line) :
  nth_error ws i = Some l ->
  (sumTotals (setLine i l' ws) == sumTotals ws - lineTotal l + lineTotal l')%Q.
Proof.
  intro H. destruct (nth_error_split _ _ H) as (a & b & -> & <-).
  rewrite setLine_split, !sumTotals_app. simpl. ring.
Qed.

(** The total after an accepted operation: moved by the operation's delta,
    unless the operation is -1 on a line without a full star, which leaves
    the line as it is. *)
Lemma runOp_moves (o : Op) (l l' : Line) :
  isStarChangeAllowed (lineTotal l) (opDelta o) = true ->
  runOp o l = (Normal tt, l') ->
  (0 < cnt CSS_CLASSES.FULL_STAR l \/ o <> OpRemoveFull ->
   (lineTotal l' == lineTotal l + opDelta o)%Q) /\
  (cnt CSS_CLASSES.FULL_STAR l = 0 -> o = OpRemoveFull -> l' = l).
Proof.
  intros Ha H. destruct (runOp_counts o l Ha) as (l2 & H2 & Hmove).
  rewrite H in H2. injection H2 as <-. split.
  - intros Hc. destruct (CountsMove_total o l l' Hmove) as [E | (Eo & Ez & _)];
      [exact E|]. destruct Hc as [Hc|Hc]; [lia | contradiction].
  - intros Ez ->. inversion Hmove as [| E1 _ | _ E | | | |]; [lia | exact E].
Qed.

(* ================================================================== *)
(** ** The claims *)

(** C3.  The Classifier: a half star makes the line [flagged] (green)
    whatever the total; without one the line is [low] (red) when the total
    is at most 2 and [mid] (yellow) when it is above 2.  In particular
    (total 2, no half) is low, (total 2.5, one half) is flagged and
    (total 3, no half) is mid. *)
Theorem classifier_rule (starCount : StarCountObj) :
  (0 < halfStars starCount ->
   getColorForStarCount starCount = categoryColor flagged) /\
  (halfStars starCount = 0 -> (total starCount <= 2)%Q ->
   getColorForStarCount starCount = categoryColor low) /\
  (halfStars starCount = 0 -> (2 < total starCount)%Q ->
   getColorForStarCount starCount = categoryColor mid) /\
  (categoryColor flagged = "green" /\ categoryColor low = "red" /\
   categoryColor mid = "yellow")%string /\
  getColorForStarCount (mkCount 2 0 2) = categoryColor low /\
  getColorForStarCount (mkCount 2 1 (5 # 2)) = categoryColor flagged /\
  getColorForStarCount (mkCount 3 0 3) = categoryColor mid.
Proof.
  unfold getColorForStarCount, COLOR_THRESHOLDS.RED.
  repeat split; try reflexivity.
  - intro H. apply Nat.ltb_lt in H. now rewrite H.
  - intros -> H. apply Qle_bool_iff in H. simpl. now rewrite H.
  - intros -> H. simpl.
    destruct (Qle_bool (total starCount) 2) eqn:E; [|reflexivity].
    apply Qle_bool_iff in E. lra.
Qed.

Lemma classifier_rule_witness :
  getColorForStarCount (countStarsInLine lineTwoAndHalf) = categoryColor flagged /\
  getColorForStarCount (countStarsInLine lineOne) = categoryColor low /\
  getColorForStarCount (countStarsInLine lineFive) = categoryColor mid.
Proof.
  split; [|split].
  - destruct (classifier_rule (countStarsInLine lineTwoAndHalf)) as (H & _).
    apply H. simpl. lia.
  - destruct (classifier_rule (countStarsInLine lineOne)) as (_ & H & _).
    apply H; [reflexivity|]. vm_compute. discriminate.
  - destruct (classifier_rule (countStarsInLine lineFive)) as (_ & _ & H & _).
    apply H; reflexivity.
Defined.

(** C4.  The Limiter answers true exactly when current + delta lies in
    [1, 5]; it is a function of its two numbers only, and the way the
    handler consults it (count the line, then ask) leaves the page as it
    was. *)
Theorem limiter_range (currentTotal changeAmount : Q) :
  (isStarChangeAllowed currentTotal changeAmount = true <->
   (1 <= currentTotal + changeAmount /\ currentTotal + changeAmount <= 5)%Q) /\
  forall (p : Page) (i : nat) (l : Line),
    nth_error (wrappers p) i = Some l ->
    (currentCount <- withLine i (gets countStarsInLine) ;;
     ret (isStarChangeAllowed (total currentCount) changeAmount)) p
    = (Normal (isStarChangeAllowed (lineTotal l) changeAmount), p).
Proof.
  split.
  - apply isStarChangeAllowed_iff.
  - intros p i l H. unfold bind.
    now rewrite (withLine_gets countStarsInLine p i l H).
Qed.

Lemma limiter_range_witness :
  (currentCount <- withLine 1 (gets countStarsInLine) ;;
   ret (isStarChangeAllowed (total currentCount) (-1))) samplePage
  = (Normal false, samplePage).
Proof.
  exact (proj2 (limiter_range 0 (-1)) samplePage 1 lineOne eq_refl).
Defined.

(** C5.  A change the Limiter rejects is a silent no-op: the handler
    completes normally and the page (every line with its markers and its
    count display, and the aggregate display) is the page it started
    from. *)
Theorem rejected_change_is_noop (p : Page) (i : nat) (l : Line) (changeAmount : Q) :
  nth_error (wrappers p) i = Some l ->
  isStarChangeAllowed (lineTotal l) changeAmount = false ->
  handleStarChange i changeAmount p = (Normal tt, p).
Proof. apply handleStarChange_rejected. Qed.

Lemma rejected_change_is_noop_witness :
  handleStarChange 1 (-1) samplePage = (Normal tt, samplePage).
Proof.
  apply (rejected_change_is_noop samplePage 1 lineOne (-1)); reflexivity.
Defined.

(** C9.  [removeFullStar], when -1 is accepted, takes out the last full
    star; on a line without full star it changes nothing and completes
    normally. *)
Theorem removeFullStar_last (l : Line) :
  (isStarChangeAllowed (lineTotal l) (-1) = true ->
   forall pre post, l = pre ++ FullStar :: post -> ~ In FullStar post ->
                    removeFullStar l = (Normal tt, pre ++ post)) /\
  (~ In FullStar l -> removeFullStar l = (Normal tt, l)).
Proof.
  split.
  - intros Ha pre post -> Hpost. rewrite (removeFullStar_run _ Ha).
    rewrite lastOf_split; [|reflexivity|now apply noneOf_full_In].
    now rewrite removeAt_split.
  - intro Hn.
    destruct (isStarChangeAllowed (lineTotal l) (-1)) eqn:Ha.
    + rewrite (removeFullStar_run _ Ha).
      rewrite lastOf_noneOf; [reflexivity | now apply noneOf_full_In].
    + now apply (runOp_blocked l OpRemoveFull).
Qed.

Lemma removeFullStar_last_witness :
  removeFullStar lineTwoAndHalf
  = (Normal tt, [FullStar; Other] ++
                [Other; HalfStar; countOf (5 # 2) "green"; StarControls]) /\
  removeFullStar (repeat HalfStar 4) = (Normal tt, repeat HalfStar 4).
Proof.
  split.
  - apply (proj1 (removeFullStar_last lineTwoAndHalf)); [reflexivity|reflexivity|].
    simpl. intuition discriminate.
  - apply (proj2 (removeFullStar_last (repeat HalfStar 4))).
    simpl. intuition discriminate.
Defined.

(** C1, as the code has it.  After a change that the Limiter accepts the
    handler leaves the line with its total moved by the amount of the
    change, hence in [1, 5] (also when the aggregate display cannot be
    written).  The one exception is -1 on a line without a full star: the
    handler then changes no star and the total stays what it was, somewhere
    in [2, 6], so it is in [1, 5] exactly when it was at most 5. *)
Theorem accepted_change_in_range
        (p : Page) (i : nat) (l : Line) (changeAmount : Q) :
  nth_error (wrappers p) i = Some l ->
  In changeAmount (map snd buttons) ->
  isStarChangeAllowed (lineTotal l) changeAmount = true ->
  exists l',
    nth_error (wrappers (snd (handleStarChange i changeAmount p))) i = Some l' /\
    (0 < cnt CSS_CLASSES.FULL_STAR l \/ changeAmount <> (-1)%Q ->
     (lineTotal l' == lineTotal l + changeAmount)%Q /\
     (1 <= lineTotal l' /\ lineTotal l' <= 5)%Q) /\
    (cnt CSS_CLASSES.FULL_STAR l = 0 -> changeAmount = (-1)%Q ->
     markers l' = markers l /\
     lineTotal l' = lineTotal l /\
     (2 <= lineTotal l' /\ lineTotal l' <= 6)%Q /\
     ((1 <= lineTotal l' /\ lineTotal l' <= 5)%Q <-> (lineTotal l <= 5)%Q)).
Proof.
  intros Hl Hin Ha. apply buttons_ops in Hin. destruct Hin as (o & ->).
  destruct (handleStarChange_accepted p i l o Hl Ha) as (l1 & l2 & H1 & H2 & ->).
  rewrite updateTotalDisplay_wrappers. simpl. exists l2.
  split; [now apply (nth_error_setLine _ _ l)|].
  destruct (runOp_moves o l l1 Ha H1) as [Hmove Hstay].
  pose proof (updateLineDisplay_total _ _ _ H2) as Et.
  pose proof (updateLineDisplay_markers _ _ _ H2) as Em.
  pose proof (proj1 (isStarChangeAllowed_iff _ _) Ha) as Hr.
  split.
  - intro Hc.
    assert (lineTotal l1 == lineTotal l + opDelta o)%Q as E.
    { apply Hmove. destruct Hc as [Hc|Hc]; [now left | right].
      intros ->. now apply Hc. }
    rewrite Et. split; [exact E|]. rewrite E. exact Hr.
  - intros Ez Eo.
    assert (o = OpRemoveFull) as -> by (destruct o; try reflexivity; discriminate).
    rewrite Et, Em, (Hstay Ez eq_refl). simpl in Hr.
    split; [reflexivity|]. split; [reflexivity|]. split; [lra|].
    split; [tauto | intro; lra].
Qed.

Lemma accepted_change_in_range_witness :
  (exists l',
      nth_error (wrappers (snd (handleStarChange 0 (1 # 2) samplePage))) 0 = Some l' /\
      (lineTotal l' == lineTotal lineTwoAndHalf + (1 # 2))%Q /\
      (1 <= lineTotal l' /\ lineTotal l' <= 5)%Q) /\
  (exists l',
      nth_error (wrappers (snd (handleStarChange 0 (-1) pageTwelveHalves))) 0 = Some l' /\
      markers l' = markers lineTwelveHalves /\
      lineTotal l' = lineTotal lineTwelveHalves).
Proof.
  split.
  - destruct (accepted_change_in_range samplePage 0 lineTwoAndHalf (1 # 2))
      as (l' & H & Hmoved & _).
    + reflexivity.
    + simpl. tauto.
    + reflexivity.
    + exists l'. split; [exact H|]. apply Hmoved. right. discriminate.
  - destruct (accepted_change_in_range pageTwelveHalves 0 lineTwelveHalves (-1))
      as (l' & H & _ & Hstays).
    + reflexivity.
    + simpl. tauto.
    + reflexivity.
    + exists l'. split; [exact H|].
      destruct (Hstays eq_refl eq_refl) as (Hm & Ht & _). now split.
Defined.

(** The statement of C1 as the specification has it fails on a line of
    twelve half stars: -1 is accepted (6 - 1 = 5), there is no full star to
    remove, and the total stays 6. *)
Lemma accepted_change_leaves_six :
  nth_error (wrappers pageTwelveHalves) 0 = Some lineTwelveHalves /\
  In (-1)%Q (map snd buttons) /\
  isStarChangeAllowed (lineTotal lineTwelveHalves) (-1) = true /\
  exists l',
    nth_error (wrappers (snd (handleStarChange 0 (-1) pageTwelveHalves))) 0 = Some l' /\
    (lineTotal l' == 6)%Q /\
    ~ (1 <= lineTotal l' /\ lineTotal l' <= 5)%Q.
Proof.
  split; [reflexivity|]. split; [simpl; tauto|]. split; [reflexivity|].
  eexists. split; [reflexivity|]. split; [reflexivity|].
  intros [_ H]. vm_compute in H. now apply H.
Qed.

(** Outside the data model the statement of C1 can fail: on twelve half
    stars and no full star, -1 is accepted (6 - 1 = 5), nothing is removed,
    and the total stays 6. *)
Remark twelve_halves_stay_at_six :
  isStarChangeAllowed (lineTotal lineTwelveHalves) (-1) = true /\
  removeFullStar lineTwelveHalves = (Normal tt, lineTwelveHalves) /\
  (lineTotal lineTwelveHalves == 6)%Q.
Proof. repeat split. Qed.

(** C10.  Each of the four mutators checks the limit itself: called
    directly with a change that is out of range it returns without touching
    the line, and in any case a line whose total is in [1, 5] keeps a total
    in [1, 5]. *)
Theorem mutators_recheck_limit (o : Op) (l : Line) :
  (isStarChangeAllowed (lineTotal l) (opDelta o) = false ->
   runOp o l = (Normal tt, l)) /\
  ((1 <= lineTotal l /\ lineTotal l <= 5)%Q ->
   exists l', runOp o l = (Normal tt, l') /\
              (1 <= lineTotal l' /\ lineTotal l' <= 5)%Q).
Proof.
  split.
  - apply runOp_blocked.
  - intro Hr. destruct (runOp_normal o l) as (l' & H). exists l'. split; [exact H|].
    destruct (isStarChangeAllowed (lineTotal l) (opDelta o)) eqn:Ha.
    + apply (runOp_total_range o l l' H Ha). now right.
    + rewrite (runOp_blocked l o Ha) in H. now injection H as <-.
Qed.

Lemma mutators_recheck_limit_witness :
  addFullStar lineFive = (Normal tt, lineFive) /\
  exists l', removeHalfStar lineTwoAndHalf = (Normal tt, l') /\
             (1 <= lineTotal l' /\ lineTotal l' <= 5)%Q.
Proof.
  split.
  - apply (proj1 (mutators_recheck_limit OpAddFull lineFive)). reflexivity.
  - apply (proj2 (mutators_recheck_limit OpRemoveHalf lineTwoAndHalf)).
    split; vm_compute; discriminate.
Defined.









(** C8.  A change request on a line of a page that has its aggregate
    region, or a main container to create it in, completes normally.  When
    the Limiter accepts it, the line becomes the mutated line, rendered, and
    the region is rewritten to show the sum of the totals of the lines as
    they are now: the old sum with the line's old total replaced by its new
    one, which is the old sum plus the amount of the change (unless the
    change is -1 on a line without a full star, which changes no star).
    When the Limiter rejects it, the page, region included, is what it was,
    so a region that showed the sum still shows it. *)
Theorem aggregate_total_is_sum
        (p : Page) (i : nat) (l : Line) (changeAmount : Q) :
  nth_error (wrappers p) i = Some l ->
  In changeAmount (map snd buttons) ->
  (isStarChangeAllowed (lineTotal l) changeAmount = true ->
   totalDisplay p <> NoTotalDisplay \/ mainContainer p <> NoMain ->
   exists o l1 p' q,
     changeAmount = opDelta o /\
     runOp o l = (Normal tt, l1) /\
     handleStarChange i changeAmount p = (Normal tt, p') /\
     wrappers p' = setLine i (rendered l1) (wrappers p) /\
     displayedTotal p' = Some q /\
     (q == sumTotals (wrappers p'))%Q /\
     (q == sumTotals (wrappers p) - lineTotal l + lineTotal l1)%Q /\
     (0 < cnt CSS_CLASSES.FULL_STAR l \/ o <> OpRemoveFull ->
      (q == sumTotals (wrappers p) + changeAmount)%Q)) /\
  (isStarChangeAllowed (lineTotal l) changeAmount = false ->
   exists p',
     handleStarChange i changeAmount p = (Normal tt, p') /\
     p' = p /\
     (inSync p -> inSync p')).
Proof.
  intros Hl Hin. split.
  - intros Ha Hreg. apply buttons_ops in Hin. destruct Hin as (o & ->).
    destruct (handleStarChange_accepted p i l o Hl Ha) as (l1 & l2 & H1 & H2 & ->).
    pose proof (rendered_run l1) as R. rewrite H2 in R. injection R as ->.
    set (p2 := mkPage (setLine i (rendered l1) (wrappers p))
                      (mainContainer p) (totalDisplay p)).
    destruct (updateTotalDisplay_run p2 Hreg) as (p' & H & Hw & Hd).
    assert (calculateTotalStars p2
            == sumTotals (wrappers p) - lineTotal l + lineTotal l1)%Q as Esum.
    { rewrite calculateTotalStars_sum. simpl.
      rewrite (sumTotals_setLine _ _ l _ Hl).
      now rewrite (updateLineDisplay_total _ _ _ (rendered_run l1)). }
    exists o, l1, p', (calculateTotalStars p2).
    split; [reflexivity|]. split; [exact H1|]. split; [exact H|].
    split; [exact Hw|]. split; [exact Hd|].
    split; [rewrite Hw; apply calculateTotalStars_sum|].
    split; [exact Esum|].
    intro Hc. rewrite Esum.
    rewrite (proj1 (runOp_moves o l l1 Ha H1) Hc). ring.
  - intro Ha. exists p.
    split; [now apply (handleStarChange_rejected p i l)|]. auto.
Qed.

Lemma aggregate_total_is_sum_witness :
  (exists p' q,
      handleStarChange 0 1 samplePage = (Normal tt, p') /\
      displayedTotal p' = Some q /\
      (q == sumTotals (wrappers p'))%Q /\
      (q == sumTotals (wrappers samplePage) + 1)%Q) /\
  handleStarChange 1 (-1) samplePage = (Normal tt, samplePage).
Proof.
  split.
  - destruct (aggregate_total_is_sum samplePage 0 lineTwoAndHalf 1)
      as [Haccepted _]; [reflexivity | simpl; tauto |].
    destruct Haccepted as (o & l1 & p' & q & Eo & _ & H & _ & Hd & Hs & _ & Hnew);
      [reflexivity | left; discriminate |].
    exists p', q. split; [exact H|]. split; [exact Hd|]. split; [exact Hs|].
    apply Hnew. left. unfold cnt. simpl. lia.
  - destruct (aggregate_total_is_sum samplePage 1 lineOne (-1))
      as [_ Hrejected]; [reflexivity | simpl; tauto |].
    destruct Hrejected as (p' & H & E & _); [reflexivity|].
    rewrite H. now rewrite E.
Defined.

(* ================================================================== *)
(** ** Further properties of the mutators *)

Lemma noneOf_half_In (l : Line) :
  noneOf CSS_CLASSES.HALF_STAR l <-> ~ In HalfStar l.
Proof.
  rewrite noneOf_In. split.
  - intros H Hin. specialize (H _ Hin). discriminate.
  - intros H x Hx. destruct x; try reflexivity. contradiction.
Qed.

Lemma runOp_total (o : Op) (l l' : Line) :
  isStarChangeAllowed (lineTotal l) (opDelta o) = true ->
  runOp o l = (Normal tt, l') ->
  (lineTotal l' == lineTotal l + opDelta o)%Q \/
  (o = OpRemoveFull /\ cnt CSS_CLASSES.FULL_STAR l = 0 /\ l' = l).
Proof.
  intros Ha H. destruct (runOp_counts o l Ha) as (l2 & H2 & Hmove).
  rewrite H in H2. injection H2 as <-. now apply CountsMove_total.
Qed.

(** X1.  [addFullStar], when +1 is allowed, puts one full star directly
    before the first half star of the line; on a line without half star it
    puts it at the insertion point (before the first count display, else
    before the first control region, else at the end).  Nothing else moves,
    and the total rises by exactly 1. *)
Theorem addFullStar_position (l : Line) :
  isStarChangeAllowed (lineTotal l) 1 = true ->
  (forall pre post, l = pre ++ HalfStar :: post -> ~ In HalfStar pre ->
     addFullStar l = (Normal tt, pre ++ FullStar :: HalfStar :: post)) /\
  (~ In HalfStar l ->
   forall pre post, l = pre ++ post -> InsertionSplit pre post ->
     addFullStar l = (Normal tt, pre ++ FullStar :: post)) /\
  (forall l', addFullStar l = (Normal tt, l') ->
     (lineTotal l' == lineTotal l + 1)%Q).
Proof.
  intro Ha. split; [|split].
  - intros pre post -> Hpre. rewrite (addFullStar_run _ Ha). unfold fullTarget.
    rewrite querySelector_split; [|now apply noneOf_half_In|reflexivity].
    now rewrite insertAt_split.
  - intros Hn pre post -> HS. rewrite (addFullStar_run _ Ha). unfold fullTarget.
    rewrite querySelector_noneOf by now apply noneOf_half_In.
    now rewrite (insertionIndex_split _ _ HS), insertAt_split.
  - intros l' H.
    destruct (runOp_total OpAddFull l l' Ha H) as [E | (E & _)];
      [exact E | discriminate].
Qed.

Lemma addFullStar_position_witness :
  addFullStar lineTwoAndHalf
  = (Normal tt, [FullStar; Other; FullStar; Other] ++
                FullStar :: HalfStar :: [countOf (5 # 2) "green"; StarControls]) /\
  addFullStar lineOne
  = (Normal tt, [FullStar] ++ FullStar :: [countOf 1 "red"; StarControls]).
Proof.
  split.
  - apply (proj1 (addFullStar_position lineTwoAndHalf eq_refl));
      [reflexivity|]. simpl. intuition discriminate.
  - apply (proj1 (proj2 (addFullStar_position lineOne eq_refl))).
    + simpl. intuition discriminate.
    + reflexivity.
    + split; [reflexivity|]. left. unfold countOf. eauto.
Defined.

(** X2.  [removeHalfStar], when -0.5 is allowed, takes out the first half
    star of the line; on a line without half star it puts a half star in the
    place of the last full star.  The total drops by exactly one half. *)
Theorem removeHalfStar_behaviour (l : Line) :
  isStarChangeAllowed (lineTotal l) (- (1 # 2)) = true ->
  (forall pre post, l = pre ++ HalfStar :: post -> ~ In HalfStar pre ->
     removeHalfStar l = (Normal tt, pre ++ post)) /\
  (~ In HalfStar l ->
   forall pre post, l = pre ++ FullStar :: post -> ~ In FullStar post ->
     removeHalfStar l = (Normal tt, pre ++ HalfStar :: post)) /\
  (forall l', removeHalfStar l = (Normal tt, l') ->
     (lineTotal l' == lineTotal l - (1 # 2))%Q).
Proof.
  intro Ha. split; [|split].
  - intros pre post -> Hpre. rewrite (removeHalfStar_run _ Ha).
    rewrite querySelector_split; [|now apply noneOf_half_In|reflexivity].
    now rewrite removeAt_split.
  - intros Hn pre post -> Hpost. rewrite (removeHalfStar_run _ Ha).
    rewrite querySelector_noneOf by now apply noneOf_half_In.
    rewrite lastOf_split; [|reflexivity|now apply noneOf_full_In].
    now rewrite insertAt_split, removeAt_split1.
  - intros l' H.
    destruct (runOp_total OpRemoveHalf l l' Ha H) as [E | (E & _)];
      [|discriminate].
    rewrite E. simpl. ring.
Qed.

Lemma removeHalfStar_behaviour_witness :
  removeHalfStar lineTwoAndHalf
  = (Normal tt, [FullStar; Other; FullStar; Other] ++
                [countOf (5 # 2) "green"; StarControls]) /\
  removeHalfStar lineFive
  = (Normal tt, [FullStar; FullStar; FullStar; FullStar] ++
                HalfStar :: [countOf 5 "yellow"; StarControls]).
Proof.
  split.
  - apply (proj1 (removeHalfStar_behaviour lineTwoAndHalf eq_refl));
      [reflexivity|]. simpl. intuition discriminate.
  - apply (proj1 (proj2 (removeHalfStar_behaviour lineFive eq_refl)));
      [|reflexivity|]; simpl; intuition discriminate.
Defined.

(** X3.  On a line of the model (star icons and display regions are
    children of the line element) each of the four mutators completes
    without throwing, and either leaves the line exactly as it was or moves
    its total by exactly its own delta; it leaves the line as it was
    whenever its limit check refuses. *)
Theorem mutator_steps_exactly (o : Op) (l : Line) :
  exists l',
    runOp o l = (Normal tt, l') /\
    (l' = l \/ (lineTotal l' == lineTotal l + opDelta o)%Q) /\
    (isStarChangeAllowed (lineTotal l) (opDelta o) = false -> l' = l).
Proof.
  destruct (isStarChangeAllowed (lineTotal l) (opDelta o)) eqn:Ha.
  - destruct (runOp_normal o l) as (l' & H). exists l'. split; [exact H|].
    split; [|discriminate].
    destruct (runOp_total o l l' Ha H) as [E | (_ & _ & E)]; auto.
  - exists l. split; [now apply runOp_blocked|]. auto.
Qed.

Lemma mutator_steps_exactly_witness :
  (exists l',
      runOp OpAddFull lineFive = (Normal tt, l') /\
      (l' = lineFive \/ (lineTotal l' == lineTotal lineFive + 1)%Q) /\
      (isStarChangeAllowed (lineTotal lineFive) 1 = false -> l' = lineFive)) /\
  (exists l',
      runOp OpRemoveHalf lineFive = (Normal tt, l') /\
      (l' = lineFive \/
       (lineTotal l' == lineTotal lineFive + opDelta OpRemoveHalf)%Q) /\
      (isStarChangeAllowed (lineTotal lineFive) (opDelta OpRemoveHalf) = false ->
       l' = lineFive)).
Proof.
  split.
  - exact (mutator_steps_exactly OpAddFull lineFive).
  - exact (mutator_steps_exactly OpRemoveHalf lineFive).
Defined.

Lemma lineTotal_shape (l : Line) (n : nat) (h : bool) :
  markers l = shape n h ->
  lineTotal l = (ofNat n + ofNat (Nat.b2n h) * (1 # 2))%Q.
Proof.
  intro Hm. destruct (cnt_shape l n h Hm) as [EF EH].
  now rewrite lineTotal_cnt, EF, EH.
Qed.

Lemma lineTotal_insert_full (x y : Line) :
  (lineTotal (x ++ FullStar :: y) == lineTotal (x ++ y) + 1)%Q.
Proof.
  rewrite !lineTotal_cnt, !cnt_app, !cnt_cons. simpl.
  replace (cnt CSS_CLASSES.FULL_STAR x + S (cnt CSS_CLASSES.FULL_STAR y))
    with (cnt CSS_CLASSES.FULL_STAR x + cnt CSS_CLASSES.FULL_STAR y + 1) by lia.
  rewrite ofNat_succ. ring.
Qed.

(** Right after a full star was put where no full star follows, -1 takes
    that very star out again. *)
Lemma removeFullStar_inserted (x y : Line) :
  noneOf CSS_CLASSES.FULL_STAR y ->
  (1 <= lineTotal (x ++ y) /\ lineTotal (x ++ y) <= 5)%Q ->
  removeFullStar (x ++ FullStar :: y) = (Normal tt, x ++ y).
Proof.
  intros Hy Hr.
  assert (isStarChangeAllowed (lineTotal (x ++ FullStar :: y)) (-1) = true) as Hb.
  { apply isStarChangeAllowed_iff. rewrite lineTotal_insert_full. lra. }
  rewrite (removeFullStar_run _ Hb).
  rewrite lastOf_split; [|reflexivity|assumption].
  now rewrite removeAt_split.
Qed.

(** X5.  On a canonical line with a total of at least 1 on which +1 is
    allowed, [addFullStar] followed by [removeFullStar] gives back the very
    same child list: the star that was added is the one that is removed. *)
Theorem addFullStar_then_removeFullStar (l : Line) :
  canonical l = true ->
  isStarChangeAllowed (lineTotal l) 1 = true ->
  (1 <= lineTotal l)%Q ->
  (addFullStar ;; removeFullStar) l = (Normal tt, l).
Proof.
  intros Hc Ha H1.
  assert (1 <= lineTotal l /\ lineTotal l <= 5)%Q as Hr.
  { apply isStarChangeAllowed_iff in Ha. lra. }
  apply canonical_split in Hc. destruct Hc as (pre & post & -> & HS & Hp & Hf).
  apply fullsThenHalf_shape in Hf. destruct Hf as (n & h & Hm).
  destruct (markers_nil_noneOf post Hp) as [HpF _].
  unfold bind. rewrite (addFullStar_run _ Ha). unfold fullTarget. destruct h.
  - destruct (canonical_half pre post n Hm) as (a & b & -> & Ea & Eb & ->).
    rewrite <- app_assoc in *. simpl in *. rewrite insertAt_split.
    apply removeFullStar_inserted; [|exact Hr].
    apply noneOf_cons. split; [reflexivity|].
    apply noneOf_app. split; [|exact HpF]. now apply markers_nil_noneOf.
  - rewrite (canonical_no_half pre post n Hp Hm).
    rewrite (insertionIndex_split _ _ HS), insertAt_split.
    now apply removeFullStar_inserted.
Qed.

Lemma addFullStar_then_removeFullStar_witness :
  (addFullStar ;; removeFullStar) lineTwoAndHalf = (Normal tt, lineTwoAndHalf).
Proof.
  apply (addFullStar_then_removeFullStar lineTwoAndHalf);
    [reflexivity | reflexivity | vm_compute; discriminate].
Defined.

Lemma opDelta_opposite (o : Op) : (opDelta (opposite o) == - opDelta o)%Q.
Proof. destruct o; reflexivity. Qed.

(** X4.  On a canonical line with a total in [1, 5], every operation the
    Limiter allows is taken back by the opposite operation: the opposite is
    allowed in turn, and after it the marker sequence is the one the line
    started with. *)
Theorem opposite_undoes (o : Op) (l : Line) :
  canonical l = true ->
  (1 <= lineTotal l /\ lineTotal l <= 5)%Q ->
  isStarChangeAllowed (lineTotal l) (opDelta o) = true ->
  exists l1 l2,
    runOp o l = (Normal tt, l1) /\
    isStarChangeAllowed (lineTotal l1) (opDelta (opposite o)) = true /\
    runOp (opposite o) l1 = (Normal tt, l2) /\
    markers l2 = markers l.
Proof.
  intros Hc Hr Ha.
  destruct (canonical_shape l Hc) as (n & h & Hm).
  pose proof (lineTotal_shape l n h Hm) as Et.
  pose proof (proj1 (isStarChangeAllowed_iff _ _) Ha) as Ha'.
  assert (o = OpRemoveFull -> n <> 0) as HnF.
  { intros -> ->. rewrite Et in Ha'. simpl in Ha'.
    change (ofNat 0) with 0%Q in Ha'.
    destruct h; simpl in Ha';
      [change (ofNat 1) with 1%Q in Ha' | change (ofNat 0) with 0%Q in Ha']; lra. }
  assert (o = OpRemoveHalf -> h = false -> n <> 0) as HnH.
  { intros -> -> ->. rewrite Et in Ha'. simpl in Ha'.
    change (ofNat 0) with 0%Q in Ha'. lra. }
  destruct (canonical_step o l n h Hc Hm Ha) as (l1 & H1 & Hc1 & Hm1).
  assert (lineTotal l1 == lineTotal l + opDelta o)%Q as E.
  { destruct (runOp_total o l l1 Ha H1) as [E | (Eo & Ez & _)]; [exact E|].
    exfalso. apply (HnF Eo). destruct (cnt_shape l n h Hm) as [EF _]. lia. }
  assert (isStarChangeAllowed (lineTotal l1) (opDelta (opposite o)) = true) as Hb.
  { apply isStarChangeAllowed_iff. rewrite E, opDelta_opposite. lra. }
  unfold shapeAfter in Hm1. destruct (shapeStep o n h) as [n1 h1] eqn:Es.
  destruct (canonical_step (opposite o) l1 n1 h1 Hc1 Hm1 Hb) as (l2 & H2 & _ & Hm2).
  exists l1, l2. repeat split; auto.
  rewrite Hm2, Hm. unfold shapeAfter.
  destruct o; simpl in Es |- *.
  - injection Es as <- <-. reflexivity.
  - injection Es as <- <-. destruct n; [now contradiction HnF|reflexivity].
  - destruct h; injection Es as <- <-; reflexivity.
  - destruct h; [injection Es as <- <-; reflexivity|].
    destruct n; [now contradiction HnH|]. injection Es as <- <-. reflexivity.
Qed.

Lemma opposite_undoes_witness :
  exists l1 l2,
    runOp OpRemoveFull lineTwoAndHalf = (Normal tt, l1) /\
    isStarChangeAllowed (lineTotal l1) (opDelta (opposite OpRemoveFull)) = true /\
    runOp (opposite OpRemoveFull) l1 = (Normal tt, l2) /\
    markers l2 = markers lineTwoAndHalf.
Proof.
  apply (opposite_undoes OpRemoveFull lineTwoAndHalf);
    [reflexivity | split; vm_compute; discriminate | reflexivity].
Defined.

(* ================================================================== *)
(** ** Further properties of the renderer *)

Lemma noneOf_controls_In (l : Line) :
  noneOf CSS_CLASSES.STAR_CONTROLS l <-> ~ In StarControls l.
Proof.
  rewrite noneOf_In. split.
  - intros H Hin. specialize (H _ Hin). discriminate.
  - intros H x Hx. destruct x; try reflexivity. contradiction.
Qed.

Lemma nth_error_middle (pre post : Line) (x : Node) :
  nth_error (pre ++ x :: post) (length pre) = Some x.
Proof. induction pre; simpl; auto. Qed.

Lemma countStarsInLine_eq (l : Line) :
  countStarsInLine l
  = mkCount (cnt CSS_CLASSES.FULL_STAR l) (cnt CSS_CLASSES.HALF_STAR l)
            (ofNat (cnt CSS_CLASSES.FULL_STAR l)
             + ofNat (cnt CSS_CLASSES.HALF_STAR l) * (1 # 2))%Q.
Proof.
  unfold countStarsInLine, querySelectorAll, cnt.
  now rewrite !indicesFrom_length.
Qed.

Lemma countStarsInLine_markers (l l' : Line) :
  markers l' = markers l -> countStarsInLine l' = countStarsInLine l.
Proof.
  intro H. rewrite !countStarsInLine_eq.
  destruct (cnt_markers l) as [-> ->]. destruct (cnt_markers l') as [-> ->].
  now rewrite H.
Qed.

Lemma updateLineDisplay_default (l : Line) :
  updateLineDisplay None l = updateLineDisplay (Some (countStarsInLine l)) l.
Proof. reflexivity. Qed.

(** On a line with a count display, [updateLineDisplay] rewrites the first
    one and nothing else. *)
Lemma updateLineDisplay_rewrites
      (count : StarCountObj) (pre post : Line) (t : Text) (c : string) :
  noneOf CSS_CLASSES.STAR_COUNT pre ->
  updateLineDisplay (Some count) (pre ++ StarCount t c :: post)
  = (Normal tt,
     pre ++ StarCount [Num (total count); Lit " STARS"]
                      (getColorForStarCount count) :: post).
Proof.
  intro Hpre. unfold updateLineDisplay, bind, gets. simpl.
  rewrite querySelector_split; [|assumption|reflexivity].
  unfold ret, setTextContent, setColor, modify. simpl.
  now rewrite !updateAt_split.
Qed.

(** The shape of a line after [updateLineDisplay]. *)
Lemma updateLineDisplay_result (count : StarCountObj) (l : Line) :
  exists pre post,
    updateLineDisplay (Some count) l
    = (Normal tt,
       pre ++ StarCount [Num (total count); Lit " STARS"]
                        (getColorForStarCount count) :: post) /\
    noneOf CSS_CLASSES.STAR_COUNT pre /\
    markers (pre ++ post) = markers l /\
    cnt CSS_CLASSES.STAR_COUNT (pre ++ post) + 1
    = Nat.max 1 (cnt CSS_CLASSES.STAR_COUNT l).
Proof.
  destruct (updateLineDisplay_run count l)
    as (pre & post & H & [(t & c & El & Hpre) | (El & Ep & Hn)]);
    exists pre, post; (split; [exact H|]); subst l.
  - split; [exact Hpre|]. split.
    + now rewrite !markers_app.
    + rewrite !cnt_app, cnt_cons. cbn [Nat.b2n hasClass]. lia.
  - subst post. split; [exact Hn|]. rewrite app_nil_r. split; [reflexivity|].
    apply cnt_noneOf in Hn. rewrite Hn. reflexivity.
Qed.

(** X6.  [updateLineDisplay] never throws and never touches a star.  It
    creates a count display only on a line that has none, so a line that had
    displays keeps as many and a line that had none gets exactly one; after
    it the first count display shows the count's total, in the count's
    colour; and running it again changes nothing. *)
Theorem updateLineDisplay_once (starCount : option StarCountObj) (l : Line) :
  let count := match starCount with
               | Some c => c
               | None => countStarsInLine l
               end in
  exists l',
    updateLineDisplay starCount l = (Normal tt, l') /\
    markers l' = markers l /\
    cnt CSS_CLASSES.STAR_COUNT l' = Nat.max 1 (cnt CSS_CLASSES.STAR_COUNT l) /\
    (exists d,
        querySelector CSS_CLASSES.STAR_COUNT l' = Some d /\
        nth_error l' d
        = Some (StarCount [Num (total count); Lit " STARS"]
                          (getColorForStarCount count))) /\
    updateLineDisplay starCount l' = (Normal tt, l').
Proof.
  intro count.
  assert (updateLineDisplay starCount l = updateLineDisplay (Some count) l) as E
      by (destruct starCount; reflexivity).
  destruct (updateLineDisplay_result count l) as (pre & post & H & Hpre & Hm & Hc).
  eexists. split; [rewrite E; exact H|].
  assert (markers (pre ++ StarCount [Num (total count); Lit " STARS"]
                          (getColorForStarCount count) :: post) = markers l) as Hm'
      by (rewrite markers_app in *; exact Hm).
  split; [exact Hm'|]. split; [|split].
  - rewrite <- Hc, !cnt_app, cnt_cons. simpl. lia.
  - exists (length pre). split.
    + now apply querySelector_split.
    + apply nth_error_middle.
  - assert (match starCount with
            | Some c => c
            | None => countStarsInLine
                        (pre ++ StarCount [Num (total count); Lit " STARS"]
                                          (getColorForStarCount count) :: post)
            end = count) as Ec.
    { destruct starCount; [reflexivity|]. now apply countStarsInLine_markers. }
    destruct starCount as [c|].
    + now apply updateLineDisplay_rewrites.
    + rewrite updateLineDisplay_default, Ec.
      now apply updateLineDisplay_rewrites.
Qed.

(** X7.  [addButtonsToLine] never throws and never touches a star or a
    count display: a line that has a control region is left as it is, a
    line that has none gets one as its last child; so running it again
    changes nothing. *)
Theorem addButtonsToLine_once (l : Line) :
  exists l',
    addButtonsToLine l = (Normal tt, l') /\
    (In StarControls l -> l' = l) /\
    (~ In StarControls l -> l' = l ++ [StarControls]) /\
    cnt CSS_CLASSES.STAR_CONTROLS l'
    = Nat.max 1 (cnt CSS_CLASSES.STAR_CONTROLS l) /\
    addButtonsToLine l' = (Normal tt, l').
Proof.
  unfold addButtonsToLine, bind, gets.
  destruct (querySelector CSS_CLASSES.STAR_CONTROLS l) as [k|] eqn:E; simpl.
  - exists l. split; [reflexivity|].
    destruct (querySelector_Some _ _ _ E) as (pre & x & post & El & _ & Hx & _).
    apply hasClass_controls in Hx. subst x.
    split; [reflexivity|]. split; [|split].
    + intro Hn. exfalso. apply Hn. rewrite El. apply in_elt.
    + rewrite El, cnt_app, cnt_cons. cbn [Nat.b2n hasClass].
      now rewrite !Nat.add_succ_r.
    + now rewrite E.
  - apply querySelector_None in E.
    exists (l ++ [StarControls]). split; [reflexivity|]. split; [|split; [|split]].
    + intro Hin. exfalso. now apply (proj1 (noneOf_controls_In l) E).
    + reflexivity.
    + rewrite cnt_app, cnt_cons, cnt_nil. apply cnt_noneOf in E. rewrite E.
      reflexivity.
    + rewrite querySelector_split; [reflexivity|assumption|reflexivity].
Qed.

Lemma addButtonsToLine_once_witness :
  addButtonsToLine lineOne = (Normal tt, lineOne) /\
  addButtonsToLine [FullStar; Other]
  = (Normal tt, [FullStar; Other] ++ [StarControls]).
Proof.
  split.
  - destruct (addButtonsToLine_once lineOne) as (l' & H & Hin & _).
    rewrite H. f_equal. apply Hin. simpl. tauto.
  - destruct (addButtonsToLine_once [FullStar; Other]) as (l' & H & _ & Hout & _).
    rewrite H. f_equal. apply Hout. simpl. intuition discriminate.
Defined.

(** X8.  [updateTotalDisplay] needs the aggregate region or a main container
    to create it in: with neither it throws a TypeError and leaves the page
    as it was; otherwise it completes, leaves every line alone, and leaves
    one cached region showing the total it was given (or, given none, the
    total of the lines); running it again changes nothing. *)
Theorem updateTotalDisplay_outcome (t : option Q) (p : Page) :
  let shown := match t with Some v => v | None => calculateTotalStars p end in
  (totalDisplay p = NoTotalDisplay -> mainContainer p = NoMain ->
   updateTotalDisplay t p = (Throw TypeError, p)) /\
  (totalDisplay p <> NoTotalDisplay \/ mainContainer p <> NoMain ->
   exists p',
     updateTotalDisplay t p = (Normal tt, p') /\
     wrappers p' = wrappers p /\
     totalDisplay p'
     = TotalDisplayDiv true [Lit "Total: "; Num shown; Lit " STARS"] /\
     (totalDisplay p <> NoTotalDisplay -> mainContainer p' = mainContainer p) /\
     updateTotalDisplay t p' = (Normal tt, p')).
Proof.
  intro shown. subst shown. split.
  - destruct p as [ws mc td]; simpl; intros -> ->. now destruct t.
  - unfold updateTotalDisplay, getTotalDisplay, createTotalDisplayElement,
      getMainContainer, setTotalDisplay, bind, gets, modify, throw, ret.
    destruct p as [ws [|mc] [|[|] txt]]; simpl; intros [H|H];
      try congruence; eexists; (split; [reflexivity|]); simpl;
      repeat split; try reflexivity; try congruence.
Qed.

Lemma updateTotalDisplay_outcome_witness :
  updateTotalDisplay None (mkPage [lineOne] NoMain NoTotalDisplay)
  = (Throw TypeError, mkPage [lineOne] NoMain NoTotalDisplay) /\
  exists p',
    updateTotalDisplay (Some 3%Q) suppliedPage = (Normal tt, p') /\
    totalDisplay p' = TotalDisplayDiv true [Lit "Total: "; Num 3; Lit " STARS"].
Proof.
  split.
  - apply (proj1 (updateTotalDisplay_outcome None
                    (mkPage [lineOne] NoMain NoTotalDisplay))); reflexivity.
  - destruct (proj2 (updateTotalDisplay_outcome (Some 3%Q) suppliedPage))
      as (p' & H & _ & Ht & _).
    + right. discriminate.
    + exists p'. split; assumption.
Defined.

Lemma updateTotalDisplay_throws_with (t : option Q) (p : Page) :
  totalDisplay p = NoTotalDisplay -> mainContainer p = NoMain ->
  updateTotalDisplay t p = (Throw TypeError, p).
Proof. destruct p as [ws mc td]; simpl; intros -> ->. now destruct t. Qed.

(** Once the region is cached and shows [t], showing [t] again is a no-op. *)
Lemma updateTotalDisplay_again (t : Q) (p : Page) (c : bool) :
  totalDisplay p = TotalDisplayDiv c [Lit "Total: "; Num t; Lit " STARS"] ->
  c = true -> updateTotalDisplay (Some t) p = (Normal tt, p).
Proof. destruct p as [ws mc td]; simpl; intros -> ->. reflexivity. Qed.

Lemma updateTotalDisplay_result (t : Q) (p : Page) :
  totalDisplay p <> NoTotalDisplay \/ mainContainer p <> NoMain ->
  exists p',
    updateTotalDisplay (Some t) p = (Normal tt, p') /\
    wrappers p' = wrappers p /\
    totalDisplay p' = TotalDisplayDiv true [Lit "Total: "; Num t; Lit " STARS"].
Proof.
  unfold updateTotalDisplay, getTotalDisplay, createTotalDisplayElement,
    getMainContainer, setTotalDisplay, bind, gets, modify, throw, ret.
  destruct p as [ws [|mc] [|[|] txt]]; simpl; intros [H|H];
    try congruence; eexists; (split; [reflexivity|]); split; reflexivity.
Qed.

Lemma rendered_shape (l : Line) :
  exists pre post,
    rendered l
    = pre ++ StarCount [Num (lineTotal l); Lit " STARS"]
                       (getColorForStarCount (countStarsInLine l)) :: post /\
    noneOf CSS_CLASSES.STAR_COUNT pre.
Proof.
  destruct (updateLineDisplay_result (countStarsInLine l) l)
    as (pre & post & H & Hpre & _).
  exists pre, post. split; [|exact Hpre].
  pose proof (rendered_run l) as R. rewrite H in R. now injection R as <-.
Qed.

Lemma rendered_count (l : Line) :
  countStarsInLine (rendered l) = countStarsInLine l.
Proof. apply countStarsInLine_markers, rendered_markers. Qed.

Lemma rendered_total (l : Line) : lineTotal (rendered l) = lineTotal l.
Proof. unfold lineTotal. now rewrite rendered_count. Qed.

Lemma rendered_labelled (l : Line) : labelled (rendered l).
Proof.
  destruct (rendered_shape l) as (pre & post & E & Hpre).
  unfold labelled. rewrite rendered_total, rendered_count, E.
  exists (length pre). split.
  - now apply querySelector_split.
  - apply nth_error_middle.
Qed.

(** A labelled line is what the renderer would make of it. *)
Lemma labelled_rendered (l : Line) : labelled l -> rendered l = l.
Proof.
  intros (d & Hq & Hn).
  destruct (querySelector_Some _ _ _ Hq) as (pre & x & post & El & Ed & _ & Hpre).
  subst d. rewrite El in Hn. rewrite nth_error_middle in Hn. injection Hn as Hx.
  pose proof (rendered_run l) as R.
  rewrite El in R at 2. rewrite Hx in R.
  rewrite (updateLineDisplay_rewrites _ pre post _ _ Hpre) in R.
  injection R as R. rewrite <- R. rewrite <- El in Hx.
  transitivity (pre ++ x :: post); [|now symmetry].
  rewrite Hx. reflexivity.
Qed.

Lemma rendered_idempotent (l : Line) : rendered (rendered l) = rendered l.
Proof. apply labelled_rendered, rendered_labelled. Qed.

Lemma updateAllLinesDisplay_run (p : Page) :
  updateAllLinesDisplay p
  = (Normal (map countStarsInLine (wrappers p)),
     mkPage (map rendered (wrappers p)) (mainContainer p) (totalDisplay p)).
Proof.
  unfold updateAllLinesDisplay, bind, gets, allLines. destruct p as [ws mc td].
  exact (forEachLine_run ws [] [] mc td).
Qed.

(** X13.  [updateAllLinesDisplay] returns the counts of the lines in
    document order and renders every line; the total that
    [calculateTotalFromCounts] makes of those counts is the total that
    [calculateTotalStars] finds on the page afterwards, which is the total
    of the page before. *)
Theorem precomputed_total_agrees (p : Page) :
  exists p1,
    updateAllLinesDisplay p = (Normal (map countStarsInLine (wrappers p)), p1) /\
    wrappers p1 = map rendered (wrappers p) /\
    (calculateTotalFromCounts (map countStarsInLine (wrappers p))
     == calculateTotalStars p1)%Q /\
    (calculateTotalStars p1 == calculateTotalStars p)%Q.
Proof.
  eexists. split; [apply updateAllLinesDisplay_run|]. split; [reflexivity|].
  rewrite !calculateTotalStars_sum. simpl. rewrite sumTotals_rendered.
  split; [apply calculateTotalFromCounts_sum | reflexivity].
Qed.

(** X15.  [updateAllDisplays] renders every line and then the aggregate
    region.  Without region and without main container it throws a TypeError
    once every line is rendered; otherwise it completes with every line
    labelled, the stars untouched and the region showing the sum of the
    totals; running it again changes nothing. *)
Theorem updateAllDisplays_outcome (p : Page) :
  (totalDisplay p = NoTotalDisplay -> mainContainer p = NoMain ->
   updateAllDisplays p
   = (Throw TypeError, mkPage (map rendered (wrappers p)) NoMain NoTotalDisplay)) /\
  (totalDisplay p <> NoTotalDisplay \/ mainContainer p <> NoMain ->
   exists p',
     updateAllDisplays p = (Normal tt, p') /\
     wrappers p' = map rendered (wrappers p) /\
     map markers (wrappers p') = map markers (wrappers p) /\
     Forall labelled (wrappers p') /\
     inSync p' /\
     updateAllDisplays p' = (Normal tt, p')).
Proof.
  unfold updateAllDisplays, bind. rewrite updateAllLinesDisplay_run. split.
  - intros Ht Hm. rewrite Ht, Hm.
    apply (updateTotalDisplay_throws_with (Some _)); reflexivity.
  - intro H.
    set (t := calculateTotalFromCounts (map countStarsInLine (wrappers p))).
    destruct (updateTotalDisplay_result t
                (mkPage (map rendered (wrappers p)) (mainContainer p)
                        (totalDisplay p)) H) as (p' & H' & Hw & Hd).
    exists p'. split; [exact H'|]. simpl in Hw. split; [exact Hw|]. rewrite Hw.
    split; [|split; [|split]].
    + rewrite map_map. apply map_ext, rendered_markers.
    + apply Forall_map, Forall_forall. intros l _. apply rendered_labelled.
    + exists t. split; [unfold displayedTotal; now rewrite Hd|].
      rewrite Hw, sumTotals_rendered. apply calculateTotalFromCounts_sum.
    + rewrite updateAllLinesDisplay_run, Hw.
      assert (map rendered (map rendered (wrappers p)) = map rendered (wrappers p))
        as -> by (rewrite map_map; apply map_ext, rendered_idempotent).
      assert (map countStarsInLine (map rendered (wrappers p))
              = map countStarsInLine (wrappers p))
        as -> by (rewrite map_map; apply map_ext, rendered_count).
      fold t. rewrite <- Hw, page_eta.
      exact (updateTotalDisplay_again t p' true Hd eq_refl).
Qed.

Lemma updateAllDisplays_outcome_witness :
  updateAllDisplays (mkPage [[FullStar]] NoMain NoTotalDisplay)
  = (Throw TypeError, mkPage (map rendered [[FullStar]]) NoMain NoTotalDisplay) /\
  exists p', updateAllDisplays suppliedPage = (Normal tt, p') /\
             updateAllDisplays p' = (Normal tt, p').
Proof.
  split.
  - apply (proj1 (updateAllDisplays_outcome
                    (mkPage [[FullStar]] NoMain NoTotalDisplay))); reflexivity.
  - destruct (proj2 (updateAllDisplays_outcome suppliedPage))
      as (p' & H & _ & _ & _ & _ & H2).
    + right. discriminate.
    + exists p'. split; assumption.
Defined.

(* ================================================================== *)
(** ** Further properties of the change handler *)

Lemma length_setLine (ws : list Line) (i : nat) (l : Line) :
  length (setLine i l ws) = length ws.
Proof.
  unfold setLine. revert i; induction ws as [|w ws IH]; intros [|i]; simpl; auto.
Qed.

Lemma nth_error_setLine_other (ws : list Line) (i j : nat) (l : Line) :
  j <> i -> nth_error (setLine i l ws) j = nth_error ws j.
Proof.
  unfold setLine. revert i j; induction ws as [|w ws IH]; intros [|i] [|j] H;
    simpl; auto; try congruence.
Qed.

(** What the handler does once the Limiter has accepted, whatever the
    amount: one of the four mutators when the amount is its delta, nothing
    otherwise; then the line is rendered and the aggregate region updated. *)
Lemma handleStarChange_accepted_any
      (p : Page) (i : nat) (l : Line) (changeAmount : Q) :
  nth_error (wrappers p) i = Some l ->
  isStarChangeAllowed (lineTotal l) changeAmount = true ->
  exists l1,
    (l1 = l \/
     exists o, Qeq_bool changeAmount (opDelta o) = true /\
               runOp o l = (Normal tt, l1)) /\
    ((forall o, Qeq_bool changeAmount (opDelta o) = false) -> l1 = l) /\
    handleStarChange i changeAmount p
    = updateTotalDisplay None
        (mkPage (setLine i (rendered l1) (wrappers p))
                (mainContainer p) (totalDisplay p)).
Proof.
  intros Hl Ha.
  assert (exists l1,
             (l1 = l \/
              exists o, Qeq_bool changeAmount (opDelta o) = true /\
                        runOp o l = (Normal tt, l1)) /\
             ((forall o, Qeq_bool changeAmount (opDelta o) = false) -> l1 = l) /\
             (if Qeq_bool changeAmount 1 then withLine i addFullStar
              else if Qeq_bool changeAmount (-1) then withLine i removeFullStar
              else if Qeq_bool changeAmount (1 # 2) then withLine i addHalfStar
              else if Qeq_bool changeAmount (- (1 # 2))
                   then withLine i removeHalfStar
              else ret tt) p
             = (Normal tt,
                mkPage (setLine i l1 (wrappers p))
                       (mainContainer p) (totalDisplay p)))
    as (l1 & Hcase & Hnone & Hrun).
  { destruct (Qeq_bool changeAmount 1) eqn:E1;
      [|destruct (Qeq_bool changeAmount (-1)) eqn:E2;
        [|destruct (Qeq_bool changeAmount (1 # 2)) eqn:E3;
          [|destruct (Qeq_bool changeAmount (- (1 # 2))) eqn:E4]]].
    - destruct (runOp_normal OpAddFull l) as (l1 & H1). exists l1.
      split; [right; exists OpAddFull; now split|]. split.
      + intro Hall. specialize (Hall OpAddFull). simpl in Hall. congruence.
      + exact (withLine_run _ p i l l1 (Normal tt) Hl H1).
    - destruct (runOp_normal OpRemoveFull l) as (l1 & H1). exists l1.
      split; [right; exists OpRemoveFull; now split|]. split.
      + intro Hall. specialize (Hall OpRemoveFull). simpl in Hall. congruence.
      + exact (withLine_run _ p i l l1 (Normal tt) Hl H1).
    - destruct (runOp_normal OpAddHalf l) as (l1 & H1). exists l1.
      split; [right; exists OpAddHalf; now split|]. split.
      + intro Hall. specialize (Hall OpAddHalf). simpl in Hall. congruence.
      + exact (withLine_run _ p i l l1 (Normal tt) Hl H1).
    - destruct (runOp_normal OpRemoveHalf l) as (l1 & H1). exists l1.
      split; [right; exists OpRemoveHalf; now split|]. split.
      + intro Hall. specialize (Hall OpRemoveHalf). simpl in Hall. congruence.
      + exact (withLine_run _ p i l l1 (Normal tt) Hl H1).
    - exists l. split; [now left|]. split; [reflexivity|].
      unfold ret. now rewrite (setLine_same _ _ _ Hl), page_eta. }
  exists l1. split; [exact Hcase|]. split; [exact Hnone|].
  unfold handleStarChange, bind.
  rewrite (withLine_gets countStarsInLine p i l Hl).
  unfold lineTotal in Ha. rewrite Ha. simpl. rewrite Hrun.
  set (p1 := mkPage (setLine i l1 (wrappers p)) (mainContainer p) (totalDisplay p)).
  assert (nth_error (wrappers p1) i = Some l1) as Hl1
      by (apply (nth_error_setLine _ _ l); exact Hl).
  rewrite (withLine_gets countStarsInLine p1 i l1 Hl1).
  rewrite (withLine_run _ p1 i l1 (rendered l1) (Normal tt) Hl1 (rendered_run l1)).
  unfold p1; simpl. now rewrite (setLine_setLine _ _ l _ _ Hl).
Qed.

(** The wrappers after a change request, in all cases. *)
Lemma handleStarChange_wrappers
      (p : Page) (i : nat) (l : Line) (changeAmount : Q) :
  nth_error (wrappers p) i = Some l ->
  exists l',
    wrappers (snd (handleStarChange i changeAmount p))
    = setLine i l' (wrappers p) /\
    (isStarChangeAllowed (lineTotal l) changeAmount = false -> l' = l) /\
    (isStarChangeAllowed (lineTotal l) changeAmount = true -> labelled l') /\
    ((forall o, Qeq_bool changeAmount (opDelta o) = false) ->
     markers l' = markers l).
Proof.
  intro Hl. destruct (isStarChangeAllowed (lineTotal l) changeAmount) eqn:Ha.
  - destruct (handleStarChange_accepted_any p i l changeAmount Hl Ha)
      as (l1 & _ & Hnone & ->).
    rewrite updateTotalDisplay_wrappers. simpl. exists (rendered l1).
    split; [reflexivity|]. split; [discriminate|]. split.
    + intros _. apply rendered_labelled.
    + intro Hall. now rewrite rendered_markers, (Hnone Hall).
  - rewrite (handleStarChange_rejected p i l changeAmount Hl Ha). simpl.
    exists l. split; [now rewrite (setLine_same _ _ _ Hl)|]. split; [auto|].
    split; [discriminate | reflexivity].
Qed.

(** X10.  A change request touches no line but its own: the page keeps its
    number of lines and every other line is exactly what it was, whether
    the handler completes or throws.  Given the undefined reference that
    indexing the list of lines past its end yields, the handler throws a
    TypeError and leaves the page as it was. *)
Theorem handleStarChange_local (p : Page) (i : nat) (changeAmount : Q) :
  let p' := snd (handleStarChange i changeAmount p) in
  length (wrappers p') = length (wrappers p) /\
  (forall j, j <> i -> nth_error (wrappers p') j = nth_error (wrappers p) j) /\
  (nth_error (wrappers p) i = None ->
   handleStarChange i changeAmount p = (Throw TypeError, p)).
Proof.
  intro p'. subst p'. destruct (nth_error (wrappers p) i) as [l|] eqn:Hl.
  - destruct (handleStarChange_wrappers p i l changeAmount Hl) as (l' & -> & _).
    split; [apply length_setLine|]. split; [|discriminate].
    intros j Hj. now apply nth_error_setLine_other.
  - assert (handleStarChange i changeAmount p = (Throw TypeError, p)) as E.
    { unfold handleStarChange, bind, withLine. now rewrite Hl. }
    rewrite E. auto.
Qed.

Lemma handleStarChange_local_witness :
  nth_error (wrappers (snd (handleStarChange 0 1 samplePage))) 1
  = nth_error (wrappers samplePage) 1 /\
  handleStarChange 7 1 samplePage = (Throw TypeError, samplePage).
Proof.
  destruct (handleStarChange_local samplePage 0 1) as (_ & H & _).
  destruct (handleStarChange_local samplePage 7 1) as (_ & _ & H7).
  split; [apply H; discriminate | apply H7; reflexivity].
Defined.

(** X11.  After every change request the Limiter has accepted, the first
    count display of the line shows the line's new total in the colour of
    its new count, also when the handler then fails on the aggregate
    region. *)
Theorem handleStarChange_relabels
        (p : Page) (i : nat) (l : Line) (changeAmount : Q) :
  nth_error (wrappers p) i = Some l ->
  isStarChangeAllowed (lineTotal l) changeAmount = true ->
  exists l',
    nth_error (wrappers (snd (handleStarChange i changeAmount p))) i = Some l' /\
    labelled l'.
Proof.
  intros Hl Ha.
  destruct (handleStarChange_wrappers p i l changeAmount Hl) as (l' & -> & _ & H & _).
  exists l'. split; [now apply (nth_error_setLine _ _ l) | now apply H].
Qed.

Lemma handleStarChange_relabels_witness :
  exists l',
    nth_error (wrappers (snd (handleStarChange 0 (-1) samplePage))) 0 = Some l' /\
    labelled l'.
Proof.
  apply (handleStarChange_relabels samplePage 0 lineTwoAndHalf (-1)); reflexivity.
Defined.

(** X12.  An amount that is none of 1, -1, 0.5, -0.5 never changes a star,
    accepted or not. *)
Theorem handleStarChange_other_amounts
        (p : Page) (i : nat) (l : Line) (changeAmount : Q) :
  nth_error (wrappers p) i = Some l ->
  (forall o, ~ (changeAmount == opDelta o)%Q) ->
  exists l',
    nth_error (wrappers (snd (handleStarChange i changeAmount p))) i = Some l' /\
    markers l' = markers l.
Proof.
  intros Hl Hnone.
  destruct (handleStarChange_wrappers p i l changeAmount Hl) as (l' & -> & _ & _ & H).
  exists l'. split; [now apply (nth_error_setLine _ _ l)|].
  apply H. intro o. destruct (Qeq_bool changeAmount (opDelta o)) eqn:E; [|reflexivity].
  apply Qeq_bool_iff in E. now contradiction (Hnone o).
Qed.

Lemma handleStarChange_other_amounts_witness :
  isStarChangeAllowed (lineTotal lineTwoAndHalf) 2 = true /\
  exists l',
    nth_error (wrappers (snd (handleStarChange 0 2 samplePage))) 0 = Some l' /\
    markers l' = markers lineTwoAndHalf.
Proof.
  split; [reflexivity|].
  apply (handleStarChange_other_amounts samplePage 0 lineTwoAndHalf 2);
    [reflexivity|].
  intros [] H; vm_compute in H; discriminate.
Defined.

(** X9.  On a page with neither aggregate region nor main container an
    accepted button change is not undone by the failure: the mutator has
    run and the line is rendered when the handler throws its TypeError. *)
Theorem handleStarChange_throws_late
        (p : Page) (i : nat) (l : Line) (o : Op) :
  nth_error (wrappers p) i = Some l ->
  isStarChangeAllowed (lineTotal l) (opDelta o) = true ->
  totalDisplay p = NoTotalDisplay -> mainContainer p = NoMain ->
  exists l1,
    runOp o l = (Normal tt, l1) /\
    handleStarChange i (opDelta o) p
    = (Throw TypeError,
       mkPage (setLine i (rendered l1) (wrappers p)) NoMain NoTotalDisplay).
Proof.
  intros Hl Ha Ht Hm.
  destruct (handleStarChange_accepted p i l o Hl Ha) as (l1 & l2 & H1 & H2 & ->).
  exists l1. split; [exact H1|].
  pose proof (rendered_run l1) as R. rewrite H2 in R. injection R as ->.
  rewrite Ht, Hm. now apply updateTotalDisplay_throws_with.
Qed.

Lemma handleStarChange_throws_late_witness :
  exists l1,
    runOp OpAddFull [FullStar] = (Normal tt, l1) /\
    handleStarChange 0 1 (mkPage [[FullStar]] NoMain NoTotalDisplay)
    = (Throw TypeError,
       mkPage (setLine 0 (rendered l1) [[FullStar]]) NoMain NoTotalDisplay).
Proof.
  apply (handleStarChange_throws_late
           (mkPage [[FullStar]] NoMain NoTotalDisplay) 0 [FullStar] OpAddFull);
    reflexivity.
Defined.

Lemma handleStarChange_tidy
      (p : Page) (i : nat) (l : Line) (changeAmount : Q) :
  nth_error (wrappers p) i = Some l ->
  In changeAmount (map snd buttons) ->
  tidy p ->
  exists p',
    handleStarChange i changeAmount p = (Normal tt, p') /\
    tidy p' /\
    length (wrappers p') = length (wrappers p) /\
    (Forall inRange (wrappers p) -> Forall inRange (wrappers p')).
Proof.
  intros Hl Hin [Hs Hall].
  destruct (isStarChangeAllowed (lineTotal l) changeAmount) eqn:Ha.
  - apply buttons_ops in Hin. destruct Hin as (o & ->).
    destruct (handleStarChange_accepted p i l o Hl Ha) as (l1 & l2 & H1 & H2 & ->).
    set (p2 := mkPage (setLine i l2 (wrappers p)) (mainContainer p) (totalDisplay p)).
    destruct (updateTotalDisplay_run p2) as (p' & H & Hw & Hd).
    { left. simpl. destruct Hs as (q & Hq & _). unfold displayedTotal in Hq.
      intro E. rewrite E in Hq. discriminate. }
    assert (canonical l = true /\ labelled l) as [Hc _].
    { rewrite Forall_forall in Hall. apply Hall. eapply nth_error_In; eauto. }
    exists p'. split; [exact H|]. unfold tidy. rewrite !Hw. simpl.
    split; [split|split].
    + exists (calculateTotalStars p2). split; [exact Hd|].
      rewrite Hw. apply calculateTotalStars_sum.
    + apply Forall_setLine; [exact Hall|]. split.
      * apply (updateLineDisplay_canonical _ _ _ H2).
        destruct (canonical_runOp o l Hc) as (l1' & H1' & Hc1).
        rewrite H1 in H1'. now injection H1' as <-.
      * pose proof (rendered_run l1) as R. rewrite H2 in R. injection R as ->.
        apply rendered_labelled.
    + apply length_setLine.
    + intro Hr. apply Forall_setLine; [exact Hr|].
      unfold inRange. rewrite (updateLineDisplay_total _ _ _ H2).
      apply (runOp_total_range o l l1 H1 Ha). right.
      rewrite Forall_forall in Hr. apply Hr. eapply nth_error_In; eauto.
  - exists p. split; [now apply (handleStarChange_rejected p i l)|].
    split; [now split|]. auto.
Qed.

(** X14.  On a tidy page (aggregate region in sync, every line canonical
    and labelled) any run of button clicks on lines of the page completes
    normally and leaves the page tidy, with as many lines; and when every
    total was in [1, 5], every total still is. *)
Theorem clicks_keep_page_tidy (requests : list (nat * Q)) (p : Page) :
  tidy p ->
  Forall (fun r => fst r < length (wrappers p) /\
                   In (snd r) (map snd buttons)) requests ->
  exists p',
    clickAll requests p = (Normal tt, p') /\
    tidy p' /\
    length (wrappers p') = length (wrappers p) /\
    (Forall inRange (wrappers p) -> Forall inRange (wrappers p')).
Proof.
  revert p; induction requests as [|[i changeAmount] requests IH];
    intros p Ht Hreq; simpl.
  - exists p. unfold ret. auto.
  - inversion Hreq as [|r rs [Hi Hin] Hrest]; subst. simpl in Hi, Hin.
    destruct (nth_error (wrappers p) i) as [l|] eqn:Hl;
      [|apply nth_error_None in Hl; lia].
    destruct (handleStarChange_tidy p i l changeAmount Hl Hin Ht)
      as (p1 & H1 & Ht1 & Hlen1 & Hr1).
    destruct (IH p1 Ht1) as (p' & H' & Ht' & Hlen' & Hr').
    { rewrite Hlen1. exact Hrest. }
    exists p'. unfold bind. rewrite H1. split; [exact H'|]. split; [exact Ht'|].
    split; [congruence | auto].
Qed.

Lemma renderedPage_tidy : tidy renderedPage.
Proof.
  split.
  - eexists. split; reflexivity.
  - repeat constructor.
    + exists 3. split; reflexivity.
    + exists 1. split; reflexivity.
    + exists 2. split; reflexivity.
Qed.

Lemma clicks_keep_page_tidy_witness :
  exists p',
    clickAll [(0, (1 # 2)%Q); (1, (-1)%Q); (2, 1%Q); (0, (1 # 2)%Q)] renderedPage
    = (Normal tt, p') /\
    tidy p' /\
    length (wrappers p') = length (wrappers renderedPage) /\
    (Forall inRange (wrappers renderedPage) -> Forall inRange (wrappers p')).
Proof.
  apply (clicks_keep_page_tidy
           [(0, (1 # 2)%Q); (1, (-1)%Q); (2, 1%Q); (0, (1 # 2)%Q)] renderedPage).
  - exact renderedPage_tidy.
  - repeat constructor; simpl; tauto.
Defined.

(* ================================================================== *)
(** ** Initialization *)

Lemma wired_run (l : Line) : addButtonsToLine l = (Normal tt, wired l).
Proof.
  unfold wired. destruct (addButtonsToLine_run l) as (l' & -> & _). reflexivity.
Qed.

Lemma wired_cases (l : Line) :
  (In StarControls l /\ wired l = l) \/
  (~ In StarControls l /\ wired l = l ++ [StarControls]).
Proof.
  unfold wired, addButtonsToLine, bind, gets.
  destruct (querySelector CSS_CLASSES.STAR_CONTROLS l) as [k|] eqn:E; simpl.
  - left. split; [|reflexivity].
    destruct (querySelector_Some _ _ _ E) as (pre & x & post & -> & _ & Hx & _).
    apply hasClass_controls in Hx. subst x. apply in_elt.
  - right. split; [|reflexivity].
    now apply noneOf_controls_In, querySelector_None.
Qed.

Lemma wired_markers (l : Line) : markers (wired l) = markers l.
Proof.
  destruct (wired_cases l) as [[_ ->] | [_ ->]]; [reflexivity|].
  rewrite markers_app. simpl. apply app_nil_r.
Qed.

Lemma wired_has_controls (l : Line) : In StarControls (wired l).
Proof.
  destruct (wired_cases l) as [[H ->] | [_ ->]]; [exact H|].
  apply in_or_app. right. now left.
Qed.

Lemma wired_idempotent (l : Line) : wired (wired l) = wired l.
Proof.
  destruct (wired_cases (wired l)) as [[_ E] | [H _]]; [exact E|].
  contradiction (H (wired_has_controls l)).
Qed.

Lemma wired_canonical (l : Line) : canonical l = true -> canonical (wired l) = true.
Proof.
  intro Hc. destruct (addButtonsToLine_run l) as (l' & H & _ & Hk).
  rewrite wired_run in H. injection H as <-. now apply Hk.
Qed.

Lemma wired_labelled (l : Line) : labelled l -> labelled (wired l).
Proof.
  intros (d & Hq & Hn).
  pose proof (countStarsInLine_markers l (wired l) (wired_markers l)) as Ec.
  unfold labelled, lineTotal. rewrite Ec.
  destruct (wired_cases l) as [[_ ->] | [_ ->]]; [now exists d|].
  destruct (querySelector_Some _ _ _ Hq) as (pre & x & post & El & Ed & Hx & Hpre).
  exists d. subst d. rewrite El in Hn |- *. rewrite nth_error_middle in Hn.
  rewrite <- app_assoc. simpl. split.
  - now apply querySelector_split.
  - now rewrite nth_error_middle.
Qed.

Lemma wired_total (l : Line) : lineTotal (wired l) = lineTotal l.
Proof.
  unfold lineTotal. now rewrite (countStarsInLine_markers l (wired l) (wired_markers l)).
Qed.

Lemma sumTotals_wired (ws : list Line) : sumTotals (map wired ws) = sumTotals ws.
Proof.
  induction ws as [|w ws IH]; simpl; [reflexivity|].
  now rewrite IH, wired_total.
Qed.

Lemma forEach_buttons (todo done : list Line)
      (mc : MainContainer) (td : TotalDisplay) :
  forEach (seq (length done) (length todo))
          (fun line => withLine line addButtonsToLine)
          (mkPage (done ++ todo) mc td)
  = (Normal tt, mkPage (done ++ map wired todo) mc td).
Proof.
  revert done; induction todo as [|l todo IH]; intro done; simpl.
  - unfold ret. now rewrite !app_nil_r.
  - unfold bind.
    rewrite (withLine_run _ _ (length done) l (wired l) (Normal tt))
      by (try apply nth_error_split_at; apply wired_run).
    simpl. rewrite setLine_split.
    replace (done ++ wired l :: todo) with ((done ++ [wired l]) ++ todo)
      by now rewrite <- app_assoc.
    replace (S (length done)) with (length (done ++ [wired l]))
      by (rewrite length_app; simpl; lia).
    rewrite IH. now rewrite <- !app_assoc.
Qed.

Lemma addButtonsToAllLines_run (p : Page) :
  addButtonsToAllLines p
  = (Normal tt, mkPage (map wired (wrappers p)) (mainContainer p) (totalDisplay p)).
Proof.
  unfold addButtonsToAllLines, bind, gets, allLines. destruct p as [ws mc td].
  exact (forEach_buttons ws [] mc td).
Qed.

Lemma attachClickHandler_idempotent (w : LineWiring) :
  attachClickHandler (attachClickHandler w) = attachClickHandler w.
Proof.
  unfold attachClickHandler. destruct w as [[flag|] n c]; simpl.
  - destruct (String.eqb flag "true") eqn:E; simpl; [now rewrite E | reflexivity].
  - reflexivity.
Qed.

Lemma forEach_attach (k a : nat) (d : Document) :
  exists d',
    forEach (seq a k)
      (fun line =>
         modify (fun d0 =>
                   mkDocument (page d0)
                     (fun j => if j =? line then attachClickHandler (wiring d0 j)
                               else wiring d0 j)
                     (console d0))) d
    = (Normal tt, d') /\
    page d' = page d /\ console d' = console d /\
    forall j, (a <= j < a + k -> wiring d' j = attachClickHandler (wiring d j)) /\
              (~ a <= j < a + k -> wiring d' j = wiring d j).
Proof.
  revert a d; induction k as [|k IH]; intros a d.
  - exists d. unfold ret. repeat split; auto. lia.
  - cbn [seq forEach]. unfold bind, modify at 1.
    set (d1 := mkDocument (page d)
                 (fun j => if j =? a then attachClickHandler (wiring d j)
                           else wiring d j) (console d)).
    destruct (IH (S a) d1) as (d' & H & Hp & Hc & Hw).
    exists d'. split; [exact H|]. split; [exact Hp|]. split; [exact Hc|].
    intro j. destruct (Hw j) as [Hin Hout].
    assert (wiring d1 j = if j =? a then attachClickHandler (wiring d j)
                          else wiring d j) as E1 by reflexivity.
    destruct (Nat.eq_dec j a) as [->|Hne].
    + rewrite Nat.eqb_refl in E1. split; [|lia]. intros _.
      rewrite Hout by lia. exact E1.
    + apply Nat.eqb_neq in Hne. rewrite Hne in E1. apply Nat.eqb_neq in Hne.
      split; intro Hj.
      * rewrite Hin by lia. now rewrite E1.
      * rewrite Hout by lia. exact E1.
Qed.

Lemma attachClickHandlers_run (d : Document) :
  exists d',
    attachClickHandlers d = (Normal tt, d') /\
    page d' = page d /\ console d' = console d /\
    forall j, wiring d' j
              = if j <? length (wrappers (page d))
                then attachClickHandler (wiring d j) else wiring d j.
Proof.
  unfold attachClickHandlers, bind, gets, allLines.
  destruct (forEach_attach (length (wrappers (page d))) 0 d)
    as (d' & H & Hp & Hc & Hw).
  exists d'. split; [exact H|]. split; [exact Hp|]. split; [exact Hc|].
  intro j. destruct (Hw j) as [Hin Hout].
  destruct (j <? length (wrappers (page d))) eqn:E.
  - apply Nat.ltb_lt in E. apply Hin. lia.
  - apply Nat.ltb_ge in E. apply Hout. lia.
Qed.

Lemma updateAllDisplays_wrappers (p : Page) :
  wrappers (snd (updateAllDisplays p)) = map rendered (wrappers p).
Proof.
  unfold updateAllDisplays, bind. rewrite updateAllLinesDisplay_run.
  now rewrite updateTotalDisplay_wrappers.
Qed.

Lemma allLines_length (p : Page) : length (allLines p) = length (wrappers p).
Proof. unfold allLines. apply length_seq. Qed.

(** Initialization on a page with lines, once the first rendering has come
    through. *)
Lemma initializeStarCounter_run (d : Document) (p1 : Page) :
  wrappers (page d) <> [] ->
  updateAllDisplays (page d) = (Normal tt, p1) ->
  exists d',
    initializeStarCounter d = (Normal tt, d') /\
    page d' = mkPage (map wired (wrappers p1)) (mainContainer p1) (totalDisplay p1) /\
    console d' = console d ++ [LogInitialized (length (wrappers (page d)))] /\
    forall j, wiring d' j
              = if j <? length (wrappers (page d))
                then attachClickHandler (wiring d j) else wiring d j.
Proof.
  intros Hne H1.
  assert (length (wrappers p1) = length (wrappers (page d))) as Hlen.
  { pose proof (updateAllDisplays_wrappers (page d)) as E. rewrite H1 in E.
    simpl in E. rewrite E. apply length_map. }
  unfold initializeStarCounter, bind at 1, gets. rewrite allLines_length.
  destruct (length (wrappers (page d)) =? 0) eqn:E0.
  { apply Nat.eqb_eq, length_zero_iff_nil in E0. contradiction. }
  unfold bind at 1, onPage at 1. rewrite H1.
  destruct (attachClickHandlers_run (mkDocument p1 (wiring d) (console d)))
    as (d2 & H2 & Hp2 & Hc2 & Hw2).
  unfold bind at 1. rewrite H2.
  unfold bind, onPage. rewrite Hp2. simpl. rewrite addButtonsToAllLines_run.
  unfold consoleWrite, modify. simpl.
  eexists. split; [reflexivity|]. simpl. split; [reflexivity|].
  split; [now rewrite Hc2|].
  intro j. rewrite Hw2. simpl. now rewrite Hlen.
Qed.

Lemma initializeStarCounter_fails (d : Document) (p1 : Page) (e : Exn) :
  wrappers (page d) <> [] ->
  updateAllDisplays (page d) = (Throw e, p1) ->
  initializeStarCounter d = (Throw e, mkDocument p1 (wiring d) (console d)).
Proof.
  intros Hne H1.
  unfold initializeStarCounter, bind at 1, gets. rewrite allLines_length.
  destruct (length (wrappers (page d)) =? 0) eqn:E0.
  { apply Nat.eqb_eq, length_zero_iff_nil in E0. contradiction. }
  unfold bind at 1, onPage at 1. now rewrite H1.
Qed.

Lemma initializeStarCounter_empty (d : Document) :
  wrappers (page d) = [] ->
  initializeStarCounter d
  = (Normal tt, mkDocument (page d) (wiring d) (console d ++ [WarnNoLines])).
Proof.
  intro He. unfold initializeStarCounter, bind, gets. rewrite allLines_length, He.
  reflexivity.
Qed.

Lemma updateAllDisplays_result (p : Page) :
  totalDisplay p <> NoTotalDisplay \/ mainContainer p <> NoMain ->
  exists p1,
    updateAllDisplays p = (Normal tt, p1) /\
    wrappers p1 = map rendered (wrappers p) /\
    totalDisplay p1
    = TotalDisplayDiv true
        [Lit "Total: ";
         Num (calculateTotalFromCounts (map countStarsInLine (wrappers p)));
         Lit " STARS"].
Proof.
  intro H. unfold updateAllDisplays, bind. rewrite updateAllLinesDisplay_run.
  destruct (updateTotalDisplay_result
              (calculateTotalFromCounts (map countStarsInLine (wrappers p)))
              (mkPage (map rendered (wrappers p)) (mainContainer p)
                      (totalDisplay p)) H) as (p1 & H1 & Hw & Ht).
  exists p1. auto.
Qed.

Lemma updateAllDisplays_throws (p : Page) :
  totalDisplay p = NoTotalDisplay -> mainContainer p = NoMain ->
  updateAllDisplays p
  = (Throw TypeError, mkPage (map rendered (wrappers p)) NoMain NoTotalDisplay).
Proof.
  intros Ht Hm. unfold updateAllDisplays, bind. rewrite updateAllLinesDisplay_run.
  rewrite Ht, Hm. apply (updateTotalDisplay_throws_with (Some _)); reflexivity.
Qed.

Lemma attachClickHandler_cases (w : LineWiring) :
  (clickHandlerAttached w = Some "true"%string /\ attachClickHandler w = w) \/
  (clickHandlerAttached w <> Some "true"%string /\
   attachClickHandler w
   = mkWiring (Some "true"%string) (S (clickListeners w)) "pointer").
Proof.
  unfold attachClickHandler. destruct w as [[flag|] n c]; simpl.
  - destruct (String.eqb_spec flag "true") as [->|Hne].
    + left. split; reflexivity.
    + right. split; [congruence | reflexivity].
  - right. split; [discriminate | reflexivity].
Qed.

Lemma attachClickHandler_flag (w : LineWiring) :
  clickHandlerAttached (attachClickHandler w) = Some "true"%string.
Proof.
  destruct (attachClickHandler_cases w) as [[H ->] | [_ ->]]; [exact H | reflexivity].
Qed.

Lemma attachClickHandler_listeners (w : LineWiring) :
  clickListeners w <= clickListeners (attachClickHandler w) <= S (clickListeners w).
Proof.
  destruct (attachClickHandler_cases w) as [[_ ->] | [_ ->]]; simpl; lia.
Qed.

(** A line rendered and given its controls is left alone by both steps. *)
Lemma ready_labelled (l : Line) : labelled (wired (rendered l)).
Proof. apply wired_labelled, rendered_labelled. Qed.

Lemma ready_markers (l : Line) : markers (wired (rendered l)) = markers l.
Proof. now rewrite wired_markers, rendered_markers. Qed.

Lemma ready_count (l : Line) :
  countStarsInLine (wired (rendered l)) = countStarsInLine l.
Proof. apply countStarsInLine_markers, ready_markers. Qed.

Lemma ready_fixed (l : Line) :
  wired (rendered (wired (rendered l))) = wired (rendered l).
Proof. now rewrite (labelled_rendered _ (ready_labelled l)), wired_idempotent. Qed.

Lemma initializeStarCounter_result (d : Document) :
  wrappers (page d) <> [] ->
  totalDisplay (page d) <> NoTotalDisplay \/ mainContainer (page d) <> NoMain ->
  exists d',
    initializeStarCounter d = (Normal tt, d') /\
    wrappers (page d') = map (fun l => wired (rendered l)) (wrappers (page d)) /\
    totalDisplay (page d')
    = TotalDisplayDiv true
        [Lit "Total: ";
         Num (calculateTotalFromCounts (map countStarsInLine (wrappers (page d))));
         Lit " STARS"] /\
    console d' = console d ++ [LogInitialized (length (wrappers (page d)))] /\
    forall j, wiring d' j
              = if j <? length (wrappers (page d))
                then attachClickHandler (wiring d j) else wiring d j.
Proof.
  intros Hne Hreg.
  destruct (updateAllDisplays_result (page d) Hreg) as (p1 & H1 & Hw1 & Ht1).
  destruct (initializeStarCounter_run d p1 Hne H1) as (d' & H & Hp & Hc & Hw).
  exists d'. split; [exact H|]. rewrite Hp. simpl.
  split; [now rewrite Hw1, map_map|]. auto.
Qed.

(** X16.  [initializeStarCounter] ends in one of three ways.  On a page
    without lines it writes the warning to the console and touches nothing
    else.  On a page with lines but with neither aggregate region nor main
    container it throws a TypeError: the lines are rendered by then, but no
    click handler is attached, no button is added and nothing is logged.
    Otherwise it completes and logs the number of lines, once. *)
Theorem initializeStarCounter_outcome (d : Document) :
  (wrappers (page d) = [] ->
   initializeStarCounter d
   = (Normal tt, mkDocument (page d) (wiring d) (console d ++ [WarnNoLines]))) /\
  (wrappers (page d) <> [] ->
   totalDisplay (page d) = NoTotalDisplay -> mainContainer (page d) = NoMain ->
   initializeStarCounter d
   = (Throw TypeError,
      mkDocument (mkPage (map rendered (wrappers (page d))) NoMain NoTotalDisplay)
                 (wiring d) (console d))) /\
  (wrappers (page d) <> [] ->
   totalDisplay (page d) <> NoTotalDisplay \/ mainContainer (page d) <> NoMain ->
   exists d',
     initializeStarCounter d = (Normal tt, d') /\
     console d' = console d ++ [LogInitialized (length (wrappers (page d)))]).
Proof.
  split; [|split].
  - apply initializeStarCounter_empty.
  - intros Hne Ht Hm. apply initializeStarCounter_fails; [exact Hne|].
    now apply updateAllDisplays_throws.
  - intros Hne Hreg.
    destruct (initializeStarCounter_result d Hne Hreg) as (d' & H & _ & _ & Hc & _).
    exists d'. now split.
Qed.

Lemma initializeStarCounter_outcome_witness :
  initializeStarCounter (mkDocument (mkPage [] (MainDiv false) NoTotalDisplay) noWiring [])
  = (Normal tt,
     mkDocument (mkPage [] (MainDiv false) NoTotalDisplay) noWiring [WarnNoLines]) /\
  initializeStarCounter (mkDocument (mkPage [[FullStar]] NoMain NoTotalDisplay) noWiring [])
  = (Throw TypeError,
     mkDocument (mkPage (map rendered [[FullStar]]) NoMain NoTotalDisplay) noWiring []) /\
  exists d',
    initializeStarCounter suppliedDocument = (Normal tt, d') /\
    console d' = [LogInitialized 3].
Proof.
  split; [|split].
  - apply (proj1 (initializeStarCounter_outcome
                    (mkDocument (mkPage [] (MainDiv false) NoTotalDisplay) noWiring [])));
      reflexivity.
  - apply (proj1 (proj2 (initializeStarCounter_outcome
                           (mkDocument (mkPage [[FullStar]] NoMain NoTotalDisplay)
                                       noWiring []))));
      [discriminate | reflexivity | reflexivity].
  - apply (proj2 (proj2 (initializeStarCounter_outcome suppliedDocument)));
      [discriminate | right; discriminate].
Defined.

(** X17.  What a completed initialization establishes: every line is the
    rendered line with its controls, with the stars it had; every line is
    labelled with its own total and colour and has a control region; the
    aggregate region shows the sum of the totals; every line of the page
    carries the flag "true" and has gained at most one click listener; the
    wiring elsewhere is untouched; and when the lines were canonical the
    page is tidy. *)
Theorem initializeStarCounter_establishes (d : Document) :
  wrappers (page d) <> [] ->
  totalDisplay (page d) <> NoTotalDisplay \/ mainContainer (page d) <> NoMain ->
  exists d',
    initializeStarCounter d = (Normal tt, d') /\
    wrappers (page d') = map (fun l => wired (rendered l)) (wrappers (page d)) /\
    map markers (wrappers (page d')) = map markers (wrappers (page d)) /\
    Forall (fun l => labelled l /\ In StarControls l) (wrappers (page d')) /\
    inSync (page d') /\
    (forall j, j < length (wrappers (page d)) ->
               clickHandlerAttached (wiring d' j) = Some "true"%string /\
               clickListeners (wiring d j) <= clickListeners (wiring d' j)
               <= S (clickListeners (wiring d j))) /\
    (forall j, length (wrappers (page d)) <= j -> wiring d' j = wiring d j) /\
    (Forall (fun l => canonical l = true) (wrappers (page d)) -> tidy (page d')).
Proof.
  intros Hne Hreg.
  destruct (initializeStarCounter_result d Hne Hreg) as (d' & H & Hw & Ht & _ & Hwi).
  assert (inSync (page d')) as Hsync.
  { eexists. split; [unfold displayedTotal; rewrite Ht; reflexivity|].
    rewrite Hw, <- (map_map rendered wired), sumTotals_wired, sumTotals_rendered.
    apply calculateTotalFromCounts_sum. }
  exists d'. split; [exact H|]. split; [exact Hw|]. rewrite Hw.
  split; [|split; [|split; [|split; [|split]]]].
  - rewrite map_map. apply map_ext, ready_markers.
  - apply Forall_map, Forall_forall. intros l _.
    split; [apply ready_labelled | apply wired_has_controls].
  - exact Hsync.
  - intros j Hj. rewrite Hwi. apply Nat.ltb_lt in Hj. rewrite Hj.
    split; [apply attachClickHandler_flag | apply attachClickHandler_listeners].
  - intros j Hj. rewrite Hwi. apply Nat.ltb_ge in Hj. now rewrite Hj.
  - intro Hcan. split; [exact Hsync|]. rewrite Hw.
    apply Forall_map. rewrite Forall_forall in Hcan |- *. intros l Hl.
    split; [|apply ready_labelled].
    apply wired_canonical.
    apply (updateLineDisplay_canonical _ _ _ (rendered_run l)). now apply Hcan.
Qed.

Lemma initializeStarCounter_establishes_witness :
  exists d',
    initializeStarCounter suppliedDocument = (Normal tt, d') /\
    wrappers (page d')
    = map (fun l => wired (rendered l)) (wrappers (page suppliedDocument)) /\
    tidy (page d').
Proof.
  destruct (initializeStarCounter_establishes suppliedDocument)
    as (d' & H & Hw & _ & _ & _ & _ & _ & Ht).
  - discriminate.
  - right. discriminate.
  - exists d'. split; [exact H|]. split; [exact Hw|].
    apply Ht. repeat constructor.
Defined.

(** X18.  Running the script a second time on the document it has
    initialized completes, leaves the page and the wiring of every line as
    they are (no second count display, control region, aggregate region or
    click listener), and logs the same message once more. *)
Theorem initializeStarCounter_twice (d : Document) :
  wrappers (page d) <> [] ->
  totalDisplay (page d) <> NoTotalDisplay \/ mainContainer (page d) <> NoMain ->
  exists d1 d2,
    initializeStarCounter d = (Normal tt, d1) /\
    initializeStarCounter d1 = (Normal tt, d2) /\
    page d2 = page d1 /\
    (forall j, wiring d2 j = wiring d1 j) /\
    console d2 = console d1 ++ [LogInitialized (length (wrappers (page d)))].
Proof.
  intros Hne Hreg.
  destruct (initializeStarCounter_result d Hne Hreg)
    as (d1 & H1 & Hw1 & Ht1 & _ & Hwi1).
  assert (length (wrappers (page d1)) = length (wrappers (page d))) as Hlen
      by (rewrite Hw1; apply length_map).
  assert (wrappers (page d1) <> []) as Hne1.
  { intro E. rewrite E in Hlen. symmetry in Hlen.
    now apply length_zero_iff_nil in Hlen. }
  assert (totalDisplay (page d1) <> NoTotalDisplay \/
          mainContainer (page d1) <> NoMain) as Hreg1
      by (left; rewrite Ht1; discriminate).
  destruct (initializeStarCounter_result d1 Hne1 Hreg1)
    as (d2 & H2 & Hw2 & Ht2 & Hc2 & Hwi2).
  assert (map countStarsInLine (wrappers (page d1))
          = map countStarsInLine (wrappers (page d))) as Hcounts
      by (rewrite Hw1, map_map; apply map_ext, ready_count).
  assert (mainContainer (page d2) = mainContainer (page d1)) as Hm.
  { destruct (updateAllDisplays_result (page d1) Hreg1) as (p1 & Hp1 & Hwp1 & Htp1).
    destruct (initializeStarCounter_run d1 p1 Hne1 Hp1) as (d2' & H2' & Hp2' & _).
    rewrite H2 in H2'. injection H2' as <-. rewrite Hp2'. simpl.
    assert (updateAllDisplays (page d1) = (Normal tt, page d1)) as Hsame.
    { unfold updateAllDisplays, bind. rewrite updateAllLinesDisplay_run.
      assert (map rendered (wrappers (page d1)) = wrappers (page d1)) as ->.
      { rewrite Hw1, map_map. apply map_ext. intro l.
        apply labelled_rendered, ready_labelled. }
      rewrite page_eta, Hcounts.
      exact (updateTotalDisplay_again _ (page d1) true Ht1 eq_refl). }
    rewrite Hsame in Hp1. now injection Hp1 as <-. }
  exists d1, d2. split; [exact H1|]. split; [exact H2|].
  split; [|split].
  - rewrite <- (page_eta (page d2)), <- (page_eta (page d1)).
    rewrite Hw2, Ht2, Hm, Hcounts, Ht1. f_equal.
    rewrite Hw1, map_map. apply map_ext, ready_fixed.
  - intro j. rewrite Hwi2, Hlen, Hwi1.
    destruct (j <? length (wrappers (page d))); [|reflexivity].
    apply attachClickHandler_idempotent.
  - now rewrite Hc2, Hlen.
Qed.

Lemma initializeStarCounter_twice_witness :
  exists d1 d2,
    initializeStarCounter suppliedDocument = (Normal tt, d1) /\
    initializeStarCounter d1 = (Normal tt, d2) /\
    page d2 = page d1 /\
    (forall j, wiring d2 j = wiring d1 j) /\
    console d2 = console d1 ++ [LogInitialized 3].
Proof.
  apply (initializeStarCounter_twice suppliedDocument);
    [discriminate | right; discriminate].
Defined.

(** X19.  [attachClickHandlers] completes and touches neither page nor
    console.  A line whose flag is already "true" keeps its wiring; any
    other line of the page gets the flag "true", one more click listener
    and the pointer cursor; the wiring elsewhere is untouched; and running
    it again adds no listener. *)
Theorem attachClickHandlers_once (d : Document) :
  exists d',
    attachClickHandlers d = (Normal tt, d') /\
    page d' = page d /\ console d' = console d /\
    (forall j, j < length (wrappers (page d)) ->
               (clickHandlerAttached (wiring d j) = Some "true"%string ->
                wiring d' j = wiring d j) /\
               (clickHandlerAttached (wiring d j) <> Some "true"%string ->
                wiring d' j
                = mkWiring (Some "true"%string) (S (clickListeners (wiring d j)))
                           "pointer")) /\
    (forall j, length (wrappers (page d)) <= j -> wiring d' j = wiring d j) /\
    exists d'',
      attachClickHandlers d' = (Normal tt, d'') /\
      forall j, wiring d'' j = wiring d' j.
Proof.
  destruct (attachClickHandlers_run d) as (d' & H & Hp & Hc & Hw).
  exists d'. split; [exact H|]. split; [exact Hp|]. split; [exact Hc|].
  split; [|split].
  - intros j Hj. rewrite Hw. apply Nat.ltb_lt in Hj. rewrite Hj.
    destruct (attachClickHandler_cases (wiring d j)) as [[Hf ->] | [Hf ->]];
      split; intro Hf'; try reflexivity; contradiction.
  - intros j Hj. rewrite Hw. apply Nat.ltb_ge in Hj. now rewrite Hj.
  - destruct (attachClickHandlers_run d') as (d'' & H' & _ & _ & Hw').
    exists d''. split; [exact H'|]. intro j. rewrite Hw', Hp, Hw.
    destruct (j <? length (wrappers (page d))); [|reflexivity].
    apply attachClickHandler_idempotent.
Qed.

Lemma attachClickHandlers_once_witness :
  exists d',
    attachClickHandlers
      (mkDocument suppliedPage
         (fun j => if j =? 1 then mkWiring (Some "true"%string) 1 "pointer"
                   else mkWiring None 0 "")
         [])
    = (Normal tt, d') /\
    wiring d' 0 = mkWiring (Some "true"%string) 1 "pointer" /\
    wiring d' 1 = mkWiring (Some "true"%string) 1 "pointer" /\
    wiring d' 3 = mkWiring None 0 "".
Proof.
  destruct (attachClickHandlers_once
              (mkDocument suppliedPage
                 (fun j => if j =? 1 then mkWiring (Some "true"%string) 1 "pointer"
                           else mkWiring None 0 "")
                 []))
    as (d' & H & _ & _ & Hin & Hout & _).
  exists d'. split; [exact H|]. split; [|split].
  - apply (proj2 (Hin 0 ltac:(simpl; lia))). discriminate.
  - apply (proj1 (Hin 1 ltac:(simpl; lia))). reflexivity.
  - apply (Hout 3). simpl. lia.
Defined.

(** X20.  [addButtonsToAllLines] completes; it leaves a line that has a
    control region as it is and appends one to every other line, so that
    every line has one afterwards; it touches neither the main container
    nor the aggregate region; and running it again changes nothing. *)
Theorem addButtonsToAllLines_outcome (p : Page) :
  exists p',
    addButtonsToAllLines p = (Normal tt, p') /\
    Forall2 (fun l l' => (In StarControls l -> l' = l) /\
                         (~ In StarControls l -> l' = l ++ [StarControls]))
            (wrappers p) (wrappers p') /\
    Forall (In StarControls) (wrappers p') /\
    mainContainer p' = mainContainer p /\ totalDisplay p' = totalDisplay p /\
    addButtonsToAllLines p' = (Normal tt, p').
Proof.
  eexists. split; [apply addButtonsToAllLines_run|]. simpl.
  split; [|split; [|split; [|split]]]; try reflexivity.
  - induction (wrappers p) as [|l ws IH]; simpl; constructor; [|exact IH].
    destruct (wired_cases l) as [[Hin ->] | [Hin ->]]; split; intro H;
      try reflexivity; contradiction.
  - apply Forall_map, Forall_forall. intros l _. apply wired_has_controls.
  - rewrite addButtonsToAllLines_run. simpl. rewrite map_map.
    now rewrite (map_ext _ _ wired_idempotent).
Qed.

Lemma addButtonsToAllLines_outcome_witness :
  exists p',
    addButtonsToAllLines (mkPage [[FullStar; StarControls]; [HalfStar]] NoMain NoTotalDisplay)
    = (Normal tt, p') /\
    wrappers p' = [[FullStar; StarControls]; [HalfStar; StarControls]].
Proof.
  destruct (addButtonsToAllLines_outcome
              (mkPage [[FullStar; StarControls]; [HalfStar]] NoMain NoTotalDisplay))
    as (p' & H & H2 & _).
  exists p'. split; [exact H|].
  simpl in H2. inversion H2 as [|l1 l1' r1 r1' [Ha _] H3 E1 E2]; subst.
  inversion H3 as [|l2 l2' r2 r2' [_ Hb] H4 E3 E4]; subst.
  inversion H4; subst.
  rewrite Ha by (right; now left).
  rewrite Hb by (intros [E|[]]; discriminate).
  reflexivity.
Defined.

(* ================================================================== *)
(** ** Further properties of the counter *)

(** X21.  [countStarsInLine] is additive: the counts and the total of a
    line made of two parts are the sums of the counts and totals of the
    parts, so the order of the parts does not matter. *)
Theorem countStarsInLine_additive (a b : Line) :
  let ca := countStarsInLine a in
  let cb := countStarsInLine b in
  let c := countStarsInLine (a ++ b) in
  fullStars c = fullStars ca + fullStars cb /\
  halfStars c = halfStars ca + halfStars cb /\
  (total c == total ca + total cb)%Q /\
  countStarsInLine (b ++ a) = c.
Proof.
  cbv zeta. rewrite !countStarsInLine_eq, !cnt_app. cbn [fullStars halfStars total].
  split; [reflexivity|]. split; [reflexivity|]. split.
  - unfold ofNat. rewrite !Nat2Z.inj_add, !inject_Z_plus. ring.
  - now rewrite (Nat.add_comm (cnt CSS_CLASSES.FULL_STAR b)),
      (Nat.add_comm (cnt CSS_CLASSES.HALF_STAR b)).
Qed.

(** X22.  The colour the renderer gives a line, read off the line's stars:
    green when the line has a half star, whatever its total; otherwise red
    with at most two full stars and yellow with three or more. *)
Theorem line_colour_by_stars (l : Line) :
  getColorForStarCount (countStarsInLine l)
  = if 0 <? cnt CSS_CLASSES.HALF_STAR l then COLORS.GREEN
    else if cnt CSS_CLASSES.FULL_STAR l <=? 2 then COLORS.RED
         else COLORS.YELLOW.
Proof.
  rewrite countStarsInLine_eq. unfold getColorForStarCount.
  cbn [fullStars halfStars total].
  destruct (0 <? cnt CSS_CLASSES.HALF_STAR l) eqn:Eh; [reflexivity|].
  apply Nat.ltb_ge in Eh.
  assert (cnt CSS_CLASSES.HALF_STAR l = 0) as -> by lia.
  assert (Qle_bool (ofNat (cnt CSS_CLASSES.FULL_STAR l) + ofNat 0 * (1 # 2))
                   COLOR_THRESHOLDS.RED
          = (cnt CSS_CLASSES.FULL_STAR l <=? 2)) as ->; [|reflexivity].
  assert (ofNat (cnt CSS_CLASSES.FULL_STAR l) + ofNat 0 * (1 # 2)
          == ofNat (cnt CSS_CLASSES.FULL_STAR l))%Q as E
      by (change (ofNat 0) with 0%Q; ring).
  destruct (cnt CSS_CLASSES.FULL_STAR l <=? 2) eqn:En.
  - apply Qle_bool_iff. rewrite E. apply Nat.leb_le in En.
    change COLOR_THRESHOLDS.RED with (ofNat 2). now apply ofNat_le.
  - apply Nat.leb_gt in En.
    destruct (Qle_bool _ COLOR_THRESHOLDS.RED) eqn:Eq; [|reflexivity].
    apply Qle_bool_iff in Eq. rewrite E in Eq.
    change COLOR_THRESHOLDS.RED with (ofNat 2) in Eq. apply ofNat_le in Eq. lia.
Qed.
